(** * Pyleoclim_util: surrogate generation and geo-annotated ensembles

    A shallow embedding of
      - [pyleoclim/core/ensemblegeoseries.py]  ([EnsembleGeoSeries.__init__])
      - [pyleoclim/core/surrogateseries.py]    ([SurrogateSeries.__init__],
        [from_series], [from_param])
    together with the properties the specification states about them,
    and of [EnsembleGeoSeries.make_labels], [EnsembleGeoSeries.dashboard]
    and [MultipleGeoSeries.__init__]
    ([pyleoclim/core/multiplegeoseries.py]) with further properties of
    all six methods.

    Conventions of the embedding.
      - A Python number is an exact rational ([Q]); binary64 rounding is
        outside the model, except for the even time axis, whose running
        sum [Binary64] follows in binary64.
      - An attribute that may never be assigned is an [option]: [None] is
        "the object has no such attribute".
      - A Python call that may raise returns a [result]; a method that
        mutates [self] or process-wide state runs in the monad [M], whose
        state survives a raised exception. *)

From Stdlib Require Import List String Ascii Bool Arith ZArith QArith Lia.
From Stdlib Require Import DecimalString.
From Stdlib Require Floats.
Import ListNotations.

Local Open Scope list_scope.
Local Open Scope string_scope.

(* ================================================================== *)
(** ** Python runtime: exceptions, results, the state-and-exception monad *)

Module Py.

(** The exception classes that the embedded code can raise. *)
Inductive exn : Type :=
| ValueError (msg : string)
| TypeError (msg : string)
| AttributeError (msg : string)
| IndexError (msg : string)
| UnboundLocalError (msg : string).


Definition message (e : exn) : string :=
  match e with
  | ValueError m | TypeError m | AttributeError m
  | IndexError m | UnboundLocalError m => m
  end.

Inductive result (A : Type) : Type :=
| Ok (a : A)
| Raise (e : exn).
Arguments Ok {A} a.
Arguments Raise {A} e.

Definition is_ok {A} (r : result A) : bool :=
  match r with Ok _ => true | Raise _ => false end.

(** [str(n)] for a non-negative [int]. *)
Definition str_nat (n : nat) : string :=
  NilZero.string_of_uint (Nat.to_uint n).

(** [needle in haystack] for two [str]. *)
Fixpoint str_contains (needle haystack : string) : bool :=
  String.prefix needle haystack
  || match haystack with
     | EmptyString => false
     | String _ rest => str_contains needle rest
     end.

(** [x in l] for a list of [str]. *)
Definition str_in (x : string) (l : list string) : bool :=
  existsb (String.eqb x) l.

(** [all(l)]. *)
Definition all (l : list bool) : bool := forallb (fun b => b) l.

(** [enumerate(l)]. *)
Definition enumerate {A} (l : list A) : list (nat * A) :=
  combine (seq 0 (List.length l)) l.

(** [zip(l1, l2)] is [combine]. *)
Definition zip {A B} (l1 : list A) (l2 : list B) : list (A * B) :=
  combine l1 l2.

(** [s or ''] followed by [str(_)], for [s] that is [None] or a [str]. *)
Definition str_or_empty (s : option string) : string :=
  match s with
  | None => ""
  | Some t => t
  end.

End Py.
Export Py.

(* ================================================================== *)
(** ** EnsembleGeoSeries *)

Module EnsembleGeo.

(** A member of [series_list]: a [GeoSeries], which carries its own
    coordinates, or some other object (a plain [Series], say). *)
Record GeoSeries : Type := mkGeoSeries {
  gs_label : option string;
  gs_lat : Q;
  gs_lon : Q
}.

Inductive member : Type :=
| IsGeoSeries (g : GeoSeries)
| NotGeoSeries (type_name : string).

(** [isinstance(ts, GeoSeries)]. *)
Definition isinstance_GeoSeries (ts : member) : bool :=
  match ts with IsGeoSeries _ => true | NotGeoSeries _ => false end.

(** The attributes that [__init__] may assign.  [lat] and [lon] are
    [None] when the constructor returned without ever assigning them. *)
Record EnsembleGeoSeries : Type := mkEnsembleGeoSeries {
  series_list : list member;
  lat : option Q;
  lon : option Q;
  elevation : option Q;
  archiveType : option string;
  control_archiveType : bool;
  sensorType : option string;
  observationType : option string;
  depth : option (list Q);
  depth_name : option string;
  depth_unit : option string
}.

(** Modelled from the spec: [EnsembleSeries.__init__] is not part of the
    sources; the ensemble-collection base "exposes an ordered, mutable
    [series_list] field", so [super().__init__(series_list)] stores the
    list and assigns neither [lat] nor [lon]. *)
Definition super_init (sl : list member) : EnsembleGeoSeries :=
  {| series_list := sl; lat := None; lon := None; elevation := None;
     archiveType := None; control_archiveType := false;
     sensorType := None; observationType := None; depth := None;
     depth_name := None; depth_unit := None |}.

Definition set_lat (v : Q) (o : EnsembleGeoSeries) : EnsembleGeoSeries :=
  {| series_list := series_list o; lat := Some v; lon := lon o;
     elevation := elevation o; archiveType := archiveType o;
     control_archiveType := control_archiveType o;
     sensorType := sensorType o; observationType := observationType o;
     depth := depth o; depth_name := depth_name o;
     depth_unit := depth_unit o |}.

Definition set_lon (v : Q) (o : EnsembleGeoSeries) : EnsembleGeoSeries :=
  {| series_list := series_list o; lat := lat o; lon := Some v;
     elevation := elevation o; archiveType := archiveType o;
     control_archiveType := control_archiveType o;
     sensorType := sensorType o; observationType := observationType o;
     depth := depth o; depth_name := depth_name o;
     depth_unit := depth_unit o |}.

(** [-90 <= lat <= 90] and [-180 < lon <= 360]. *)
Definition lat_in_range (x : Q) : bool :=
  Qle_bool (-90) x && Qle_bool x 90.

Definition Qlt_bool (x y : Q) : bool := negb (Qle_bool y x).

Definition lon_in_range (x : Q) : bool :=
  Qlt_bool (-180) x && Qle_bool x 360.

(** [series_list[0].lat] on a list whose members all are [GeoSeries]:
    an empty list raises [IndexError]. *)
Definition first_member (sl : list member) : result GeoSeries :=
  match sl with
  | [] => Raise (IndexError "list index out of range")
  | IsGeoSeries g :: _ => Ok g
  | NotGeoSeries _ :: _ =>
      Raise (AttributeError "object has no attribute 'lat'")
  end.

(** The trailing assignments of [__init__] (lines 113-120). *)
Definition set_metadata (elevation : option Q) (archiveType : option string)
    (control_archiveType : bool) (sensorType observationType : option string)
    (depth : option (list Q)) (depth_name depth_unit : option string)
    (o : EnsembleGeoSeries) : EnsembleGeoSeries :=
  {| series_list := series_list o; lat := lat o; lon := lon o;
     elevation := elevation; archiveType := archiveType;
     control_archiveType := control_archiveType;
     sensorType := sensorType; observationType := observationType;
     depth := depth; depth_name := depth_name; depth_unit := depth_unit |}.

(** [EnsembleGeoSeries.__init__].  In the last branch the two
    [ValueError(...)] expressions build an exception object and drop it:
    there is no [raise] in front of them, so control falls through. *)
Definition init (sl : list member) (lat lon : option Q)
    (elevation : option Q) (archiveType : option string)
    (control_archiveType : bool) (sensorType observationType : option string)
    (depth : option (list Q)) (depth_name depth_unit : option string)
    : result EnsembleGeoSeries :=
  let self := super_init sl in
  let finish := set_metadata elevation archiveType control_archiveType
                  sensorType observationType depth depth_name depth_unit in
  match lat with
  | None =>
      if negb (all (map isinstance_GeoSeries sl)) then
        Raise (ValueError
          "If lat is not passed, all components must be GeoSeries objects")
      else
        match first_member sl with
        | Raise e => Raise e
        | Ok g => Ok (finish (set_lat (gs_lat g) self))
        end
  | Some lat =>
      match lon with
      | None =>
          if negb (all (map isinstance_GeoSeries sl)) then
            Raise (ValueError
              "If lon is not passed, all components must be GeoSeries objects")
          else
            match first_member sl with
            | Raise e => Raise e
            | Ok g => Ok (finish (set_lon (gs_lon g) self))
            end
      | Some lon =>
          let self :=
            if lat_in_range lat then set_lat lat self
            else
              let _ := ValueError "Latitude must be a number in [-90; 90]" in
              self in
          let self :=
            if lon_in_range lon then set_lon lon self
            else
              let _ := ValueError "Longitude must be a number in [-180,360]" in
              self in
          Ok (finish self)
      end
  end.

End EnsembleGeo.

(* ================================================================== *)
(** ** The fragment of numpy that the surrogate engine uses *)

Module Np.

(** A two-dimensional array: its shape and its cells.  Cells outside the
    shape are never read. *)
Record matrix : Type := mkMatrix {
  nrows : nat;
  ncols : nat;
  cell : nat -> nat -> Q
}.

(** An array of dimension 0, 1 or 2. *)
Inductive ndarray : Type :=
| Arr0 (x : Q)
| Arr1 (l : list Q)
| Arr2 (m : matrix).

(** [np.cumsum(l)] on a one-dimensional input, the sums taken exactly;
    [Binary64.cumsum] below is the same with the rounding of binary64. *)
Fixpoint cumsum_from (acc : Q) (l : list Q) : list Q :=
  match l with
  | [] => []
  | x :: rest => (acc + x) :: cumsum_from (acc + x) rest
  end.

Definition cumsum (l : list Q) : list Q :=
  match l with
  | [] => []
  | x :: rest => x :: cumsum_from x rest
  end.

(** [np.tile(t, (reps, 1))] for one-dimensional [t]: [reps] rows, each
    a copy of [t]. *)
Definition tile (t : list Q) (reps : nat) : matrix :=
  {| nrows := reps; ncols := List.length t;
     cell := fun _ j => nth j t 0 |}.

(** [m.T]. *)
Definition transpose (m : matrix) : matrix :=
  {| nrows := ncols m; ncols := nrows m;
     cell := fun i j => cell m j i |}.

(** [np.zeros((r, c))]. *)
Definition zeros (r c : nat) : matrix :=
  {| nrows := r; ncols := c; cell := fun _ _ => 0 |}.

(** Row [i] and column [j] of a matrix, and all its rows in order. *)
Definition row (m : matrix) (i : nat) : list Q :=
  map (fun j => cell m i j) (seq 0 (ncols m)).

Definition column (m : matrix) (j : nat) : list Q :=
  map (fun i => cell m i j) (seq 0 (nrows m)).

Definition rows (m : matrix) : list (list Q) :=
  map (row m) (seq 0 (nrows m)).

(** [a.T] on an array of any dimension: only a 2-D array changes. *)
Definition ndT (a : ndarray) : ndarray :=
  match a with
  | Arr2 m => Arr2 (transpose m)
  | _ => a
  end.

(** [np.squeeze(m)]: axes of length one are dropped. *)
Definition squeeze (m : matrix) : ndarray :=
  match nrows m, ncols m with
  | 1%nat, 1%nat => Arr0 (cell m 0 0)
  | _, 1%nat => Arr1 (column m 0)
  | 1%nat, _ => Arr1 (row m 0)
  | _, _ => Arr2 m
  end.

(** [np.size(a)]: the number of elements. *)
Definition size (a : ndarray) : nat :=
  match a with
  | Arr0 _ => 1%nat
  | Arr1 l => List.length l
  | Arr2 m => (nrows m * ncols m)%nat
  end.

(** [iter(a)], as [for], [enumerate] and [zip] call it: the items along
    the first axis; a 0-d array cannot be iterated. *)
Definition iter (a : ndarray) : result (list ndarray) :=
  match a with
  | Arr0 _ => Raise (TypeError "iteration over a 0-d array")
  | Arr1 l => Ok (map Arr0 l)
  | Arr2 m => Ok (map Arr1 (rows m))
  end.

(** [m[:, j] = v] with numpy's broadcasting: [v] must have as many
    entries as [m] has rows, or exactly one. *)
Definition assign_column (m : matrix) (j : nat) (v : list Q)
    : result matrix :=
  if Nat.eqb (List.length v) (nrows m) then
    Ok {| nrows := nrows m; ncols := ncols m;
          cell := fun a b => if Nat.eqb b j then nth a v 0 else cell m a b |}
  else if Nat.eqb (List.length v) 1 then
    Ok {| nrows := nrows m; ncols := ncols m;
          cell := fun a b => if Nat.eqb b j then nth 0 v 0 else cell m a b |}
  else
    Raise (ValueError "could not broadcast input array into shape")
  .

(** Two arrays have the same shape. *)
Definition same_shape (a b : ndarray) : Prop :=
  match a, b with
  | Arr0 _, Arr0 _ => True
  | Arr1 l1, Arr1 l2 => List.length l1 = List.length l2
  | Arr2 m1, Arr2 m2 => nrows m1 = nrows m2 /\ ncols m1 = ncols m2
  | _, _ => False
  end.

(** An array is two-dimensional with [r] rows and [c] columns. *)
Definition has_shape2 (a : ndarray) (r c : nat) : Prop :=
  match a with
  | Arr2 m => nrows m = r /\ ncols m = c
  | _ => False
  end.

(** What a loop over [y.T] sees when [y] holds [N] columns of [L] values
    each: [N] items of [L] elements. *)
Definition columns_seen (y : ndarray) (L N : nat) : Prop :=
  exists cols,
    iter (ndT y) = Ok cols
    /\ List.length cols = N
    /\ Forall (fun c => size c = L) cols.

End Np.
Export Np.

(* ================================================================== *)
(** ** SurrogateSeries *)

Module Surrogate.

(** Modelled from the spec: the [Series] class is not part of the sources.
    "A single time-value pair of equal-length ordered sequences plus a
    display label and provenance flag indicating whether time-axis
    parameters were auto-derived."  [value] is whatever array the
    caller stored; [label] may be [None]. *)
Record Series : Type := mkSeries {
  time : list Q;
  value : ndarray;
  label : option string;
  auto_time_params : option bool
}.

(** [target_series.copy()] yields an independent entity with the same
    contents. *)
Definition copy (s : Series) : Series := s.

Definition set_value (y : ndarray) (s : Series) : Series :=
  {| time := time s; value := y; label := label s;
     auto_time_params := auto_time_params s |}.

Definition set_label (l : string) (s : Series) : Series :=
  {| time := time s; value := value s; label := Some l;
     auto_time_params := auto_time_params s |}.

(** The argument of [from_series]: a [Series] or an object of another
    type (named by [type_name]). *)
Inductive pyobj : Type :=
| PySeries (s : Series)
| PyOther (type_name : string).

(** [supported_surrogates], the module-level frozenset. *)
Definition supported_surrogates : list string :=
  ["ar1sim"; "phaseran"; "uar1"].

(** [repr] of that frozenset, elements in the order above; the order in
    which a frozenset of strings prints varies with the hash seed of the
    interpreter, so this is one of the texts the program can show. *)
Definition repr_supported : string :=
  "frozenset({'ar1sim', 'phaseran', 'uar1'})".

(** [f"{m}"] for a method that is [None] or a [str]. *)
Definition format_method (m : option string) : string :=
  match m with None => "None" | Some s => s end.

(** [self.method in names]. *)
Definition str_in_method (m : option string) (names : list string) : bool :=
  match m with None => false | Some s => str_in s names end.

(** [self.method == name]. *)
Definition method_is (m : option string) (name : string) : bool :=
  match m with None => false | Some s => String.eqb s name end.

(** The attributes of a [SurrogateSeries].  [__init__] assigns
    [self.label] only on the path where the [label] argument is [None];
    [sg_label = None] is an object without a [label] attribute.
    [number] is a count and [seed], when given, a non-negative integer. *)
Record SurrogateSeries : Type := mkSurrogateSeries {
  series_list : list Series;
  method : option string;
  param : option (list Q);
  number : nat;
  seed : option nat;
  sg_label : option string
}.

(** The [settings] dictionary of [from_param], one optional entry per
    recognised key: ['delta_t'], ['delta_t_dist'], ['param'], ['time']. *)
Record Settings : Type := mkSettings {
  delta_t : option Q;
  delta_t_dist : option string;
  dist_param : option (list Q);
  settings_time : option (list Q)
}.

Definition empty_settings : Settings :=
  {| delta_t := None; delta_t_dist := None; dist_param := None;
     settings_time := None |}.

(** *** The collaborators in [tsmodel], [tsutils] and [numpy.random] *)

(** Modelled from the spec: the samplers of [pyleoclim.utils.tsmodel] and
    [pyleoclim.utils.tsutils], [Series.is_evenly_spaced] and
    [numpy.random] are not part of the sources, so they are parameters
    of the development.  [G] is the state of the process-wide random
    generator ("mutable shared state is confined to the process-wide
    random generator's seed/state ..."); every sampler reads and
    advances it, and may raise. *)
Class TsLib (G : Type) : Type := {
  (** [np.random.seed(s)]: the process-wide generator restarts from a
      state that [s] alone determines. *)
  np_random_seed : nat -> G;
  (** [np.random.default_rng(s)]: a new, separate generator object. *)
  default_rng : nat -> G;
  (** [tsmodel.ar1_sim(y, p, t)]. *)
  ar1_sim : ndarray -> nat -> list Q -> G -> result ndarray * G;
  (** [tsutils.phaseran2(y, nsurr)]. *)
  phaseran2 : ndarray -> nat -> G -> result ndarray * G;
  (** [tsmodel.uar1_fit(y, t)]. *)
  uar1_fit : ndarray -> list Q -> G -> result (Q * Q) * G;
  (** [tsmodel.uar1_sim(t, tau, sigma_2)]. *)
  uar1_sim : ndarray -> Q -> Q -> G -> result ndarray * G;
  (** [tsmodel.random_time_index(n, delta_t_dist, param)]. *)
  random_time_index : nat -> string -> list Q -> G -> result (list Q) * G;
  (** [Series.is_evenly_spaced()]. *)
  is_evenly_spaced : Series -> bool;
  (** The contents of the memory that [np.empty_like] hands out. *)
  uninitialised : nat -> nat -> Q
}.

(** [np.empty_like(m)]. *)
Definition empty_like {G} {lib : TsLib G} (m : matrix) : matrix :=
  {| nrows := nrows m; ncols := ncols m; cell := uninitialised |}.

(** *** Process state and the monad of a method call *)

(** What a call can change: the process-wide generator, the warnings
    emitted so far (oldest first), and the receiver [self]. *)
Record state (G : Type) : Type := mkState {
  rng : G;
  warnlog : list string;
  self : SurrogateSeries
}.
Arguments mkState {G} rng warnlog self.
Arguments rng {G} s.
Arguments warnlog {G} s.
Arguments self {G} s.

Definition M (St A : Type) : Type := St -> result A * St.

Definition ret {St A} (a : A) : M St A := fun st => (Ok a, st).

Definition bind {St A B} (m : M St A) (k : A -> M St B) : M St B :=
  fun st =>
    match m st with
    | (Ok a, st') => k a st'
    | (Raise e, st') => (Raise e, st')
    end.

Definition raise {St A} (e : exn) : M St A := fun st => (Raise e, st).

Definition lift {St A} (r : result A) : M St A := fun st => (r, st).

Declare Scope py_scope.
Delimit Scope py_scope with py.
Notation "x <- m ;; k" := (bind m (fun x => k))
  (at level 61, m at next level, right associativity) : py_scope.
Notation "m ;; k" := (bind m (fun _ => k))
  (at level 61, right associativity) : py_scope.
Local Open Scope py_scope.

Section Engine.
Context {G : Type} {lib : TsLib G}.

Definition get_self : M (state G) SurrogateSeries :=
  fun st => (Ok (self st), st).

(** [warnings.warn(msg)]. *)
Definition warn (msg : string) : M (state G) unit :=
  fun st => (Ok tt, mkState (rng st) (warnlog st ++ [msg])%list (self st)).

(** A call into a sampler: it runs on the process-wide generator. *)
Definition call {A} (f : G -> result A * G) : M (state G) A :=
  fun st =>
    let (r, g) := f (rng st) in
    (r, mkState g (warnlog st) (self st)).

(** [np.random.seed(s)]. *)
Definition seed_global (s : nat) : M (state G) unit :=
  fun st => (Ok tt, mkState (np_random_seed s) (warnlog st) (self st)).

(** [self.param = p]. *)
Definition assign_param (p : list Q) : M (state G) unit :=
  fun st =>
    let o := self st in
    (Ok tt, mkState (rng st) (warnlog st)
       {| series_list := series_list o; method := method o;
          param := Some p; number := number o; seed := seed o;
          sg_label := sg_label o |}).

(** [self.series_list = l]. *)
Definition assign_series_list (l : list Series) : M (state G) unit :=
  fun st =>
    let o := self st in
    (Ok tt, mkState (rng st) (warnlog st)
       {| series_list := l; method := method o;
          param := param o; number := number o; seed := seed o;
          sg_label := sg_label o |}).

(** Reading a local variable that no branch has bound. *)
Definition read_local {A} (name : string) (v : option A)
    : M (state G) A :=
  match v with
  | Some a => ret a
  | None =>
      raise (UnboundLocalError
        ("cannot access local variable '" ++ name
         ++ "' where it is not associated with a value"))
  end.

(** Reading [self.label]. *)
Definition read_label : M (state G) string :=
  o <- get_self ;;
  match sg_label o with
  | Some l => ret l
  | None =>
      raise (AttributeError
        "'SurrogateSeries' object has no attribute 'label'")
  end.

(** [for x in l: body], the loop collecting what [body] appends. *)
Fixpoint for_each {A B} (body : A -> M (state G) B) (l : list A)
    : M (state G) (list B) :=
  match l with
  | [] => ret []
  | x :: rest =>
      y <- body x ;;
      ys <- for_each body rest ;;
      ret (y :: ys)
  end.

(** **** [SurrogateSeries.from_series] *)

(** The sampling step (lines 120-137).  No branch binds [y_surr] when
    [self.method] is none of the three names. *)
Definition apply_method_to_target (o : SurrogateSeries)
    (target_series : Series) : M (state G) (option ndarray) :=
  if method_is (method o) "ar1sim" then
    y <- call (ar1_sim (value target_series) (number o)
                 (time target_series)) ;;
    ret (Some y)
  else if method_is (method o) "phaseran" then
    if is_evenly_spaced target_series then
      y <- call (phaseran2 (value target_series) (number o)) ;;
      ret (Some y)
    else
      raise (ValueError
        "Phase-randomization presently requires evenly-spaced series.")
  else if method_is (method o) "uar1" then
    (* estimate theta with MLE *)
    fit <- call (uar1_fit (value target_series) (time target_series)) ;;
    let tau := fst fit in
    let sigma_2 := snd fit in
    assign_param [tau; sigma_2] ;;
    let times :=
      squeeze (transpose (tile (time target_series) (number o))) in
    y <- call (uar1_sim times tau sigma_2) ;;
    ret (Some y)
  else ret None.

(** The series built for column [y] at position [i] of the loop
    (lines 142-144). *)
Definition indexed_surrogate (target_series : Series)
    (iy : nat * ndarray) : Series :=
  let ts := copy target_series in
  let ts := set_value (snd iy) ts in
  set_label (str_or_empty (label target_series) ++ " surr #"
             ++ str_nat (fst iy + 1)) ts.

(** The series built when [number] is not greater than 1
    (lines 147-149). *)
Definition single_surrogate (target_series : Series) (y_surr : ndarray)
    : Series :=
  let ts := copy target_series in
  let ts := set_value y_surr ts in
  set_label (str_or_empty (label target_series) ++ " surr") ts.

(** The list of surrogates (lines 139-150). *)
Definition collect_surrogates (o : SurrogateSeries) (target_series : Series)
    (y_surr : option ndarray) : M (state G) (list Series) :=
  if (1 <? number o)%nat then
    y <- read_local "y_surr" y_surr ;;
    columns <- lift (iter (ndT y)) ;;
    ret (map (indexed_surrogate target_series) (enumerate columns))
  else
    y <- read_local "y_surr" y_surr ;;
    ret [single_surrogate target_series y].

Definition from_series (target : pyobj) : M (state G) unit :=
  target_series <-
    match target with
    | PySeries s => ret s
    | PyOther ty =>
        raise (TypeError ("Expected pyleo.Series, got: " ++ ty))
    end ;;
  o <- get_self ;;
  match seed o with
  | Some s => let _ := default_rng s in ret tt
  | None => ret tt
  end ;;
  y_surr <- apply_method_to_target o target_series ;;
  s_list <- collect_surrogates o target_series y_surr ;;
  assign_series_list s_list.

(** **** [SurrogateSeries.from_param] *)

(** The body of the loop of the ['random'] pattern, for column [i]
    (lines 213-215). *)
Definition fill_random_column (length : nat) (settings : Settings)
    (times : matrix) (i : nat) : M (state G) matrix :=
  let dist_name :=
    match delta_t_dist settings with
    | Some d => d
    | None => "exponential"
    end in
  let dist_param :=
    match dist_param settings with
    | Some p => p
    | None => [1]
    end in
  v <- call (random_time_index length dist_name dist_param) ;;
  lift (assign_column times i v).

(** [for i in range(number)] over the matrix being filled. *)
Fixpoint fill_random (length : nat) (settings : Settings)
    (columns : list nat) (times : matrix) : M (state G) matrix :=
  match columns with
  | [] => ret times
  | i :: rest =>
      times' <- fill_random_column length settings times i ;;
      fill_random length settings rest times'
  end.

(** The time axes (lines 206-222). *)
Definition time_axes (number length : nat) (time_pattern : string)
    (settings : Settings) : M (state G) matrix :=
  if String.eqb time_pattern "even" then
    let delta_t :=
      match delta_t settings with Some d => d | None => 1 end in
    let t := cumsum (repeat delta_t length) in
    ret (transpose (tile t number))
  else if String.eqb time_pattern "random" then
    fill_random length settings (seq 0 number) (zeros length number)
  else if String.eqb time_pattern "specified" then
    match settings_time settings with
    | None => raise (ValueError "'time' not found in settings")
    | Some t => ret (transpose (tile t number))
    end
  else
    raise (ValueError ("Unknown time pattern: " ++ time_pattern)).

(** Lines 197-222: the optional seeding, then the time axes. *)
Definition seed_and_time_axes (length : nat) (time_pattern : string)
    (settings : Settings) : M (state G) matrix :=
  o <- get_self ;;
  match seed o with
  | Some s => seed_global s
  | None => ret tt
  end ;;
  time_axes (number o) length time_pattern settings.

Definition ar_warning (nparam : nat) : string :=
  "The AR(1) model needs 2 parameters, tau and sigma2 (in that order); "
  ++ str_nat nparam
  ++ " provided. default values used, tau=5, sigma=0.5".

(** The sampling step (lines 225-234). *)
Definition apply_method (param : list Q) (times : matrix)
    : M (state G) ndarray :=
  let nparam := List.length param in
  o <- get_self ;;
  let y_surr := Arr2 (empty_like times) in
  if str_in_method (method o) ["uar1"; "ar1sim"] then
    param <-
      (if (nparam <? 2)%nat then
         warn (ar_warning nparam) ;;
         ret [5; 1 # 2]
       else ret param) ;;
    call (uar1_sim (Arr2 times) (nth 0 param 0) (nth 1 param 0))
  else if method_is (method o) "phaseran" then
    raise (ValueError
      "Phase-randomization is only available in from_series().")
  else ret y_surr.

(** The series built for the pair [(t, y)] at position [i] of the loop
    (lines 239-242), [lbl] being [self.label]; [str(self.label or '')]
    is [lbl] itself, since a label that is set is a [str]. *)
Definition labelled (lbl : string) (ity : nat * (list Q * ndarray))
    : Series :=
  {| time := fst (snd ity); value := snd (snd ity);
     label := Some (lbl ++ " surr #" ++ str_nat (fst ity + 1));
     auto_time_params := Some true |}.

Definition new_surrogate (ity : nat * (list Q * ndarray))
    : M (state G) Series :=
  lbl <- read_label ;;
  ret (labelled lbl ity).

(** The list of surrogates and its assignment (lines 237-244). *)
Definition create_series_list (times : matrix) (y_surr : ndarray)
    : M (state G) unit :=
  value_columns <- lift (iter (ndT y_surr)) ;;
  s_list <-
    for_each new_surrogate
      (enumerate (zip (rows (transpose times)) value_columns)) ;;
  assign_series_list s_list.

(** [list(param) if param is not None else []]. *)
Definition coerce_param (param : option (list Q)) : list Q :=
  match param with Some p => p | None => [] end.

(** [{} if settings is None else settings.copy()]. *)
Definition coerce_settings (settings : option Settings) : Settings :=
  match settings with None => empty_settings | Some s => s end.

Definition from_param (param : option (list Q)) (length : nat)
    (time_pattern : string) (settings : option Settings)
    : M (state G) unit :=
  let param := coerce_param param in
  let settings := coerce_settings settings in
  times <- seed_and_time_axes length time_pattern settings ;;
  y_surr <- apply_method param times ;;
  create_series_list times y_surr.

End Engine.

(** **** [SurrogateSeries.__init__]

    The constructor touches no generator; its only effect besides the
    object it returns is the warning it may emit. *)
Definition init_warn (msg : string) : M (list string) unit :=
  fun log => (Ok tt, (log ++ [msg])%list).

Definition init (series_list : list Series) (number : nat)
    (method : option string) (label : option string)
    (param : option (list Q)) (seed : option nat)
    : M (list string) SurrogateSeries :=
  let self :=
    {| series_list := series_list; method := method; param := param;
       number := number; seed := seed; sg_label := None |} in
  match param with
  | Some p =>
      let nparam := List.length p in
      match method with
      | None =>
          raise (TypeError "argument of type 'NoneType' is not iterable")
      | Some m =>
          if str_contains "ar1" m && negb (nparam =? 2)%nat then
            raise (ValueError "2 parameters are needed for this model")
          else if String.eqb m "phaseran" then
            init_warn "Phase-randomization is a non parametric method; the provided parameters will be ignored"
          else if str_in m ["fBm"; "CN"] && (1 <? nparam)%nat then
            raise (ValueError
              ("1 parameter is needed for this model; only the first of the provided "
               ++ str_nat nparam ++ " will be used"))
          else ret tt
      end
  | None => ret tt
  end ;;
(* refine the display name *)
match label with
| None =>
    let set l :=
      {| series_list := series_list; method := method; param := param;
         number := number; seed := seed; sg_label := Some l |} in
    if method_is method "ar1sim" then
      ret (set "AR(1) surrogates (MoM)")
    else if method_is method "phaseran" then
      ret (set "phase-randomized surrogates")
    else if method_is method "uar1" then
      ret (set "AR(1) surrogates (MLE)")
    else
      raise (ValueError
        ("Unknown method: " ++ format_method method
         ++ ". Please use one of " ++ repr_supported))
| Some _ => ret self
end.

(** *** What the specification says of the collaborators *)

Section Contracts.
Context {G : Type} (lib : TsLib G).

(** Modelled from the spec: [tsmodel.ar1_sim] is not part of the sources.
    "Producing [N] independent trajectories given a time vector": for
    more than one trajectory, one column per trajectory and one row per
    time point. *)
Definition ar1_sim_shaped : Prop :=
  forall y p t g r g',
    ar1_sim y p t g = (Ok r, g') -> (1 < p)%nat ->
    has_shape2 r (List.length t) p.

(** Modelled from the spec: [tsutils.phaseran2] is not part of the
    sources.  "Given one evenly-spaced observed value sequence and a
    realization count [N], produce [N] surrogate sequences": one column
    per surrogate, one row per observed value. *)
Definition phaseran2_shaped : Prop :=
  forall y p g r g',
    phaseran2 y p g = (Ok r, g') -> (1 < p)%nat ->
    has_shape2 r (size y) p.

(** Modelled from the spec: [tsmodel.uar1_sim] is not part of the
    sources.  "Given a (possibly irregular) time matrix of shape
    [L x N], simulates ... conditioning each successive sample on the
    previous one and the elapsed interval": one simulated value per time
    coordinate, in an array of the same shape. *)
Definition uar1_sim_shaped : Prop :=
  forall t tau sigma_2 g r g',
    uar1_sim t tau sigma_2 g = (Ok r, g') -> same_shape r t.


End Contracts.

(** Modelled from the spec: the [Series] invariant, "time sequence
    length == value sequence length". *)
Definition series_wf (s : Series) : Prop :=
  size (value s) = List.length (time s).

(** The same builder with another [seed]. *)
Definition with_seed (sd : option nat) (o : SurrogateSeries)
    : SurrogateSeries :=
  {| series_list := series_list o; method := method o; param := param o;
     number := number o; seed := sd; sg_label := sg_label o |}.

(** The same state with one more warning in the log. *)
Definition add_warning {G} (msg : string) (st : state G) : state G :=
  mkState (rng st) (warnlog st ++ [msg])%list (self st).

(** The series a call has produced: those of [series_list] when it
    returned, none when it raised. *)
Definition produced {G} (run : result unit * state G) : list Series :=
  match fst run with
  | Ok _ => series_list (self (snd run))
  | Raise _ => []
  end.

End Surrogate.

(* ================================================================== *)
(** ** A concrete sampler library

    A small deterministic stand-in for [tsmodel], [tsutils] and
    [numpy.random], used to run the embedded methods on concrete inputs.
    The generator is a linear congruential one; every sampler fills an
    array of the documented shape from the current generator state and
    advances it. *)

Module Lcg.
Import Surrogate.

Definition next (g : Z) : Z := ((1103515245 * g + 12345) mod 2147483648)%Z.

(** The draw that lands in cell [(i, j)] when sampling starts in state [g]. *)
Definition noise (g : Z) (i j : nat) : Q :=
  inject_Z ((next (g + Z.of_nat (i * 7 + j)) mod 1000) - 500)%Z / 100.

Definition filled (g : Z) (r c : nat) : matrix :=
  {| nrows := r; ncols := c; cell := noise g |}.

Definition sample_like (g : Z) (t : ndarray) : ndarray :=
  match t with
  | Arr0 _ => Arr0 (noise g 0 0)
  | Arr1 l => Arr1 (map (fun i => noise g i 0) (seq 0 (List.length l)))
  | Arr2 m => Arr2 (filled g (nrows m) (ncols m))
  end.

Definition valid_distributions : list string :=
  ["exponential"; "poisson"; "pareto"; "random_choice"].

(** Consecutive differences of a time axis are all equal. *)
Fixpoint evenly_spaced (t : list Q) : bool :=
  match t with
  | a :: ((b :: ((c :: _) as rest2)) as rest1) =>
      Qeq_bool (b - a) (c - b) && evenly_spaced rest1
  | _ => true
  end.

#[export] Instance lib : TsLib Z := {
  np_random_seed := fun s => Z.of_nat s;
  default_rng := fun s => Z.of_nat s;
  ar1_sim := fun y p t g =>
    (Ok (if Nat.eqb p 1 then Arr1 (column (filled g (List.length t) 1) 0)
         else Arr2 (filled g (List.length t) p)), next g);
  phaseran2 := fun y nsurr g =>
    (Ok (if Nat.eqb nsurr 1 then Arr1 (column (filled g (size y) 1) 0)
         else Arr2 (filled g (size y) nsurr)), next g);
  uar1_fit := fun y t g => (Ok (5, 1 # 2), g);
  uar1_sim := fun t tau sigma_2 g => (Ok (sample_like g t), next g);
  random_time_index := fun n dist param g =>
    if str_in dist valid_distributions then
      (Ok (cumsum (map (fun i => 6 + noise g i 0) (seq 0 n))), next g)
    else
      (Raise (ValueError "delta_t_dist must be one of: 'exponential', 'poisson', 'pareto', or 'random_choice'."), g);
  is_evenly_spaced := fun s => evenly_spaced (time s);
  uninitialised := fun _ _ => 0
}.

(** A target series of length 4 and a state to run it in. *)
Definition soi : Series :=
  {| time := [1; 2; 3; 4]; value := Arr1 [3 # 10; -(1 # 2); 7 # 10; 1 # 10];
     label := Some "SOI"; auto_time_params := None |}.

Definition builder (m : string) (n : nat) (sd : option nat)
    : SurrogateSeries :=
  {| series_list := []; method := Some m; param := None; number := n;
     seed := sd; sg_label := Some "AR(1) surrogates (MoM)" |}.

Definition start (o : SurrogateSeries) : state Z :=
  mkState 2024%Z [] o.

(** What an observer reads off a series: its time axis, the entries of
    its value array in order, and its label. *)
Definition entries (a : ndarray) : list Q :=
  match a with
  | Arr0 x => [x]
  | Arr1 l => l
  | Arr2 m => List.concat (rows m)
  end.

End Lcg.

(* ================================================================== *)
(** ** A sampler that fails in its own way

    [tsmodel.random_time_index] is not part of the sources, and the
    specification names no error of the distribution sampler.  This is
    the stand-in of [Lcg], except that its sampler, asked for
    ['random_choice'] with a flat list of numbers, takes the length of
    a number: a [TypeError]. *)
Module Picky.
Import Surrogate.

Definition lib : TsLib Z := {|
  np_random_seed := @np_random_seed Z Lcg.lib;
  default_rng := @default_rng Z Lcg.lib;
  ar1_sim := @ar1_sim Z Lcg.lib;
  phaseran2 := @phaseran2 Z Lcg.lib;
  uar1_fit := @uar1_fit Z Lcg.lib;
  uar1_sim := @uar1_sim Z Lcg.lib;
  random_time_index := fun n dist param g =>
    if String.eqb dist "random_choice" then
      (Raise (TypeError "object of type 'numpy.float64' has no len()"), g)
    else @random_time_index Z Lcg.lib n dist param g;
  is_evenly_spaced := @is_evenly_spaced Z Lcg.lib;
  uninitialised := @uninitialised Z Lcg.lib
|}.


End Picky.

(* ================================================================== *)
(** ** The even time axis in binary64

    Lines 207-208 once more, with the numbers as they are at run time:
    [float(delta_t)] is a binary64 number and [np.cumsum] adds with
    rounding. *)

Module Binary64.
Import PrimFloat SpecFloat FloatOps.

(** [np.cumsum(l)] on a one-dimensional array of [float64]: the first
    entry as it is, then each entry added to the sum before it. *)
Fixpoint cumsum_from (acc : float) (l : list float) : list float :=
  match l with
  | [] => []
  | x :: rest => (acc + x)%float :: cumsum_from (acc + x)%float rest
  end.

Definition cumsum (l : list float) : list float :=
  match l with
  | [] => []
  | x :: rest => x :: cumsum_from x rest
  end.


(** [float(k)] for a count [k]. *)
Definition of_nat (k : nat) : float := of_uint63 (Uint63.of_Z (Z.of_nat k)).


(** The rational number that a finite binary64 number is. *)
Definition value (x : float) : option Q :=
  match Prim2SF x with
  | S754_zero _ => Some 0
  | S754_finite s m e =>
      let n := if s then Z.neg m else Z.pos m in
      Some (inject_Z n * Qpower 2 e)
  | S754_infinity _ => None
  | S754_nan => None
  end.






End Binary64.

(* ================================================================== *)
(** ** Sample sites for the geo-annotated ensemble *)

Module Sites.
Import EnsembleGeo.

Definition palmyra : GeoSeries :=
  {| gs_label := Some "Palmyra"; gs_lat := 5 + (8 # 10); gs_lon := -162 |}.

Definition kiritimati : GeoSeries :=
  {| gs_label := Some "Kiritimati"; gs_lat := 2; gs_lon := -157 |}.

End Sites.

(* ================================================================== *)
(** ** Views of a builder and of the process state *)

Module Builders.
Import Surrogate.

(** The same builder with another [series_list]. *)
Definition with_series_list (l : list Series) (o : SurrogateSeries)
    : SurrogateSeries :=
  {| series_list := l; method := method o; param := param o;
     number := number o; seed := seed o; sg_label := sg_label o |}.

(** The same builder with another [label] attribute ([None]: without). *)
Definition with_label (l : option string) (o : SurrogateSeries)
    : SurrogateSeries :=
  {| series_list := series_list o; method := method o; param := param o;
     number := number o; seed := seed o; sg_label := l |}.

(** The state after lines 202-203 of [from_param]: the process-wide
    generator restarted from the builder's seed, if it has one. *)
Definition reseeded {G} {lib : TsLib G} (st : state G) : state G :=
  match seed (self st) with
  | Some s => mkState (np_random_seed s) (warnlog st) (self st)
  | None => st
  end.

(** A target that is not evenly spaced. *)
Definition uneven : Series :=
  {| time := [1; 2; 4; 7]; value := Arr1 [3 # 10; -(1 # 2); 7 # 10; 1 # 10];
     label := None; auto_time_params := None |}.

End Builders.

(* ================================================================== *)
(** ** EnsembleGeoSeries.make_labels *)

Module Labels.

(** What [make_labels] reads of a member of [series_list]: its four
    naming attributes, each [None] or a [str]. *)
Record names : Type := mkNames {
  time_name : option string;
  time_unit : option string;
  value_name : option string;
  value_unit : option string
}.

(** [f'{name} [{unit}]']. *)
Definition with_unit (name unit : string) : string :=
  name ++ " [" ++ unit ++ "]".

(** [EnsembleGeoSeries.make_labels], on the naming attributes of the
    members of [self.series_list]; [ts_list[0]] raises [IndexError] on
    an empty list. *)
Definition make_labels (ts_list : list names) : result (string * string) :=
  match ts_list with
  | [] => Raise (IndexError "list index out of range")
  | first :: _ =>
      let time_name_str :=
        match time_name first with
        | Some n => n
        | None => "time"
        end in
      let value_name_str :=
        match value_name first with
        | Some n => n
        | None => "value"
        end in
      let value_header :=
        match value_unit first with
        | Some u => with_unit value_name_str u
        | None => value_name_str
        end in
      let time_header :=
        match time_unit first with
        | Some u => with_unit time_name_str u
        | None => time_name_str
        end in
      Ok (time_header, value_header)
  end.

End Labels.

(* ================================================================== *)
(** ** MultipleGeoSeries.__init__ *)

Module MultipleGeo.
Import EnsembleGeo.

Record MultipleGeoSeries : Type := mkMultipleGeoSeries {
  mg_series_list : list member;
  mg_time_unit : option string;
  mg_label : option string
}.

Section Init.
(** Modelled from the spec: [GeoSeries.convert_time_unit] is not part of
    the sources; it returns the converted series or raises. *)
Variable convert_time_unit : GeoSeries -> string -> result GeoSeries.

(** [ts.convert_time_unit(time_unit=u)] on a member of the list. *)
Definition convert_member (u : string) (ts : member) : result member :=
  match ts with
  | IsGeoSeries g =>
      match convert_time_unit g u with
      | Ok g' => Ok (IsGeoSeries g')
      | Raise e => Raise e
      end
  | NotGeoSeries _ =>
      Raise (AttributeError "object has no attribute 'convert_time_unit'")
  end.

(** The loop of lines 64-67. *)
Fixpoint convert_all (u : string) (l : list member)
    : result (list member) :=
  match l with
  | [] => Ok []
  | ts :: rest =>
      match convert_member u ts with
      | Raise e => Raise e
      | Ok new_ts =>
          match convert_all u rest with
          | Raise e => Raise e
          | Ok new_rest => Ok (new_ts :: new_rest)
          end
      end
  end.

(** [MultipleGeoSeries.__init__]. *)
Definition init (series_list : list member) (time_unit : option string)
    (label : option string) : result MultipleGeoSeries :=
  let self := {| mg_series_list := series_list; mg_time_unit := time_unit;
                 mg_label := label |} in
  (* check that all components are GeoSeries *)
  if negb (all (map isinstance_GeoSeries (mg_series_list self))) then
    Raise (ValueError "All components must be GeoSeries objects")
  else
    match mg_time_unit self with
    | Some u =>
        match convert_all u (mg_series_list self) with
        | Raise e => Raise e
        | Ok new_ts_list =>
            Ok {| mg_series_list := new_ts_list; mg_time_unit := time_unit;
                  mg_label := label |}
        end
    | None => Ok self
    end.

End Init.

(** A unit conversion to run the constructor with: it knows two units
    and records the unit in the label. *)
Definition toy_convert (g : GeoSeries) (u : string) : result GeoSeries :=
  if String.eqb u "yr BP" || String.eqb u "kyr BP" then
    Ok {| gs_label := Some (str_or_empty (gs_label g) ++ " [" ++ u ++ "]");
          gs_lat := gs_lat g; gs_lon := gs_lon g |}
  else Raise (ValueError ("Unknown time unit: " ++ u)).

End MultipleGeo.

(* ================================================================== *)
(** ** Python values and keyword dictionaries *)

Module PyDict.

(** The values that travel through the keyword dictionaries of the
    plotting methods.  [PObj] is an object of a collaborator (a figure,
    an axes, a grid specification, ...), known by a name only; a tuple
    is a [PList]. *)
#[warnings="-register-all"]
Inductive pyval : Type :=
| PNone
| PBool (b : bool)
| PNum (q : Q)
| PStr (s : string)
| PList (l : list pyval)
| PDict (d : list (string * pyval))
| PObj (name : string).

(** A [dict] with [str] keys, in insertion order. *)
Definition dict : Type := list (string * pyval).

(** [d.get(k)], [None] when the key is absent. *)
Fixpoint lookup (k : string) (d : dict) : option pyval :=
  match d with
  | [] => None
  | (k', v) :: rest => if String.eqb k k' then Some v else lookup k rest
  end.

(** [k in d.keys()]. *)
Definition has_key (k : string) (d : dict) : bool :=
  match lookup k d with Some _ => true | None => false end.

(** [d[k] = v], also [d.update({k: v})]: an existing key keeps its
    place, a new one goes last. *)
Fixpoint setitem (k : string) (v : pyval) (d : dict) : dict :=
  match d with
  | [] => [(k, v)]
  | (k', v') :: rest =>
      if String.eqb k k' then (k', v) :: rest
      else (k', v') :: setitem k v rest
  end.

(** [d.update(other)]. *)
Definition update (d other : dict) : dict :=
  fold_left (fun acc kv => setitem (fst kv) (snd kv) acc) other d.

(** [del d[k]] for a key that may be absent. *)
Definition remove (k : string) (d : dict) : dict :=
  filter (fun kv => negb (String.eqb k (fst kv))) d.

(** [d.pop(k, default)]: the value and what is left of [d]. *)
Definition pop (k : string) (default : pyval) (d : dict) : pyval * dict :=
  (match lookup k d with Some v => v | None => default end, remove k d).

(** [{} if d is None else d.copy()]. *)
Definition copy_or_empty (d : option dict) : dict :=
  match d with None => [] | Some d' => d' end.

(** [v == False]: [False] itself and the numbers equal to zero. *)
Definition eq_False (v : pyval) : bool :=
  match v with
  | PBool b => negb b
  | PNum q => Qeq_bool q 0
  | _ => false
  end.

(** [len(v)]. *)
Definition py_len (v : pyval) : result nat :=
  match v with
  | PList l => Ok (List.length l)
  | PStr s => Ok (String.length s)
  | PDict d => Ok (List.length d)
  | _ => Raise (TypeError "object has no len()")
  end.

(** [a, b = v]. *)
Definition unpack2 (v : pyval) : result (pyval * pyval) :=
  match v with
  | PList [a; b] => Ok (a, b)
  | PList _ =>
      Raise (ValueError "wrong number of values to unpack (expected 2)")
  | PStr (String a (String b EmptyString)) =>
      Ok (PStr (String a EmptyString), PStr (String b EmptyString))
  | PStr _ =>
      Raise (ValueError "wrong number of values to unpack (expected 2)")
  | PDict [(a, _); (b, _)] => Ok (PStr a, PStr b)
  | PDict _ =>
      Raise (ValueError "wrong number of values to unpack (expected 2)")
  | _ => Raise (TypeError "cannot unpack non-iterable object")
  end.

(** [v[k] = x] on whatever [v] is: only a [dict] takes a [str] key. *)
Definition setitem_val (k : string) (x : pyval) (v : pyval)
    : result pyval :=
  match v with
  | PDict d => Ok (PDict (setitem k x d))
  | _ => Raise (TypeError "object does not support item assignment")
  end.

(** [None] or a dictionary, as a value. *)
Definition of_option_dict (d : option dict) : pyval :=
  match d with None => PNone | Some d' => PDict d' end.

End PyDict.

(* ================================================================== *)
(** ** EnsembleGeoSeries.dashboard *)

Module Dashboard.
Import PyDict.

(** What a step of [dashboard] can raise: one of the exceptions of the
    runtime module, or the [KeyError] of a failed table lookup. *)
Inductive pyexn : Type :=
| Builtin (e : exn)
| KeyError (key : string).

Inductive outcome (A : Type) : Type :=
| Returned (a : A)
| Raised (e : pyexn).
Arguments Returned {A} a.
Arguments Raised {A} e.

Definition returned {A} (r : outcome A) : bool :=
  match r with Returned _ => true | Raised _ => false end.

(** A [result] of the runtime module as an [outcome]. *)
Definition of_result {A} (r : result A) : outcome A :=
  match r with Ok a => Returned a | Raise e => Raised (Builtin e) end.

(** A call into a collaborator: whom, with which positional and which
    keyword arguments. *)
Record call : Type := mkCall {
  callee : string;
  args : list pyval;
  kwargs : dict
}.

(** A method body runs on the list of the calls made so far, oldest
    first; the list survives an exception. *)
Definition T (A : Type) : Type := list call -> outcome A * list call.

Definition unit_T {A} (a : A) : T A := fun made => (Returned a, made).

Definition bind_T {A B} (m : T A) (k : A -> T B) : T B :=
  fun made =>
    match m made with
    | (Returned a, made') => k a made'
    | (Raised e, made') => (Raised e, made')
    end.

Definition raise_T {A} (e : pyexn) : T A := fun made => (Raised e, made).

Definition lift_T {A} (r : outcome A) : T A := fun made => (r, made).

Declare Scope dash_scope.
Delimit Scope dash_scope with dash.
Notation "x <- m ;; k" := (bind_T m (fun x => k))
  (at level 61, m at next level, right associativity) : dash_scope.
Notation "m ;; k" := (bind_T m (fun _ => k))
  (at level 61, right associativity) : dash_scope.
Local Open Scope dash_scope.

(** The arguments of [dashboard] besides [self]. *)
Record options : Type := mkOptions {
  figsize : pyval;
  gs : option pyval;
  plt_kwargs : option dict;
  histplt_kwargs : option dict;
  spectral_kwargs : option dict;
  spectralfig_kwargs : option dict;
  map_kwargs : option dict;
  hue : pyval;
  marker : pyval;
  size : pyval;
  scatter_kwargs : option dict;
  gridspec_kwargs : pyval;
  savefig_settings : option dict
}.

(** The defaults of the signature. *)
Definition default_options : options :=
  {| figsize := PList [PNum 11; PNum 8]; gs := None; plt_kwargs := None;
     histplt_kwargs := None; spectral_kwargs := None;
     spectralfig_kwargs := None; map_kwargs := None;
     hue := PStr "archiveType"; marker := PStr "archiveType"; size := PNone;
     scatter_kwargs := None; gridspec_kwargs := PNone;
     savefig_settings := None |}.

(** [d[k]]. *)
Definition getitem (k : string) (d : dict) : outcome pyval :=
  match lookup k d with
  | Some v => Returned v
  | None => Raised (KeyError k)
  end.

(** Lines 279-282: [gridspec_defaults] after its update with
    [gridspec_kwargs], which counts only if it is a [dict]. *)
Definition gridspec_defaults : dict :=
  [("wspace", PNum 0);
   ("width_ratios", PList [PNum 3; PNum (1 # 4); PNum 2; PNum 1]);
   ("height_ratios", PList [PNum 1; PNum (1 # 10); PNum 1]);
   ("left", PNum 0); ("right", PNum (11 # 10))].

Definition gridspec_settings (o : options) : dict :=
  update gridspec_defaults
         (match gridspec_kwargs o with PDict d => d | _ => [] end).

(** Lines 327-343: the keys that [dashboard] pops from [map_kwargs],
    each with the default of its [pop]. *)
Definition map_defaults : list (string * pyval) :=
  [("projection", PStr "Orthographic"); ("proj_default", PBool true);
   ("lakes", PBool false); ("land", PBool false); ("ocean", PBool false);
   ("rivers", PBool false); ("borders", PBool true);
   ("coastline", PBool true); ("background", PBool true);
   ("lgd_kwargs", PDict []); ("cmap", PNone); ("legend", PBool false);
   ("colorbar", PBool false)].

(** Lines 350-354: the keywords of the call of [mapping.scatter_map]. *)
Definition scatter_map_keywords : list string :=
  ["hue"; "size"; "marker"; "projection"; "proj_default"; "background";
   "borders"; "coastline"; "rivers"; "lakes"; "ocean"; "land"; "figsize";
   "scatter_kwargs"; "gridspec_kwargs"; "lgd_kwargs"; "legend"; "cmap";
   "colorbar"; "fig"; "gs_slot"].

Section Body.
(** Modelled from the spec: plotting, map rendering, spectral analysis
    and the generic ensemble methods are "treated as external
    collaborators".  [respond] is what a collaborator answers to a call,
    given the calls made before; [LipdToOntology] and [PLOT_DEFAULT]
    are the name normalisation and the table of [lipdutils], the table
    giving a colour and a marker per archive type. *)
Variable respond : list call -> call -> outcome pyval.
Variable LipdToOntology : string -> string.
Variable PLOT_DEFAULT : list (string * (pyval * pyval)).

Definition ext (name : string) (positional : list pyval) (keywords : dict)
    : T pyval :=
  fun made =>
    let c := mkCall name positional keywords in
    (respond made c, made ++ [c])%list.

(** [archiveType in PLOT_DEFAULT.keys()]. *)
Definition in_PLOT_DEFAULT (archiveType : string) : bool :=
  existsb (fun kv => String.eqb archiveType (fst kv)) PLOT_DEFAULT.

(** [PLOT_DEFAULT[archiveType][0]]. *)
Definition default_colour (archiveType : string) : outcome pyval :=
  match find (fun kv => String.eqb archiveType (fst kv)) PLOT_DEFAULT with
  | Some (_, (colour, _)) => Returned colour
  | None => Raised (KeyError archiveType)
  end.

(** Lines 292-297: the archive type whose defaults are used. *)
Definition plot_archiveType (self_archiveType : option string) : string :=
  match self_archiveType with
  | Some a =>
      let archiveType := LipdToOntology a in
      if negb (in_PLOT_DEFAULT archiveType) then "Other" else archiveType
  | None => "Other"
  end.

(** [if key not in d.keys(): d.update({target: PLOT_DEFAULT[archiveType][0]})]. *)
Definition default_colour_unless (key target archiveType : string)
    (d : dict) : T dict :=
  if negb (has_key key d) then
    colour <- lift_T (default_colour archiveType) ;;
    unit_T (setitem target colour d)
  else unit_T d.

(** What [default_colour_unless] returns when it returns: [d] itself
    if it has [key], else [d] with the default colour under [target]. *)
Definition coloured (key target archiveType : string) (d d' : dict) : Prop :=
  (has_key key d = true /\ d' = d)
  \/ (has_key key d = false
      /\ exists colour, default_colour archiveType = Returned colour
                        /\ d' = setitem target colour d).

(** [if key in d.keys(): pass  else: d.update({key: v})]. *)
Definition default_unless_given (key : string) (v : pyval) (d : dict)
    : dict :=
  if has_key key d then d else setitem key v d.

(** [gs[...]], the slice written as in the source. *)
Definition gs_slot (gs : pyval) (slice : string) : T pyval :=
  ext "gs.__getitem__" [gs; PStr slice] [].

(** Lines 278-285: the grid specification. *)
Definition make_gs (o : options) : T pyval :=
  match gs o with
  | Some g => unit_T g
  | None =>
      let gridspec_defaults := gridspec_settings o in
      height_ratios <-
        lift_T (getitem "height_ratios" gridspec_defaults) ;;
      nrows <- lift_T (of_result (py_len height_ratios)) ;;
      width_ratios <-
        lift_T (getitem "width_ratios" gridspec_defaults) ;;
      ncols <- lift_T (of_result (py_len width_ratios)) ;;
      ext "gridspec.GridSpec"
          [PNum (inject_Z (Z.of_nat nrows)); PNum (inject_Z (Z.of_nat ncols))]
          gridspec_defaults
  end.

(** Lines 287-305: the time series panel; the archive type found on
    the way serves the other panels too. *)
Definition plot_timeseries (self_archiveType : option string) (o : options)
    (fig gs : pyval) : T (pyval * string * (pyval * pyval)) :=
  let plt_kwargs := copy_or_empty (plt_kwargs o) in
  slot <- gs_slot gs "0, :-1" ;;
  ax_ts <- ext "fig.add_subplot" [fig; slot] [] ;;
  let plt_kwargs := setitem "ax" ax_ts plt_kwargs in
  (* use the defaults if color/markers not specified *)
  let archiveType := plot_archiveType self_archiveType in
  plt_kwargs <-
    default_colour_unless "curve_clr" "curve_clr" archiveType plt_kwargs ;;
  plt_kwargs <-
    default_colour_unless "shade_clr" "shade_clr" archiveType plt_kwargs ;;
  common <- ext "self.common_time" [PObj "self"] [] ;;
  ax_ts <- ext "self.common_time().plot_envelope" [common] plt_kwargs ;;
  ylim <- ext "ax['ts'].get_ylim" [ax_ts] [] ;;
  lims <- lift_T (of_result (unpack2 ylim)) ;;
  unit_T (ax_ts, archiveType, lims).

(** Lines 307-322: the histogram panel. *)
Definition plot_histogram (o : options) (fig gs : pyval)
    (archiveType : string) (ymin ymax : pyval) : T pyval :=
  let histplt_kwargs := copy_or_empty (histplt_kwargs o) in
  slot <- gs_slot gs "0, -1:" ;;
  ax_dts <- ext "fig.add_subplot" [fig; slot] [] ;;
  let histplt_kwargs := setitem "ax" ax_dts histplt_kwargs in
  let histplt_kwargs := setitem "ylabel" (PStr "Counts") histplt_kwargs in
  let histplt_kwargs := setitem "vertical" (PBool true) histplt_kwargs in
  histplt_kwargs <-
    default_colour_unless "color" "color" archiveType histplt_kwargs ;;
  ax_dts <- ext "self.histplot" [PObj "self"] histplt_kwargs ;;
  ext "ax['dts'].set_ylim" [ax_dts; PList [ymin; ymax]] [] ;;
  ext "ax['dts'].set_yticklabels" [ax_dts; PList []] [] ;;
  ext "ax['dts'].set_ylabel" [ax_dts; PStr ""] [] ;;
  ext "ax['dts'].set_yticks" [ax_dts; PList []] [] ;;
  unit_T ax_dts.

(** Lines 324-356: the map panel. *)
Definition plot_map (o : options) (fig gs : pyval) : T pyval :=
  let map_kwargs := copy_or_empty (map_kwargs o) in
  let (projection, map_kwargs) :=
    pop "projection" (PStr "Orthographic") map_kwargs in
  let (proj_default, map_kwargs) :=
    pop "proj_default" (PBool true) map_kwargs in
  let (lakes, map_kwargs) := pop "lakes" (PBool false) map_kwargs in
  let (land, map_kwargs) := pop "land" (PBool false) map_kwargs in
  let (ocean, map_kwargs) := pop "ocean" (PBool false) map_kwargs in
  let (rivers, map_kwargs) := pop "rivers" (PBool false) map_kwargs in
  let (borders, map_kwargs) := pop "borders" (PBool true) map_kwargs in
  let (coastline, map_kwargs) := pop "coastline" (PBool true) map_kwargs in
  let (background, map_kwargs) :=
    pop "background" (PBool true) map_kwargs in
  let (map_gridspec_kwargs, map_kwargs) :=
    pop "gridspec_kwargs" (PDict []) map_kwargs in
  let (lgd_kwargs, map_kwargs) := pop "lgd_kwargs" (PDict []) map_kwargs in
  scatter_kwargs <-
    match lookup "edgecolor" map_kwargs with
    | Some edgecolor =>
        match scatter_kwargs o with
        | Some d => unit_T (Some (setitem "edgecolor" edgecolor d))
        | None =>
            raise_T (Builtin (AttributeError
              "'NoneType' object has no attribute 'update'"))
        end
    | None => unit_T (scatter_kwargs o)
    end ;;
  let (cmap, map_kwargs) := pop "cmap" PNone map_kwargs in
  let (legend, map_kwargs) := pop "legend" (PBool false) map_kwargs in
  let (colorbar, map_kwargs) := pop "colorbar" (PBool false) map_kwargs in
  map_gridspec_kwargs <-
    (if eq_False legend then
       lift_T (of_result
         (setitem_val "width_ratios"
            (PList [PNum (1 # 2); PNum 16; PNum 1]) map_gridspec_kwargs))
     else unit_T map_gridspec_kwargs) ;;
  slot <- gs_slot gs "-1, 0:1" ;;
  answer <-
    ext "mapping.scatter_map" [PObj "self"]
      [("hue", hue o); ("size", size o); ("marker", marker o);
       ("projection", projection); ("proj_default", proj_default);
       ("background", background); ("borders", borders);
       ("coastline", coastline); ("rivers", rivers); ("lakes", lakes);
       ("ocean", ocean); ("land", land); ("figsize", PNone);
       ("scatter_kwargs", of_option_dict scatter_kwargs);
       ("gridspec_kwargs", map_gridspec_kwargs);
       ("lgd_kwargs", lgd_kwargs); ("legend", legend); ("cmap", cmap);
       ("colorbar", colorbar); ("fig", fig); ("gs_slot", slot)] ;;
  pair <- lift_T (of_result (unpack2 answer)) ;;
  unit_T (snd pair).

(** Lines 358-387: the spectral panel. *)
Definition plot_spectrum (o : options) (fig gs : pyval)
    (archiveType : string) : T pyval :=
  let spectral_kwargs := copy_or_empty (spectral_kwargs o) in
  let spectral_kwargs :=
    default_unless_given "method" (PStr "lomb_scargle") spectral_kwargs in
  let spectral_kwargs :=
    default_unless_given "freq" (PStr "lomb_scargle") spectral_kwargs in
  slot <- gs_slot gs "-1, -2:" ;;
  ax_spec <- ext "fig.add_subplot" [fig; slot] [] ;;
  let spectralfig_kwargs := copy_or_empty (spectralfig_kwargs o) in
  let spectralfig_kwargs := setitem "ax" ax_spec spectralfig_kwargs in
  detrended <- ext "self.detrend" [PObj "self"] [] ;;
  standardized <- ext "self.detrend().standardize" [detrended] [] ;;
  ts_preprocess <-
    ext "self.detrend().standardize().common_time" [standardized] [] ;;
  psds <- ext "ts_preprocess.spectral" [ts_preprocess] spectral_kwargs ;;
  (* Avoid excessive legend labels in spectral plot *)
  ext "for psd in psds.psd_list: psd.label = None" [psds] [] ;;
  spectralfig_kwargs <-
    default_colour_unless "curve_clr" "curve_clr" archiveType
      spectralfig_kwargs ;;
  spectralfig_kwargs <-
    default_colour_unless "shade)clr" "shade_clr" archiveType
      spectralfig_kwargs ;;
  ext "psds.plot_envelope" [psds] spectralfig_kwargs.

(** [EnsembleGeoSeries.dashboard]: the figure and the dictionary of its
    four axes. *)
Definition dashboard (self_archiveType : option string) (o : options)
    : T (pyval * dict) :=
  let savefig_settings := copy_or_empty (savefig_settings o) in
  (* start plotting *)
  fig <- ext "plt.figure" [] [("figsize", figsize o)] ;;
  gs <- make_gs o ;;
  (* Plot the timeseries *)
  ts <- plot_timeseries self_archiveType o fig gs ;;
  let ax_ts := fst (fst ts) in
  let archiveType := snd (fst ts) in
  let ymin := fst (snd ts) in
  let ymax := snd (snd ts) in
  (* plot the histplot *)
  ax_dts <- plot_histogram o fig gs archiveType ymin ymax ;;
  (* plot map *)
  ax_map <- plot_map o fig gs ;;
  (* spectral analysis *)
  ax_spec <- plot_spectrum o fig gs archiveType ;;
  (if has_key "path" savefig_settings then
     ext "plotting.savefig" [fig] [("settings", PDict savefig_settings)] ;;
     unit_T tt
   else unit_T tt) ;;
  unit_T (fig, [("ts", ax_ts); ("dts", ax_dts); ("map", ax_map);
                ("spec", ax_spec)]).

End Body.

(** *** Reasoning about the calls a body makes *)

(** Whatever list of calls [m] starts from, it only appends to it; the
    calls it appends all satisfy [Q]; and a value it returns satisfies
    [P]. *)
Definition triple {A} (Q : call -> Prop) (m : T A) (P : A -> Prop) : Prop :=
  forall made r made',
    m made = (r, made') ->
    (exists added, made' = (made ++ added)%list /\ Forall Q added)
    /\ (forall a, r = Returned a -> P a).

(** *** What [dashboard] hands to its collaborators

    One predicate per call site: what holds of a call [c] if it is the
    call of that site.  [archiveType] is the archive type whose
    defaults are used, [o] the arguments of [dashboard]. *)

Section CallSpecs.
Variable PLOT_DEFAULT : list (string * (pyval * pyval)).
Variable archiveType : string.
Variable o : options.

(** [passed] has under [key] what [given] has there, and the default
    colour of the archive type if [given] has nothing. *)
Definition given_or_default (given passed : dict) (key : string) : Prop :=
  match lookup key given with
  | Some v => lookup key passed = Some v
  | None =>
      exists colour,
        default_colour PLOT_DEFAULT archiveType = Returned colour
        /\ lookup key passed = Some colour
  end.

Definition timeseries_call (c : call) : Prop :=
  callee c = "self.common_time().plot_envelope" ->
  let given := copy_or_empty (plt_kwargs o) in
  given_or_default given (kwargs c) "curve_clr"
  /\ given_or_default given (kwargs c) "shade_clr"
  /\ forall k, ~ In k ["ax"; "curve_clr"; "shade_clr"] ->
               lookup k (kwargs c) = lookup k given.

Definition histogram_call (c : call) : Prop :=
  callee c = "self.histplot" ->
  let given := copy_or_empty (histplt_kwargs o) in
  lookup "ylabel" (kwargs c) = Some (PStr "Counts")
  /\ lookup "vertical" (kwargs c) = Some (PBool true)
  /\ given_or_default given (kwargs c) "color"
  /\ forall k, ~ In k ["ax"; "ylabel"; "vertical"; "color"] ->
               lookup k (kwargs c) = lookup k given.

Definition map_keywords_call (c : call) : Prop :=
  callee c = "mapping.scatter_map" ->
  let given := copy_or_empty (map_kwargs o) in
  map fst (kwargs c) = scatter_map_keywords
  /\ forall key default,
       In (key, default) map_defaults ->
       lookup key (kwargs c)
       = Some (match lookup key given with Some v => v | None => default end).

Definition map_layout_call (c : call) : Prop :=
  callee c = "mapping.scatter_map" ->
  let given := copy_or_empty (map_kwargs o) in
  let legend :=
    match lookup "legend" given with Some v => v | None => PBool false end in
  let layout :=
    match lookup "gridspec_kwargs" given with
    | Some v => v
    | None => PDict []
    end in
  (eq_False legend = true ->
     exists d passed,
       layout = PDict d
       /\ lookup "gridspec_kwargs" (kwargs c) = Some (PDict passed)
       /\ lookup "width_ratios" passed
          = Some (PList [PNum (1 # 2); PNum 16; PNum 1])
       /\ forall k, k <> "width_ratios" -> lookup k passed = lookup k d)
  /\ (eq_False legend = false ->
      lookup "gridspec_kwargs" (kwargs c) = Some layout).

Definition map_scatter_call (c : call) : Prop :=
  callee c = "mapping.scatter_map" ->
  match lookup "edgecolor" (copy_or_empty (map_kwargs o)) with
  | Some edgecolor =>
      exists d,
        scatter_kwargs o = Some d
        /\ lookup "scatter_kwargs" (kwargs c)
           = Some (PDict (setitem "edgecolor" edgecolor d))
  | None =>
      lookup "scatter_kwargs" (kwargs c)
      = Some (of_option_dict (scatter_kwargs o))
  end.

Definition spectral_call (c : call) : Prop :=
  callee c = "ts_preprocess.spectral" ->
  forall k,
    lookup k (kwargs c)
    = match lookup k (copy_or_empty (spectral_kwargs o)) with
      | Some v => Some v
      | None =>
          if String.eqb k "method" || String.eqb k "freq"
          then Some (PStr "lomb_scargle")
          else None
      end.

Definition spectrum_call (c : call) : Prop :=
  callee c = "psds.plot_envelope" ->
  let given := copy_or_empty (spectralfig_kwargs o) in
  given_or_default given (kwargs c) "curve_clr"
  /\ (has_key "shade)clr" given = false ->
      exists colour,
        default_colour PLOT_DEFAULT archiveType = Returned colour
        /\ lookup "shade_clr" (kwargs c) = Some colour)
  /\ (has_key "shade)clr" given = true ->
      lookup "shade_clr" (kwargs c) = lookup "shade_clr" given)
  /\ forall k, ~ In k ["ax"; "curve_clr"; "shade_clr"] ->
               lookup k (kwargs c) = lookup k given.

Definition gridspec_call (c : call) : Prop :=
  callee c = "gridspec.GridSpec" ->
  gs o = None
  /\ kwargs c = gridspec_settings o
  /\ exists height_ratios width_ratios nrows ncols,
       lookup "height_ratios" (kwargs c) = Some height_ratios
       /\ py_len height_ratios = Ok nrows
       /\ lookup "width_ratios" (kwargs c) = Some width_ratios
       /\ py_len width_ratios = Ok ncols
       /\ args c = [PNum (inject_Z (Z.of_nat nrows));
                    PNum (inject_Z (Z.of_nat ncols))].

(** What holds once the map panel is drawn: [scatter_kwargs] could take
    the edge colour of [map_kwargs], if there is one. *)
Definition map_passed : Prop :=
  forall edgecolor,
    lookup "edgecolor" (copy_or_empty (map_kwargs o)) = Some edgecolor ->
    exists d, scatter_kwargs o = Some d.

Definition savefig_call (c : call) : Prop :=
  callee c = "plotting.savefig" ->
  let given := copy_or_empty (savefig_settings o) in
  has_key "path" given = true
  /\ kwargs c = [("settings", PDict given)].

End CallSpecs.

(** The callees that [dashboard] calls without keyword arguments. *)
Definition positional_callees : list string :=
  ["gs.__getitem__"; "fig.add_subplot"; "self.common_time";
   "ax['ts'].get_ylim"; "ax['dts'].set_ylim"; "ax['dts'].set_yticklabels";
   "ax['dts'].set_ylabel"; "ax['dts'].set_yticks"; "self.detrend";
   "self.detrend().standardize"; "self.detrend().standardize().common_time";
   "for psd in psds.psd_list: psd.label = None"].

(** Collaborators to run the method with: every call is answered with
    an object named after the callee, the two calls whose answer is
    unpacked with a pair. *)
Definition obliging (made : list call) (c : call) : outcome pyval :=
  if String.eqb (callee c) "ax['ts'].get_ylim" then
    Returned (PList [PNum (-(5 # 2)); PNum (5 # 2)])
  else if String.eqb (callee c) "mapping.scatter_map" then
    Returned (PList [PObj "fig"; PObj "ax:map"])
  else Returned (PObj (callee c)).

Definition lower_case_free (archiveType : string) : string :=
  if String.eqb archiveType "ice core" then "GlacierIce" else archiveType.

Definition plot_defaults : list (string * (pyval * pyval)) :=
  [("GlacierIce", (PStr "#86CDFA", PStr "d"));
   ("Coral", (PStr "#FF8B00", PStr "o"));
   ("Other", (PStr "k", PStr "o"))].

(** Arguments that set something in every panel. *)
Definition styled_options : options :=
  {| figsize := PList [PNum 11; PNum 8]; gs := None;
     plt_kwargs := Some [("shade_clr", PStr "red")];
     histplt_kwargs := Some [("ylabel", PStr "density")];
     spectral_kwargs := Some [("method", PStr "mtm")];
     spectralfig_kwargs := Some [("shade_clr", PStr "red")];
     map_kwargs :=
       Some [("projection", PStr "Robinson");
             ("gridspec_kwargs",
              PDict [("width_ratios", PList [PNum 1; PNum 2; PNum 3])]);
             ("edgecolor", PStr "k")];
     hue := PStr "archiveType"; marker := PStr "archiveType"; size := PNone;
     scatter_kwargs := Some [("s", PNum 10)]; gridspec_kwargs := PNone;
     savefig_settings := Some [("path", PStr "dashboard.pdf")] |}.

(** The same without [scatter_kwargs]. *)
Definition unscattered_options : options :=
  {| figsize := figsize styled_options; gs := gs styled_options;
     plt_kwargs := plt_kwargs styled_options;
     histplt_kwargs := histplt_kwargs styled_options;
     spectral_kwargs := spectral_kwargs styled_options;
     spectralfig_kwargs := spectralfig_kwargs styled_options;
     map_kwargs := map_kwargs styled_options;
     hue := hue styled_options; marker := marker styled_options;
     size := size styled_options; scatter_kwargs := None;
     gridspec_kwargs := gridspec_kwargs styled_options;
     savefig_settings := savefig_settings styled_options |}.

(** Whether some call of [calls] is to [name] and has the string [v]
    under [key] in its keywords. *)
Definition called_with (name key v : string) (calls : list call) : bool :=
  existsb (fun c =>
             String.eqb (callee c) name
             && match lookup key (kwargs c) with
                | Some (PStr s) => String.eqb s v
                | _ => false
                end)
          calls.

Definition called (name : string) (calls : list call) : bool :=
  existsb (fun c => String.eqb (callee c) name) calls.

End Dashboard.

(* ================================================================== *)
(** * Properties of [EnsembleGeoSeries.__init__] *)

Module EnsembleGeoFacts.
Import EnsembleGeo Sites.

Section Construction.
(** The metadata arguments play no part in the coordinate logic. *)
Variables (elev : option Q) (archive : option string) (control : bool)
          (sensor observation : option string)
          (dep : option (list Q)) (dep_name dep_unit : option string).

Local Abbreviation construct sl la lo :=
  (init sl la lo elev archive control sensor observation
        dep dep_name dep_unit).

Lemma lat_set_metadata (o : EnsembleGeoSeries) :
  lat (set_metadata elev archive control sensor observation
         dep dep_name dep_unit o) = lat o.
Proof. reflexivity. Qed.

Lemma lon_set_metadata (o : EnsembleGeoSeries) :
  lon (set_metadata elev archive control sensor observation
         dep dep_name dep_unit o) = lon o.
Proof. reflexivity. Qed.

(** With both coordinates given, no path of the constructor raises:
    each coordinate is stored when its range test passes and is left
    unassigned otherwise. *)
Lemma init_explicit_never_raises (sl : list member) (la lo : Q) :
  exists o,
    construct sl (Some la) (Some lo) = Ok o
    /\ lat o = (if lat_in_range la then Some la else None)
    /\ lon o = (if lon_in_range lo then Some lo else None).
Proof.
  unfold init.
  eexists; split; [reflexivity|].
  rewrite lat_set_metadata, lon_set_metadata.
  destruct (lat_in_range la), (lon_in_range lo); split; reflexivity.
Qed.

(** The part of the range contract that the code keeps: in-range
    coordinates are stored as given. *)
Lemma init_explicit_in_range (sl : list member) (la lo : Q) :
  lat_in_range la = true ->
  lon_in_range lo = true ->
  exists o,
    construct sl (Some la) (Some lo) = Ok o
    /\ lat o = Some la /\ lon o = Some lo.
Proof.
  intros Hla Hlo.
  destruct (init_explicit_never_raises sl la lo) as (o & Ho & Hlat & Hlon).
  rewrite Hla in Hlat. rewrite Hlo in Hlon.
  exists o; auto.
Qed.

Lemma first_member_of_head (sl : list member) (g : GeoSeries) :
  hd_error sl = Some (IsGeoSeries g) ->
  first_member sl = Ok g.
Proof.
  destruct sl as [|m rest]; simpl; [discriminate|].
  intros H; inversion H; reflexivity.
Qed.

(** An omitted coordinate needs a first member to copy from. *)
Lemma init_empty_list_raises (lo : option Q) :
  construct [] None lo = Raise (IndexError "list index out of range").
Proof. reflexivity. Qed.

(** C10.  When [lat] is omitted and [series_list] is a non-empty list of
    [GeoSeries], the object's [lat] is the first member's and no [lon]
    is assigned, whatever [lon] was passed; when [lat] is given and
    [lon] omitted, [lon] is the first member's and the [lat] that was
    passed is not stored. *)
Theorem init_copies_only_the_omitted_coordinate
    (sl : list member) (g : GeoSeries) (lon_arg : option Q) (lat_arg : Q) :
  all (map isinstance_GeoSeries sl) = true ->
  hd_error sl = Some (IsGeoSeries g) ->
  (exists o,
     construct sl None lon_arg = Ok o
     /\ lat o = Some (gs_lat g) /\ lon o = None)
  /\
  (exists o,
     construct sl (Some lat_arg) None = Ok o
     /\ lon o = Some (gs_lon g) /\ lat o = None).
Proof.
  intros Hall Hhd.
  unfold init.
  rewrite Hall; simpl negb; cbv iota.
  rewrite (first_member_of_head sl g Hhd).
  split; eexists; (split; [reflexivity|]);
    rewrite lat_set_metadata, lon_set_metadata; split; reflexivity.
Qed.

End Construction.

Lemma init_copies_only_the_omitted_coordinate_witness :
  (exists o,
     init [IsGeoSeries palmyra; IsGeoSeries kiritimati] None (Some 10)
          None None false None None None None None = Ok o
     /\ lat o = Some (5 + (8 # 10)) /\ lon o = None)
  /\
  (exists o,
     init [IsGeoSeries palmyra; IsGeoSeries kiritimati] (Some 45) None
          None None false None None None None None = Ok o
     /\ lon o = Some (-162) /\ lat o = None).
Proof.
  apply (init_copies_only_the_omitted_coordinate
           None None false None None None None None
           [IsGeoSeries palmyra; IsGeoSeries kiritimati] palmyra
           (Some 10) 45);
    reflexivity.
Defined.

(** C1.  The range contract on explicit coordinates is not enforced:
    with [lat = 100] (and [lon = 0]) the constructor returns an object
    that has [lon] but no [lat]; with [lon = 400] (and [lat = 0]) it
    returns an object that has [lat] but no [lon].  Neither call raises,
    although the claim (and the class docstring) require a
    configuration error. *)
Theorem init_out_of_range_coordinate_not_rejected :
  (exists o,
     init [] (Some 100) (Some 0) None None false None None None None None
     = Ok o /\ lat o = None /\ lon o = Some 0)
  /\
  (exists o,
     init [] (Some 0) (Some 400) None None false None None None None None
     = Ok o /\ lat o = Some 0 /\ lon o = None).
Proof.
  split; eexists; repeat split; reflexivity.
Qed.

End EnsembleGeoFacts.

(* ================================================================== *)
(** * Properties of the monad and of the numpy fragment *)

Module MonadFacts.
Import Surrogate.

Lemma bind_Ok {St A B} (m : M St A) (k : A -> M St B) st a st1 :
  m st = (Ok a, st1) -> bind m k st = k a st1.
Proof. intros H; unfold bind; rewrite H; reflexivity. Qed.

Lemma bind_Raise {St A B} (m : M St A) (k : A -> M St B) st e st1 :
  m st = (Raise e, st1) -> bind m k st = (Raise e, st1).
Proof. intros H; unfold bind; rewrite H; reflexivity. Qed.

Lemma bind_inv_Ok {St A B} (m : M St A) (k : A -> M St B) st b st' :
  bind m k st = (Ok b, st') ->
  exists a st1, m st = (Ok a, st1) /\ k a st1 = (Ok b, st').
Proof.
  unfold bind. destruct (m st) as [[a|e] st1]; intros H.
  - exists a, st1; auto.
  - discriminate.
Qed.

End MonadFacts.

Module NpFacts.

Lemma length_row (m : matrix) (i : nat) : List.length (row m i) = ncols m.
Proof. unfold row. rewrite length_map, length_seq. reflexivity. Qed.

Lemma length_rows (m : matrix) : List.length (rows m) = nrows m.
Proof. unfold rows. rewrite length_map, length_seq. reflexivity. Qed.

Lemma rows_lengths (m : matrix) :
  Forall (fun r => List.length r = ncols m) (rows m).
Proof.
  unfold rows. apply Forall_forall. intros r Hr.
  apply in_map_iff in Hr as (i & <- & _). apply length_row.
Qed.

Lemma columns_of_shape2 (y : ndarray) (L N : nat) :
  has_shape2 y L N -> columns_seen y L N.
Proof.
  destruct y as [x|l|m]; simpl; try tauto.
  intros [Hr Hc]. exists (map Arr1 (rows (transpose m))).
  split; [reflexivity|]. split.
  - rewrite length_map, length_rows. exact Hc.
  - apply Forall_forall. intros c Hin.
    apply in_map_iff in Hin as (r & <- & Hin).
    pose proof (rows_lengths (transpose m)) as Hall.
    rewrite Forall_forall in Hall. simpl. rewrite (Hall r Hin). exact Hr.
Qed.

(** [np.squeeze] turns the tiled time axis of a one-point target into a
    one-dimensional array; a sample of that shape is then iterated
    entry by entry. *)
Lemma columns_of_squeezed_tile (y : ndarray) (t : list Q) (N : nat) :
  (1 < N)%nat ->
  same_shape y (squeeze (transpose (tile t N))) ->
  columns_seen y (List.length t) N.
Proof.
  intros HN. unfold squeeze. simpl nrows. simpl ncols.
  destruct N as [|[|n]]; try lia.
  destruct (List.length t) as [|[|l]] eqn:HL.
  - intros H. apply columns_of_shape2.
    destruct y; simpl in *; intuition congruence.
  - destruct y as [x|v|m]; simpl; try tauto.
    rewrite length_map, length_seq. intros Hv.
    exists (map Arr0 v). split; [reflexivity|]. split.
    + rewrite length_map. exact Hv.
    + apply Forall_forall. intros c Hin.
      apply in_map_iff in Hin as (x & <- & _). reflexivity.
  - intros H. apply columns_of_shape2.
    destruct y; simpl in *; intuition congruence.
Qed.

Lemma map_nth_seq (t : list Q) (d : Q) :
  map (fun j => nth j t d) (seq 0 (List.length t)) = t.
Proof.
  induction t as [|x t IH]; simpl; [reflexivity|].
  f_equal. rewrite <- seq_shift, map_map. exact IH.
Qed.

Lemma map_const_seq {A} (x : A) (n : nat) :
  forall s, map (fun _ => x) (seq s n) = repeat x n.
Proof.
  induction n as [|n IH]; intros s; simpl; [reflexivity|].
  rewrite IH. reflexivity.
Qed.

(** The columns of [np.tile(t, (N, 1)).T] are [N] copies of [t]. *)
Lemma rows_of_tiled (t : list Q) (N : nat) :
  rows (transpose (transpose (tile t N))) = repeat t N.
Proof.
  unfold rows, row. simpl.
  rewrite <- (map_const_seq t N 0).
  apply map_ext. intros i. apply map_nth_seq.
Qed.






Lemma assign_column_shape (m m' : matrix) (j : nat) (v : list Q) :
  assign_column m j v = Ok m' -> nrows m' = nrows m /\ ncols m' = ncols m.
Proof.
  unfold assign_column.
  destruct (List.length v =? nrows m)%nat.
  { intros H; inversion H; split; reflexivity. }
  destruct (List.length v =? 1)%nat; [|discriminate].
  intros H; inversion H; split; reflexivity.
Qed.

End NpFacts.

(* ================================================================== *)
(** * Properties of [SurrogateSeries.__init__] *)

Module SurrogateInitFacts.
Import Surrogate.

Lemma method_is_supported (m : option string) :
  (method_is m "ar1sim" || method_is m "phaseran" || method_is m "uar1")%bool
  = str_in_method m supported_surrogates.
Proof.
  destruct m as [s|]; simpl; [|reflexivity].
  rewrite orb_false_r, orb_assoc. reflexivity.
Qed.

(** Where the method check is reached -- no label, no parameters -- a
    method outside the supported set is refused with the error that
    lists the set. *)
Lemma init_unlabelled_unknown_method (sl : list Series) (n : nat)
    (m : option string) (sd : option nat) (log : list string) :
  str_in_method m supported_surrogates = false ->
  init sl n m None None sd log
  = (Raise (ValueError ("Unknown method: " ++ format_method m
                        ++ ". Please use one of " ++ repr_supported)), log).
Proof.
  intros H. rewrite <- method_is_supported in H.
  apply orb_false_elim in H as [H H3]. apply orb_false_elim in H as [H1 H2].
  unfold init, bind, ret, raise. rewrite H1, H2, H3. reflexivity.
Qed.

(** With a label, the display name is not derived and the method name is
    never looked at: any name is accepted, and the object is left
    without a [label] attribute. *)
Lemma init_labelled_accepts_any_method (sl : list Series) (n : nat)
    (m : option string) (lbl : string) (sd : option nat)
    (log : list string) :
  init sl n m (Some lbl) None sd log
  = (Ok {| series_list := sl; method := m; param := None; number := n;
           seed := sd; sg_label := None |}, log).
Proof. reflexivity. Qed.

(** C3.  A construction with the unsupported method name ['foo'] and a
    label returns an object: no error is raised, nothing is warned, and
    the invalid method is stored.  The claim (and the constructor's
    docstring) require an error that lists the supported methods. *)
Theorem init_accepts_unknown_method_when_labelled :
  init [] 1 (Some "foo") (Some "my surrogates") None None []
  = (Ok {| series_list := []; method := Some "foo"; param := None;
           number := 1; seed := None; sg_label := None |}, []).
Proof. reflexivity. Qed.

(** Every construction with a one-parameter model and more than one
    parameter raises. *)
Lemma init_single_parameter_model_raises (sl : list Series) (n : nat)
    (m : string) (lbl : option string) (p : list Q) (sd : option nat)
    (log : list string) :
  str_in m ["fBm"; "CN"] = true ->
  (1 < List.length p)%nat ->
  init sl n (Some m) lbl (Some p) sd log
  = (Raise (ValueError
       ("1 parameter is needed for this model; only the first of the provided "
        ++ str_nat (List.length p) ++ " will be used")), log).
Proof.
  intros Hm Hp. unfold init, bind, raise.
  assert (Hm' : m = "fBm" \/ m = "CN").
  { simpl in Hm. rewrite orb_false_r in Hm. apply orb_true_iff in Hm.
    destruct Hm as [H|H]; apply String.eqb_eq in H; auto. }
  apply Nat.ltb_lt in Hp.
  destruct Hm' as [-> | ->]; simpl; rewrite Hp; reflexivity.
Qed.

(** C4.  A construction with method ['fBm'] and two parameters, or with
    ['CN'] and three, raises [ValueError]; no warning is emitted and no
    object is returned.  The claim requires a warning and a successful
    construction, and the message itself announces that the first
    parameter "will be used". *)
Theorem init_raises_on_excess_parameters :
  init [] 1 (Some "fBm") (Some "fractional Brownian motion")
       (Some [1; 2]) None []
  = (Raise (ValueError
       "1 parameter is needed for this model; only the first of the provided 2 will be used"),
     [])
  /\
  init [] 1 (Some "CN") (Some "colored noise") (Some [1; 2; 3]) None []
  = (Raise (ValueError
       "1 parameter is needed for this model; only the first of the provided 3 will be used"),
     []).
Proof. split; reflexivity. Qed.

(** The sibling branch: parameters given to ['phaseran'] are warned
    about and construction goes on. *)
Lemma init_phaseran_warns (sl : list Series) (n : nat) (p : list Q)
    (sd : option nat) (log : list string) :
  init sl n (Some "phaseran") None (Some p) sd log
  = (Ok {| series_list := sl; method := Some "phaseran"; param := Some p;
           number := n; seed := sd;
           sg_label := Some "phase-randomized surrogates" |},
     (log ++ ["Phase-randomization is a non parametric method; the provided parameters will be ignored"])%list).
Proof. reflexivity. Qed.

End SurrogateInitFacts.

(* ================================================================== *)
(** * The concrete sampler library meets the contracts *)

Module LcgFacts.
Import Surrogate Lcg.

Lemma lcg_ar1_sim_shaped : ar1_sim_shaped lib.
Proof.
  intros y p t g r g' H Hp. simpl in H. inversion H; subst; clear H.
  destruct (Nat.eqb_spec p 1) as [->|_]; [lia|].
  simpl. split; reflexivity.
Qed.

Lemma lcg_phaseran2_shaped : phaseran2_shaped lib.
Proof.
  intros y p g r g' H Hp. simpl in H. inversion H; subst; clear H.
  destruct (Nat.eqb_spec p 1) as [->|_]; [lia|].
  simpl. split; reflexivity.
Qed.

Lemma lcg_uar1_sim_shaped : uar1_sim_shaped lib.
Proof.
  intros t tau sigma_2 g r g' H. simpl in H. inversion H; subst; clear H.
  destruct t as [x|l|m]; simpl; auto.
  rewrite length_map, length_seq. reflexivity.
Qed.

Lemma soi_wf : series_wf soi.
Proof. reflexivity. Qed.

End LcgFacts.

(* ================================================================== *)
(** * Properties of [SurrogateSeries.from_series] *)

Module FromSeriesFacts.
Import Surrogate MonadFacts NpFacts.

Lemma map_seq_succ {A} (f : nat -> A) (n : nat) :
  map (fun k => f (k + 1)%nat) (seq 0 n) = map f (seq 1 n).
Proof.
  rewrite <- seq_shift, map_map. apply map_ext. intros k.
  rewrite Nat.add_1_r. reflexivity.
Qed.

Lemma map_fst_enumerate {A B} (f : nat -> B) (l : list A) :
  map (fun iy => f (fst iy)) (enumerate l) = map f (seq 0 (List.length l)).
Proof.
  unfold enumerate. generalize 0%nat.
  induction l as [|x l IH]; intros s; simpl; [reflexivity|].
  rewrite IH. reflexivity.
Qed.

Lemma in_enumerate {A} (l : list A) (iy : nat * A) :
  In iy (enumerate l) -> In (snd iy) l.
Proof.
  destruct iy as [i y]. intros H. apply in_combine_r in H. exact H.
Qed.

Section WithLib.
Context {G : Type} {lib : TsLib G}.

(** One case split on the scrutinee of an innermost [match]. *)
Ltac step :=
  match goal with
  | |- context [match ?x with _ => _ end] =>
      lazymatch x with
      | context [match _ with _ => _ end] => fail
      | _ => destruct x eqn:?
      end
  end.

(** C2.  [from_series] does not seed the process-wide generator: a
    builder with [seed = s] and the same builder without a seed, run on
    the same target from the same generator state, have the same
    outcome, leave the generator in the same state, emit the same
    warnings and store the same series.  The generator built by
    [np.random.default_rng(self.seed)] is dropped, so the samplers draw
    from wherever the process-wide generator happens to be, and two
    calls with the same seed do not repeat each other. *)
Theorem from_series_ignores_seed (target : pyobj) (o : SurrogateSeries)
    (g : G) (w : list string) (s : nat) :
  let seeded := from_series target (mkState g w (with_seed (Some s) o)) in
  let unseeded := from_series target (mkState g w (with_seed None o)) in
  fst seeded = fst unseeded
  /\ rng (snd seeded) = rng (snd unseeded)
  /\ warnlog (snd seeded) = warnlog (snd unseeded)
  /\ series_list (self (snd seeded)) = series_list (self (snd unseeded)).
Proof.
  cbv zeta.
  unfold from_series, apply_method_to_target, collect_surrogates,
    assign_series_list, assign_param, read_local, get_self, call, lift,
    bind, ret, raise; simpl.
  destruct target as [ts|ty]; simpl; [|auto].
  repeat (step; simpl; try discriminate); repeat split; congruence.
Qed.

Lemma labels_of_indexed_surrogates (target_series : Series)
    (cols : list ndarray) :
  map label (map (indexed_surrogate target_series) (enumerate cols))
  = map (fun k => Some (str_or_empty (label target_series) ++ " surr #"
                        ++ str_nat k))
        (seq 1 (List.length cols)).
Proof.
  rewrite map_map.
  rewrite <- (map_seq_succ
           (fun k => Some (str_or_empty (label target_series) ++ " surr #"
                           ++ str_nat k))).
  rewrite <- (map_fst_enumerate
             (fun i => Some (str_or_empty (label target_series) ++ " surr #"
                             ++ str_nat (i + 1)))).
  apply map_ext. intros iy. reflexivity.
Qed.

(** Whatever the method, a sample drawn for more than one surrogate is
    seen by the loop as [number] columns of as many values as the
    target has time points. *)
Lemma apply_method_to_target_columns (o : SurrogateSeries)
    (target_series : Series) (st st1 : state G) (y_surr : option ndarray) :
  ar1_sim_shaped lib -> phaseran2_shaped lib -> uar1_sim_shaped lib ->
  series_wf target_series ->
  (1 < number o)%nat ->
  apply_method_to_target o target_series st = (Ok y_surr, st1) ->
  forall y, y_surr = Some y ->
            columns_seen y (List.length (time target_series)) (number o).
Proof.
  intros Har Hph Hu Hwf HN Hrun y ->.
  unfold apply_method_to_target in Hrun.
  destruct (method_is (method o) "ar1sim").
  { apply bind_inv_Ok in Hrun as (y0 & st0 & Hcall & Hret).
    inversion Hret; subst y0 st0; clear Hret.
    unfold call in Hcall.
    destruct (ar1_sim _ _ _ _) as [r g'] eqn:E. inversion Hcall; subst.
    apply columns_of_shape2. eapply Har; eauto. }
  destruct (method_is (method o) "phaseran").
  { destruct (is_evenly_spaced target_series); [|discriminate].
    apply bind_inv_Ok in Hrun as (y0 & st0 & Hcall & Hret).
    inversion Hret; subst y0 st0; clear Hret.
    unfold call in Hcall.
    destruct (phaseran2 _ _ _) as [r g'] eqn:E. inversion Hcall; subst.
    apply columns_of_shape2. rewrite <- Hwf. eapply Hph; eauto. }
  destruct (method_is (method o) "uar1"); [|discriminate].
  apply bind_inv_Ok in Hrun as (fit & st0 & _ & Hrun).
  apply bind_inv_Ok in Hrun as ([] & st2 & _ & Hrun).
  apply bind_inv_Ok in Hrun as (y0 & st3 & Hcall & Hret).
  inversion Hret; subst y0 st3; clear Hret.
  unfold call in Hcall.
  destruct (uar1_sim _ _ _ _) as [r g'] eqn:E. inversion Hcall; subst.
  apply columns_of_squeezed_tile; [exact HN|]. eapply Hu; eauto.
Qed.

(** C6.  After a successful [from_series] on a target with [L] time
    points, by a builder with [number = N]: if [N > 1], [series_list]
    holds exactly [N] series, each with [L] time points and [L] values,
    labelled with the target's label followed by [" surr #1"], ...,
    [" surr #N"] in this order; if [N = 1], it holds one series, labelled
    with the target's label followed by [" surr"].  The samplers are
    assumed to return arrays of the shape the specification gives them,
    and the target to satisfy the [Series] invariant. *)
Theorem from_series_count_length_labels (target_series : Series)
    (st st' : state G) :
  ar1_sim_shaped lib -> phaseran2_shaped lib -> uar1_sim_shaped lib ->
  series_wf target_series ->
  from_series (PySeries target_series) st = (Ok tt, st') ->
  let N := number (self st) in
  let L := List.length (time target_series) in
  let base := str_or_empty (label target_series) in
  ((1 < N)%nat ->
     List.length (series_list (self st')) = N
     /\ map label (series_list (self st'))
        = map (fun k => Some (base ++ " surr #" ++ str_nat k)) (seq 1 N)
     /\ Forall (fun s => List.length (time s) = L /\ size (value s) = L)
               (series_list (self st')))
  /\
  (N = 1%nat ->
     exists ts, series_list (self st') = [ts]
                /\ label ts = Some (base ++ " surr")).
Proof.
  intros Har Hph Hu Hwf Hrun. cbv zeta.
  unfold from_series in Hrun.
  apply bind_inv_Ok in Hrun as (ts & st0 & Hts & Hrun).
  inversion Hts; subst ts st0; clear Hts.
  apply bind_inv_Ok in Hrun as (o & st0 & Ho & Hrun).
  inversion Ho; subst o st0; clear Ho.
  apply bind_inv_Ok in Hrun as ([] & st0 & Hseed & Hrun).
  assert (st0 = st)
    by (destruct (seed (self st)); inversion Hseed; reflexivity).
  subst st0; clear Hseed.
  apply bind_inv_Ok in Hrun as (y_surr & st1 & Hy & Hrun).
  apply bind_inv_Ok in Hrun as (s_list & st2 & Hs & Hassign).
  assert (Hlist : series_list (self st') = s_list)
    by (inversion Hassign; reflexivity).
  rewrite Hlist. clear Hassign Hlist.
  unfold collect_surrogates in Hs.
  split.
  - intros HN.
    pose proof HN as HN'. apply Nat.ltb_lt in HN'. rewrite HN' in Hs.
    destruct y_surr as [y|]; [|discriminate].
    simpl in Hs.
    destruct (apply_method_to_target_columns _ _ _ _ _ Har Hph Hu Hwf HN Hy
                y eq_refl) as (cols & Hiter & Hlen & Hsizes).
    unfold bind, lift, ret in Hs. rewrite Hiter in Hs.
    inversion Hs; subst s_list st2; clear Hs.
    split; [|split].
    + rewrite length_map. unfold enumerate.
      rewrite length_combine, length_seq, Nat.min_id. exact Hlen.
    + rewrite labels_of_indexed_surrogates, Hlen. reflexivity.
    + apply Forall_forall. intros s Hin.
      apply in_map_iff in Hin as (iy & <- & Hin).
      apply in_enumerate in Hin.
      rewrite Forall_forall in Hsizes.
      split; [reflexivity|]. simpl. apply Hsizes. exact Hin.
  - intros HN. rewrite HN in Hs. simpl in Hs.
    destruct y_surr as [y|]; [|discriminate].
    inversion Hs; subst s_list st2; clear Hs.
    eexists; split; reflexivity.
Qed.

End WithLib.

Import Lcg LcgFacts.

Lemma from_series_count_length_labels_witness :
  (exists st',
     from_series (PySeries soi) (start (builder "ar1sim" 3 (Some 42%nat)))
     = (Ok tt, st')
     /\ List.length (series_list (self st')) = 3%nat
     /\ map label (series_list (self st'))
        = [Some "SOI surr #1"; Some "SOI surr #2"; Some "SOI surr #3"]
     /\ Forall (fun s => List.length (time s) = 4%nat
                         /\ size (value s) = 4%nat)
               (series_list (self st')))
  /\
  (exists st' ts,
     from_series (PySeries soi) (start (builder "uar1" 1 None))
     = (Ok tt, st')
     /\ series_list (self st') = [ts]
     /\ label ts = Some "SOI surr").
Proof.
  split.
  - eexists. split; [vm_compute; reflexivity|].
    apply (proj1 (from_series_count_length_labels soi
                    (start (builder "ar1sim" 3 (Some 42%nat))) _
                    lcg_ar1_sim_shaped lcg_phaseran2_shaped
                    lcg_uar1_sim_shaped soi_wf eq_refl)).
    simpl. lia.
  - assert (Hrun :
        from_series (PySeries soi) (start (builder "uar1" 1 None))
        = (Ok tt, snd (from_series (PySeries soi)
                         (start (builder "uar1" 1 None)))))
      by (vm_compute; reflexivity).
    destruct (proj2 (from_series_count_length_labels soi _ _
                       lcg_ar1_sim_shaped lcg_phaseran2_shaped
                       lcg_uar1_sim_shaped soi_wf Hrun) eq_refl)
      as (ts & Hlist & Hlabel).
    eexists _, ts. split; [exact Hrun|]. split; [exact Hlist|exact Hlabel].
Defined.

(** Two calls in a row by a builder seeded with 42: both succeed, and
    the second does not repeat the values of the first. *)
Lemma from_series_seeded_twice_differs :
  let b := builder "ar1sim" 2 (Some 42%nat) in
  let first := from_series (PySeries soi) (start b) in
  let second := from_series (PySeries soi) (snd first) in
  fst first = Ok tt
  /\ fst second = Ok tt
  /\ seed (self (snd first)) = Some 42%nat
  /\ map (fun s => entries (value s)) (series_list (self (snd first)))
     <> map (fun s => entries (value s)) (series_list (self (snd second))).
Proof.
  cbv zeta. repeat split; try reflexivity.
  vm_compute. discriminate.
Qed.

End FromSeriesFacts.

(* ================================================================== *)
(** * The running sum in binary64 and in exact arithmetic *)

Module Binary64Facts.
Import Np Binary64.








End Binary64Facts.

(* ================================================================== *)
(** * The steps of [SurrogateSeries.from_param] *)

Module FromParamSteps.
Import Surrogate MonadFacts NpFacts.

Section WithLib.
Context {G : Type} {lib : TsLib G}.

Lemma for_each_new_surrogate_labelled (lbl : string)
    (l : list (nat * (list Q * ndarray))) (st : state G) :
  sg_label (self st) = Some lbl ->
  for_each new_surrogate l st = (Ok (map (labelled lbl) l), st).
Proof.
  intros Hl. induction l as [|x l IH]; simpl; [reflexivity|].
  unfold bind at 1. unfold new_surrogate at 1.
  unfold bind, read_label, bind, get_self. rewrite Hl. simpl.
  unfold bind in IH. rewrite IH. reflexivity.
Qed.

(** Without a [label] attribute the first iteration raises; a loop over
    nothing does not notice. *)
Lemma for_each_new_surrogate_unlabelled
    (l : list (nat * (list Q * ndarray))) (st : state G) :
  sg_label (self st) = None ->
  for_each new_surrogate l st
  = match l with
    | [] => (Ok [], st)
    | _ :: _ =>
        (Raise (AttributeError
           "'SurrogateSeries' object has no attribute 'label'"), st)
    end.
Proof.
  intros Hl. destruct l as [|x l]; simpl; [reflexivity|].
  unfold bind, new_surrogate, bind, read_label, bind, get_self.
  rewrite Hl. reflexivity.
Qed.

Lemma for_each_new_surrogate_columns
    (l : list (nat * (list Q * ndarray))) (st st' : state G)
    (ys : list Series) :
  for_each new_surrogate l st = (Ok ys, st') ->
  map time ys = map (fun ity => fst (snd ity)) l
  /\ map value ys = map (fun ity => snd (snd ity)) l.
Proof.
  destruct (sg_label (self st)) as [lbl|] eqn:Hl.
  - rewrite (for_each_new_surrogate_labelled lbl) by exact Hl.
    intros H; inversion H; subst. rewrite !map_map. split; reflexivity.
  - rewrite for_each_new_surrogate_unlabelled by exact Hl.
    destruct l; intros H; inversion H. split; reflexivity.
Qed.

(** The time axes depend on the generator alone, and change nothing but
    the generator. *)
Lemma fill_random_column_frame (L : nat) (settings : Settings)
    (times : matrix) (i : nat) (g : G) :
  exists r g', forall w o,
    fill_random_column L settings times i (mkState g w o)
    = (r, mkState g' w o).
Proof.
  unfold fill_random_column, bind, call, lift. simpl.
  destruct (random_time_index _ _ _ g) as [[v|e] g1].
  - eexists _, g1. intros w o. reflexivity.
  - eexists _, g1. intros w o. reflexivity.
Qed.

Lemma fill_random_frame (L : nat) (settings : Settings) (cols : list nat) :
  forall (times : matrix) (g : G),
  exists r g', forall w o,
    fill_random L settings cols times (mkState g w o) = (r, mkState g' w o).
Proof.
  induction cols as [|i rest IH]; intros times g; simpl.
  - exists (Ok times), g. reflexivity.
  - destruct (fill_random_column_frame L settings times i g)
      as ([m|e] & g1 & H1).
    + destruct (IH m g1) as (r & g2 & H2).
      exists r, g2. intros w o. unfold bind. rewrite H1. apply H2.
    + exists (Raise e), g1. intros w o. unfold bind. rewrite H1. reflexivity.
Qed.

Lemma time_axes_frame (N L : nat) (time_pattern : string)
    (settings : Settings) (g : G) :
  exists r g', forall w o,
    time_axes N L time_pattern settings (mkState g w o)
    = (r, mkState g' w o).
Proof.
  unfold time_axes.
  destruct (String.eqb time_pattern "even").
  { eexists _, g. reflexivity. }
  destruct (String.eqb time_pattern "random").
  { apply fill_random_frame. }
  destruct (String.eqb time_pattern "specified").
  { destruct (settings_time settings); eexists _, g; reflexivity. }
  eexists _, g. reflexivity.
Qed.

Lemma seed_and_time_axes_frame (N : nat) (sd : option nat) (L : nat)
    (time_pattern : string) (settings : Settings) (g : G) :
  exists r g', forall w o,
    number o = N -> seed o = sd ->
    seed_and_time_axes L time_pattern settings (mkState g w o)
    = (r, mkState g' w o).
Proof.
  destruct (time_axes_frame N L time_pattern settings
              (match sd with Some s => np_random_seed s | None => g end))
    as (r & g' & H).
  exists r, g'. intros w o HN Hsd.
  unfold seed_and_time_axes, bind, get_self. simpl.
  rewrite Hsd, HN. destruct sd; simpl; apply H.
Qed.




End WithLib.
End FromParamSteps.

(* ================================================================== *)
(** * Properties of [SurrogateSeries.from_param] *)

Module FromParamFacts.
Import Surrogate MonadFacts NpFacts FromParamSteps Binary64Facts.

Section WithLib.
Context {G : Type} {lib : TsLib G}.

(** The sampling step of an AR builder: both names take the same
    branch, and too few parameters are replaced after a warning. *)
Lemma apply_method_ar (param : list Q) (times : matrix)
    (g : G) (w : list string) (o : SurrogateSeries) :
  str_in_method (method o) ["uar1"; "ar1sim"] = true ->
  apply_method param times (mkState g w o)
  = if (List.length param <? 2)%nat then
      let (r, g') := uar1_sim (Arr2 times) 5 (1 # 2) g in
      (r, mkState g' (w ++ [ar_warning (List.length param)])%list o)
    else
      let (r, g') :=
        uar1_sim (Arr2 times) (nth 0 param 0) (nth 1 param 0) g in
      (r, mkState g' w o).
Proof.
  intros Hm. unfold apply_method, bind, get_self. simpl. rewrite Hm.
  destruct (List.length param <? 2)%nat; reflexivity.
Qed.

(** The last step of a builder that has a label. *)
Lemma create_series_list_labelled (times : matrix) (y_surr : ndarray)
    (g : G) (w : list string) (o : SurrogateSeries) (lbl : string) :
  sg_label o = Some lbl ->
  create_series_list times y_surr (mkState g w o)
  = match iter (ndT y_surr) with
    | Raise e => (Raise e, mkState g w o)
    | Ok cols =>
        (Ok tt,
         mkState g w
           {| series_list :=
                map (labelled lbl)
                    (enumerate (zip (rows (transpose times)) cols));
              method := method o; param := param o; number := number o;
              seed := seed o; sg_label := sg_label o |})
    end.
Proof.
  intros Hl. unfold create_series_list, bind, lift.
  destruct (iter (ndT y_surr)) as [cols|e]; [|reflexivity].
  rewrite (for_each_new_surrogate_labelled lbl) by exact Hl.
  reflexivity.
Qed.

(** The last step neither reads nor writes the generator or the log. *)
Lemma create_series_list_frame (times : matrix) (y_surr : ndarray)
    (o : SurrogateSeries) :
  exists r o', forall (g : G) (w : list string),
    create_series_list times y_surr (mkState g w o) = (r, mkState g w o').
Proof.
  destruct (sg_label o) as [lbl|] eqn:Hl.
  - destruct (iter (ndT y_surr)) as [cols|e] eqn:Hi.
    + eexists _, _. intros g w.
      rewrite (create_series_list_labelled _ _ _ _ _ lbl Hl), Hi. reflexivity.
    + eexists _, _. intros g w.
      rewrite (create_series_list_labelled _ _ _ _ _ lbl Hl), Hi. reflexivity.
  - unfold create_series_list, bind, lift.
    destruct (iter (ndT y_surr)) as [cols|e].
    + destruct (enumerate (zip (rows (transpose times)) cols)) as [|x l] eqn:El.
      * exists (Ok tt),
          {| series_list := []; method := method o; param := param o;
             number := number o; seed := seed o; sg_label := sg_label o |}.
        intros g w.
        rewrite for_each_new_surrogate_unlabelled by exact Hl.
        reflexivity.
      * eexists _, o. intros g w.
        rewrite for_each_new_surrogate_unlabelled by exact Hl.
        reflexivity.
    + eexists _, _. intros g w. reflexivity.
Qed.

(** C5, amended.  A [from_param] call by an AR builder ([ar1sim] or
    [uar1]) with fewer than two parameters, whose time axes are
    generated without error, emits the warning about the missing
    parameters and otherwise behaves exactly as the same call with
    [param = [5, 0.5]]: same outcome, same generator state, same
    object. *)
Theorem from_param_ar_defaults (param : option (list Q)) (L : nat)
    (time_pattern : string) (settings : option Settings) (st : state G) :
  str_in_method (method (self st)) ["uar1"; "ar1sim"] = true ->
  (List.length (coerce_param param) < 2)%nat ->
  is_ok (fst (seed_and_time_axes L time_pattern
                (coerce_settings settings) st)) = true ->
  let run := from_param param L time_pattern settings st in
  let with_defaults :=
    from_param (Some [5; 1 # 2]) L time_pattern settings st in
  warnlog (snd run)
  = (warnlog st ++ [ar_warning (List.length (coerce_param param))])%list
  /\ fst run = fst with_defaults
  /\ rng (snd run) = rng (snd with_defaults)
  /\ self (snd run) = self (snd with_defaults).
Proof.
  intros Hm Hlen Haxes. cbv zeta. destruct st as [g w o]. simpl in Hm.
  unfold from_param.
  destruct (seed_and_time_axes_frame (number o) (seed o) L time_pattern
              (coerce_settings settings) g) as (r & g1 & Hframe).
  specialize (Hframe w o eq_refl eq_refl).
  rewrite Hframe in Haxes. simpl in Haxes.
  destruct r as [times|e]; [clear Haxes|discriminate].
  rewrite !(bind_Ok _ _ _ _ _ Hframe).
  unfold bind. rewrite !apply_method_ar by exact Hm.
  apply Nat.ltb_lt in Hlen. rewrite Hlen. simpl.
  destruct (uar1_sim (Arr2 times) 5 (1 # 2) g1) as [[y|e] g2].
  - destruct (create_series_list_frame times y o) as (r & o' & Hlast).
    rewrite !Hlast. simpl. repeat split; reflexivity.
  - simpl. repeat split; reflexivity.
Qed.

(** What a [from_param] call of an AR builder comes to once the time
    axes are built: one call of [uar1_sim], then the list. *)
Lemma from_param_ar_run (param : option (list Q)) (L : nat)
    (time_pattern : string) (settings : option Settings)
    (g g1 : G) (w : list string) (o : SurrogateSeries) (times : matrix) :
  str_in_method (method o) ["uar1"; "ar1sim"] = true ->
  seed_and_time_axes L time_pattern (coerce_settings settings)
    (mkState g w o) = (Ok times, mkState g1 w o) ->
  let p := coerce_param param in
  let short := (List.length p <? 2)%nat in
  let w' := if short then (w ++ [ar_warning (List.length p)])%list else w in
  from_param param L time_pattern settings (mkState g w o)
  = match uar1_sim (Arr2 times) (if short then 5 else nth 0 p 0)
            (if short then 1 # 2 else nth 1 p 0) g1 with
    | (Ok y, g2) => create_series_list times y (mkState g2 w' o)
    | (Raise e, g2) => (Raise e, mkState g2 w' o)
    end.
Proof.
  intros Hm Haxes. cbv zeta. unfold from_param.
  rewrite (bind_Ok _ _ _ _ _ Haxes). unfold bind.
  rewrite (apply_method_ar _ _ _ _ o Hm).
  destruct (List.length (coerce_param param) <? 2)%nat;
    destruct (uar1_sim (Arr2 times) _ _ g1) as [[y|e] g2]; reflexivity.
Qed.

(** The series of a list that was built: the columns of [times] paired
    with the value columns, in order. *)
Lemma create_series_list_pairs (times : matrix) (y : ndarray)
    (columns : list ndarray) (st st' : state G) :
  iter (ndT y) = Ok columns ->
  create_series_list times y st = (Ok tt, st') ->
  map (fun s => (time s, value s)) (series_list (self st'))
  = zip (rows (transpose times)) columns.
Proof.
  intros Hiter Hrun. unfold create_series_list in Hrun.
  unfold bind at 1 in Hrun. unfold lift in Hrun. rewrite Hiter in Hrun.
  apply bind_inv_Ok in Hrun as (s_list & st4 & Hloop & Hassign).
  assert (Hlist : series_list (self st') = s_list)
    by (inversion Hassign; reflexivity).
  rewrite Hlist. clear Hassign Hlist.
  apply for_each_new_surrogate_columns in Hloop as [Htime Hvalue].
  revert Htime Hvalue. unfold enumerate.
  generalize (zip (rows (transpose times)) columns).
  intros l. generalize 0%nat. revert s_list.
  induction l as [|[t v] l IH]; intros s k Ht Hv;
    destruct s as [|x s]; simpl in *; try discriminate; [reflexivity|].
  inversion Ht; inversion Hv; subst.
  f_equal. eapply IH; eassumption.
Qed.

(** C9.  Two builders that differ in the AR variant they name
    ([ar1sim], [uar1]), and possibly in what they held before and in
    the text of their label, called with the same arguments from the
    same generator state.  Both calls sample with [uar1_sim]: once the
    time axes [times] are built, the generator is left where
    [uar1_sim] on [times] left it -- with the first two parameters, or
    with 5 and 0.5 when fewer than two were given --, a failure of
    [uar1_sim] is the failure of the call, and the series of a call
    that returns pair the columns of [times] with the columns of what
    [uar1_sim] returned, in order.  So the calls have the same outcome,
    leave the same generator state, emit the same warnings, and the
    series they produce have the same time columns and the same value
    columns. *)
Theorem from_param_ar_variants_agree
    (sl1 sl2 : list Series) (p1 p2 : option (list Q)) (n : nat)
    (sd : option nat) (has_label : bool) (l1 l2 : string)
    (g : G) (w : list string)
    (param : option (list Q)) (L : nat) (time_pattern : string)
    (settings : option Settings) :
  let mom := {| series_list := sl1; method := Some "ar1sim"; param := p1;
                number := n; seed := sd;
                sg_label := if has_label then Some l1 else None |} in
  let mle := {| series_list := sl2; method := Some "uar1"; param := p2;
                number := n; seed := sd;
                sg_label := if has_label then Some l2 else None |} in
  let run1 := from_param param L time_pattern settings (mkState g w mom) in
  let run2 := from_param param L time_pattern settings (mkState g w mle) in
  let p := coerce_param param in
  let tau := if (List.length p <? 2)%nat then 5 else nth 0 p 0 in
  let sigma_2 := if (List.length p <? 2)%nat then 1 # 2 else nth 1 p 0 in
  (forall (run : result unit * state G) (o : SurrogateSeries),
     In (run, o) [(run1, mom); (run2, mle)] ->
     forall (times : matrix) (st1 : state G),
       seed_and_time_axes L time_pattern (coerce_settings settings)
         (mkState g w o) = (Ok times, st1) ->
       let sim := uar1_sim (Arr2 times) tau sigma_2 (rng st1) in
       rng (snd run) = snd sim
       /\ match fst sim with
          | Raise e => fst run = Raise e
          | Ok y =>
              match iter (ndT y) with
              | Raise e => fst run = Raise e
              | Ok columns =>
                  fst run = Ok tt ->
                  map (fun s => (time s, value s))
                      (series_list (self (snd run)))
                  = zip (rows (transpose times)) columns
              end
          end)
  /\ fst run1 = fst run2
  /\ rng (snd run1) = rng (snd run2)
  /\ warnlog (snd run1) = warnlog (snd run2)
  /\ map time (produced run1) = map time (produced run2)
  /\ map value (produced run1) = map value (produced run2).
Proof.
  cbv zeta.
  set (mom := mkSurrogateSeries sl1 (Some "ar1sim") p1 n sd
                (if has_label then Some l1 else None)).
  set (mle := mkSurrogateSeries sl2 (Some "uar1") p2 n sd
                (if has_label then Some l2 else None)).
  assert (Hdispatch :
    forall o : SurrogateSeries,
      str_in_method (method o) ["uar1"; "ar1sim"] = true ->
      forall (times : matrix) (st1 : state G),
        seed_and_time_axes L time_pattern (coerce_settings settings)
          (mkState g w o) = (Ok times, st1) ->
        let run := from_param param L time_pattern settings (mkState g w o) in
        let sim :=
          uar1_sim (Arr2 times)
            (if (List.length (coerce_param param) <? 2)%nat then 5
             else nth 0 (coerce_param param) 0)
            (if (List.length (coerce_param param) <? 2)%nat then 1 # 2
             else nth 1 (coerce_param param) 0) (rng st1) in
        rng (snd run) = snd sim
        /\ match fst sim with
           | Raise e => fst run = Raise e
           | Ok y =>
               match iter (ndT y) with
               | Raise e => fst run = Raise e
               | Ok columns =>
                   fst run = Ok tt ->
                   map (fun s => (time s, value s))
                       (series_list (self (snd run)))
                   = zip (rows (transpose times)) columns
               end
           end).
  { intros o Hm times st1 Haxes. cbv zeta.
    destruct (seed_and_time_axes_frame (number o) (seed o) L time_pattern
                (coerce_settings settings) g) as (r & g1 & Hframe).
    specialize (Hframe w o eq_refl eq_refl).
    rewrite Hframe in Haxes. inversion Haxes; subst r st1; clear Haxes.
    rewrite (from_param_ar_run param L time_pattern settings g g1 w o times
               Hm Hframe).
    simpl rng.
    destruct (uar1_sim (Arr2 times) _ _ g1) as [[y|e] g2]; simpl;
      [|split; reflexivity].
    destruct (create_series_list_frame times y o)
      as (r & o' & Hlast).
    match goal with
    | |- context [create_series_list times y (mkState g2 ?w' o)] =>
        pose proof (Hlast g2 w') as Hrun
    end.
    rewrite Hrun. simpl. split; [reflexivity|].
    destruct (iter (ndT y)) as [columns|e] eqn:Hiter.
    - intros Hok. subst r.
      apply (create_series_list_pairs times y columns _ _ Hiter Hrun).
    - unfold create_series_list, bind, lift in Hrun. rewrite Hiter in Hrun.
      inversion Hrun. reflexivity. }
  split.
  { intros run o [Hin|[Hin|[]]] times st1 Haxes;
      inversion Hin; subst run o.
    - exact (Hdispatch mom eq_refl times st1 Haxes).
    - exact (Hdispatch mle eq_refl times st1 Haxes). }
  clear Hdispatch.
  unfold from_param.
  destruct (seed_and_time_axes_frame n sd L time_pattern
              (coerce_settings settings) g) as (r & g1 & Hframe).
  pose proof (Hframe w mom eq_refl eq_refl) as H1.
  pose proof (Hframe w mle eq_refl eq_refl) as H2.
  destruct r as [times|e].
  2:{ rewrite (bind_Raise _ _ _ _ _ H1), (bind_Raise _ _ _ _ _ H2).
      repeat split; reflexivity. }
  rewrite (bind_Ok _ _ _ _ _ H1), (bind_Ok _ _ _ _ _ H2).
  unfold bind.
  rewrite (apply_method_ar _ _ _ _ mom eq_refl).
  rewrite (apply_method_ar _ _ _ _ mle eq_refl).
  assert (Hlast : forall (y : ndarray) (g2 : G) (w2 : list string),
    let run1 := create_series_list times y (mkState g2 w2 mom) in
    let run2 := create_series_list times y (mkState g2 w2 mle) in
    fst run1 = fst run2
    /\ rng (snd run1) = rng (snd run2)
    /\ warnlog (snd run1) = warnlog (snd run2)
    /\ map time (produced run1) = map time (produced run2)
    /\ map value (produced run1) = map value (produced run2)).
  { intros y g2 w2. cbv zeta. destruct has_label.
    - rewrite (create_series_list_labelled _ _ _ _ mom l1 eq_refl).
      rewrite (create_series_list_labelled _ _ _ _ mle l2 eq_refl).
      destruct (iter (ndT y)); unfold produced; simpl;
        rewrite ?map_map; repeat split; reflexivity.
    - unfold create_series_list, bind, lift.
      destruct (iter (ndT y)) as [cols|e]; [|repeat split; reflexivity].
      rewrite !for_each_new_surrogate_unlabelled by reflexivity.
      destruct (enumerate (zip (rows (transpose times)) cols));
        repeat split; reflexivity. }
  destruct (List.length (coerce_param param) <? 2)%nat.
  - destruct (uar1_sim (Arr2 times) 5 (1 # 2) g1) as [[y|e] g2].
    + apply Hlast.
    + repeat split; reflexivity.
  - destruct (uar1_sim (Arr2 times) _ _ g1) as [[y|e] g2].
    + apply Hlast.
    + repeat split; reflexivity.
Qed.



(** The sibling path: [from_param] does restart the process-wide
    generator, so a seeded call does not depend on the generator state
    it finds. *)
Lemma from_param_restarts_generator (param : option (list Q)) (L : nat)
    (time_pattern : string) (settings : option Settings)
    (o : SurrogateSeries) (s : nat) (g1 g2 : G) (w : list string) :
  seed o = Some s ->
  from_param param L time_pattern settings (mkState g1 w o)
  = from_param param L time_pattern settings (mkState g2 w o).
Proof.
  intros Hs. unfold from_param, seed_and_time_axes, bind, get_self.
  simpl. rewrite Hs. reflexivity.
Qed.

End WithLib.

Import Lcg LcgFacts.

Lemma from_param_ar_defaults_witness :
  let st := start (builder "ar1sim" 2 (Some 42%nat)) in
  let run := from_param (Some [3]) 5 "even" None st in
  let with_defaults := from_param (Some [5; 1 # 2]) 5 "even" None st in
  warnlog (snd run)
  = ["The AR(1) model needs 2 parameters, tau and sigma2 (in that order); 1 provided. default values used, tau=5, sigma=0.5"]
  /\ fst run = fst with_defaults
  /\ rng (snd run) = rng (snd with_defaults)
  /\ self (snd run) = self (snd with_defaults).
Proof.
  apply (from_param_ar_defaults (Some [3]) 5 "even" None
           (start (builder "ar1sim" 2 (Some 42%nat))));
    [reflexivity | simpl; lia | reflexivity].
Defined.

(** C5 as stated ("every call") fails: a call with an unknown time
    pattern raises on the pattern before the parameter count is looked
    at, and no warning is emitted. *)
Lemma from_param_unknown_pattern_raises_unwarned :
  from_param (Some [3]) 50 "bogus" None
    (start (builder "ar1sim" 2 (Some 42%nat)))
  = (Raise (ValueError "Unknown time pattern: bogus"),
     mkState 42%Z [] (builder "ar1sim" 2 (Some 42%nat))).
Proof. reflexivity. Qed.





Lemma from_param_ar_variants_agree_witness :
  let mom := {| series_list := []; method := Some "ar1sim"; param := None;
                number := 2; seed := Some 7%nat;
                sg_label := Some "AR(1) surrogates (MoM)" |} in
  let mle := {| series_list := [soi]; method := Some "uar1";
                param := Some [1; 1]; number := 2; seed := Some 7%nat;
                sg_label := Some "AR(1) surrogates (MLE)" |} in
  let run1 := from_param (Some [3; 1 # 4]) 4 "even" None (start mom) in
  let run2 := from_param (Some [3; 1 # 4]) 4 "even" None (start mle) in
  let times := transpose (tile (cumsum (repeat 1 4)) 2) in
  let sim := uar1_sim (Arr2 times) 3 (1 # 4) 7%Z in
  exists y columns,
    fst sim = Ok y
    /\ iter (ndT y) = Ok columns
    /\ List.length columns = 2%nat
    /\ fst run1 = Ok tt
    /\ fst run2 = Ok tt
    /\ rng (snd run1) = snd sim
    /\ rng (snd run2) = snd sim
    /\ map value (series_list (self (snd run1))) = columns
    /\ map value (series_list (self (snd run2))) = columns.
Proof.
  cbv zeta.
  set (mom := mkSurrogateSeries [] (Some "ar1sim") None 2 (Some 7%nat)
                (Some "AR(1) surrogates (MoM)")).
  set (mle := mkSurrogateSeries [soi] (Some "uar1") (Some [1; 1]) 2
                (Some 7%nat) (Some "AR(1) surrogates (MLE)")).
  set (times := transpose (tile (cumsum (repeat 1 4)) 2)).
  destruct (from_param_ar_variants_agree [] [soi] None (Some [1; 1]) 2
              (Some 7%nat) true "AR(1) surrogates (MoM)"
              "AR(1) surrogates (MLE)" 2024%Z [] (Some [3; 1 # 4]) 4
              "even" None) as (Hsim & _).
  cbv zeta in Hsim. fold mom mle in Hsim.
  pose proof (Hsim _ mom (or_introl eq_refl) times (mkState 7%Z [] mom)
                eq_refl) as (Hrng1 & Hval1).
  pose proof (Hsim _ mle (or_intror (or_introl eq_refl)) times
                (mkState 7%Z [] mle) eq_refl) as (Hrng2 & Hval2).
  simpl rng in Hrng1, Hrng2, Hval1, Hval2.
  lazy beta iota zeta delta [coerce_param List.length Nat.ltb Nat.leb nth]
    in Hrng1, Hrng2, Hval1, Hval2.
  assert (H1 : fst (from_param (Some [3; 1 # 4]) 4 "even" None (start mom))
               = Ok tt) by reflexivity.
  assert (H2 : fst (from_param (Some [3; 1 # 4]) 4 "even" None (start mle))
               = Ok tt) by reflexivity.
  destruct (fst (uar1_sim (Arr2 times) 3 (1 # 4) 7%Z)) as [y|e] eqn:Ey;
    [|discriminate Ey].
  destruct (iter (ndT y)) as [columns|e] eqn:Ec.
  2:{ simpl in Ey. inversion Ey; subst y. discriminate Ec. }
  exists y, columns. split; [reflexivity|]. split; [exact Ec|].
  split.
  { simpl in Ey. inversion Ey; subst y. simpl in Ec.
    inversion Ec; reflexivity. }
  split; [exact H1|]. split; [exact H2|].
  split; [exact Hrng1|]. split; [exact Hrng2|].
  specialize (Hval1 H1). specialize (Hval2 H2).
  assert (Hz : map snd (zip (rows (transpose times)) columns) = columns).
  { simpl in Ey. inversion Ey; subst y. simpl in Ec.
    inversion Ec; reflexivity. }
  split.
  - transitivity (map snd (zip (rows (transpose times)) columns));
      [|exact Hz].
    rewrite <- Hval1, map_map. reflexivity.
  - transitivity (map snd (zip (rows (transpose times)) columns));
      [|exact Hz].
    rewrite <- Hval2, map_map. reflexivity.
Defined.

End FromParamFacts.

(* ================================================================== *)
(** * The size of the collection that [from_param] builds *)

Module FromParamCount.
Import Surrogate MonadFacts NpFacts FromParamSteps FromParamFacts.

Section WithLib.
Context {G : Type} {lib : TsLib G}.

Lemma fill_random_shape (L : nat) (settings : Settings) (cols : list nat) :
  forall (times times' : matrix) (st st' : state G),
    fill_random L settings cols times st = (Ok times', st') ->
    nrows times' = nrows times /\ ncols times' = ncols times.
Proof.
  induction cols as [|i rest IH]; intros times times' st st' H; simpl in H.
  - inversion H; split; reflexivity.
  - apply bind_inv_Ok in H as (m & st1 & Hcol & Hrest).
    unfold fill_random_column in Hcol.
    apply bind_inv_Ok in Hcol as (v & st2 & _ & Hassign).
    unfold lift in Hassign. inversion Hassign as [[Ha Hst]].
    apply assign_column_shape in Ha as [Hr Hc].
    apply IH in Hrest as [Hr' Hc']. split; congruence.
Qed.

Lemma seed_and_time_axes_ncols (L : nat) (time_pattern : string)
    (settings : Settings) (st st1 : state G) (times : matrix) :
  seed_and_time_axes L time_pattern settings st = (Ok times, st1) ->
  ncols times = number (self st).
Proof.
  unfold seed_and_time_axes. intros H.
  apply bind_inv_Ok in H as (o & st0 & Ho & H).
  inversion Ho; subst o st0; clear Ho.
  apply bind_inv_Ok in H as ([] & st0 & _ & H).
  unfold time_axes in H.
  destruct (String.eqb time_pattern "even").
  { inversion H; reflexivity. }
  destruct (String.eqb time_pattern "random").
  { apply fill_random_shape in H as [_ Hc]. exact Hc. }
  destruct (String.eqb time_pattern "specified"); [|discriminate].
  destruct (settings_time settings); inversion H; reflexivity.
Qed.

(** The invariant [len(series_list) == number] after generation: an AR
    builder whose call returns holds exactly [number] series. *)
Lemma from_param_ar_produces_number (param : option (list Q)) (L : nat)
    (time_pattern : string) (settings : option Settings)
    (st st' : state G) :
  uar1_sim_shaped lib ->
  str_in_method (method (self st)) ["uar1"; "ar1sim"] = true ->
  from_param param L time_pattern settings st = (Ok tt, st') ->
  List.length (series_list (self st')) = number (self st).
Proof.
  intros Hshape Hm Hrun. unfold from_param in Hrun.
  apply bind_inv_Ok in Hrun as (times & st1 & Htimes & Hrun).
  pose proof (seed_and_time_axes_ncols _ _ _ _ _ _ Htimes) as Hcols.
  destruct st as [g w o]. simpl in Hm, Hcols.
  destruct (seed_and_time_axes_frame (number o) (seed o) L time_pattern
              (coerce_settings settings) g) as (r & g1 & Hframe).
  rewrite (Hframe w o eq_refl eq_refl) in Htimes.
  inversion Htimes; subst r st1; clear Htimes.
  apply bind_inv_Ok in Hrun as (y & st2 & Hy & Hrun).
  rewrite apply_method_ar in Hy by exact Hm.
  assert (Hsame : same_shape y (Arr2 times)).
  { destruct (List.length (coerce_param param) <? 2)%nat;
      destruct (uar1_sim _ _ _ g1) as [r g2] eqn:E;
      inversion Hy; subst; eapply Hshape; eauto. }
  destruct y as [x|v|m]; simpl in Hsame; try contradiction.
  destruct Hsame as [_ Hc].
  unfold create_series_list in Hrun.
  apply bind_inv_Ok in Hrun as (cols & st3 & Hiter & Hrun).
  unfold lift in Hiter. simpl in Hiter.
  inversion Hiter; subst cols st3; clear Hiter.
  apply bind_inv_Ok in Hrun as (s_list & st4 & Hloop & Hassign).
  assert (Hlist : series_list (self st') = s_list)
    by (inversion Hassign; reflexivity).
  rewrite Hlist.
  apply for_each_new_surrogate_columns in Hloop as [Htime _].
  apply (f_equal (@List.length _)) in Htime.
  rewrite !length_map in Htime. rewrite Htime.
  unfold enumerate, zip.
  rewrite length_combine, length_seq, Nat.min_id.
  rewrite length_combine, length_map, !length_rows. simpl.
  rewrite Hc, Hcols. apply Nat.min_id.
Qed.

End WithLib.
End FromParamCount.

(* ================================================================== *)
(** * Edge cases and invariants of [from_series] *)

Module FromSeriesEdges.
Import Surrogate MonadFacts NpFacts.

Section WithLib.
Context {G : Type} {lib : TsLib G}.

Lemma bind_inv_Raise {St A B} (m : M St A) (k : A -> M St B) st e st' :
  bind m k st = (Raise e, st') ->
  m st = (Raise e, st')
  \/ exists a st1, m st = (Ok a, st1) /\ k a st1 = (Raise e, st').
Proof.
  unfold bind. destruct (m st) as [[a|e1] st1]; intros H.
  - right. exists a, st1; auto.
  - left. inversion H; reflexivity.
Qed.

Lemma call_self {A} (f : G -> result A * G) (st st1 : state G) (r : result A) :
  call f st = (r, st1) -> self st1 = self st /\ warnlog st1 = warnlog st.
Proof.
  unfold call. destruct (f (rng st)) as [r' g]. intros H; inversion H.
  split; reflexivity.
Qed.

(** What the sampling step leaves alone. *)
Lemma apply_method_to_target_keeps (o : SurrogateSeries)
    (target_series : Series) (st st1 : state G)
    (r : result (option ndarray)) :
  apply_method_to_target o target_series st = (r, st1) ->
  series_list (self st1) = series_list (self st)
  /\ method (self st1) = method (self st)
  /\ number (self st1) = number (self st)
  /\ seed (self st1) = seed (self st)
  /\ sg_label (self st1) = sg_label (self st)
  /\ warnlog st1 = warnlog st.
Proof.
  unfold apply_method_to_target.
  destruct (method_is (method o) "ar1sim").
  { unfold bind. destruct (call _ st) as [[y|e] st0] eqn:E;
      intros H; inversion H; subst;
      apply call_self in E as [-> ->]; repeat split; reflexivity. }
  destruct (method_is (method o) "phaseran").
  { destruct (is_evenly_spaced target_series).
    - unfold bind. destruct (call _ st) as [[y|e] st0] eqn:E;
        intros H; inversion H; subst;
        apply call_self in E as [-> ->]; repeat split; reflexivity.
    - intros H; inversion H; repeat split; reflexivity. }
  destruct (method_is (method o) "uar1").
  { unfold bind at 1. destruct (call _ st) as [[fit|e] st0] eqn:E.
    - apply call_self in E as [Hs Hw].
      unfold bind at 1. simpl.
      unfold bind.
      destruct (call _ _) as [[y|e] st2] eqn:E2;
        intros H; inversion H; subst;
        apply call_self in E2 as [Hs2 Hw2]; simpl in Hs2, Hw2;
        rewrite Hs2, Hw2, Hw; simpl; rewrite Hs; repeat split; reflexivity.
    - intros H; inversion H; subst.
      apply call_self in E as [-> ->]; repeat split; reflexivity. }
  intros H; inversion H; repeat split; reflexivity.
Qed.

Lemma collect_surrogates_pure (o : SurrogateSeries) (target_series : Series)
    (y_surr : option ndarray) (st st1 : state G) (r : result (list Series)) :
  collect_surrogates o target_series y_surr st = (r, st1) -> st1 = st.
Proof.
  unfold collect_surrogates, read_local, bind, lift, ret, raise.
  destruct (1 <? number o)%nat; destruct y_surr as [y|];
    try destruct (iter (ndT y)); intros H; inversion H; reflexivity.
Qed.

Lemma from_series_keeps (target : pyobj) (st st' : state G)
    (r : result unit) :
  from_series target st = (r, st') ->
  method (self st') = method (self st)
  /\ number (self st') = number (self st)
  /\ seed (self st') = seed (self st)
  /\ sg_label (self st') = sg_label (self st)
  /\ warnlog st' = warnlog st
  /\ (forall e, r = Raise e ->
        series_list (self st') = series_list (self st)).
Proof.
  unfold from_series. intros H.
  destruct target as [ts|ty].
  2:{ inversion H; repeat split; reflexivity. }
  unfold bind at 1 in H. simpl in H.
  unfold bind at 1 in H. simpl in H.
  unfold bind at 1 in H.
  destruct ((match seed (self st) with
             | Some s => let _ := default_rng s in ret tt
             | None => ret tt
             end) st) as [[[]|e0] st0] eqn:Hseed.
  2:{ destruct (seed (self st)); discriminate. }
  assert (st0 = st)
    by (destruct (seed (self st)); inversion Hseed; reflexivity).
  subst st0. clear Hseed.
  unfold bind at 1 in H.
  destruct (apply_method_to_target (self st) ts st) as [[y|e1] st1] eqn:E1;
    apply apply_method_to_target_keeps in E1
      as (Hsl & Hm & Hn & Hsd & Hl & Hw).
  - unfold bind at 1 in H.
    destruct (collect_surrogates (self st) ts y st1) as [[l|e2] st2] eqn:E2;
      apply collect_surrogates_pure in E2; subst st2.
    + inversion H; subst. simpl. repeat split; auto. discriminate.
    + inversion H; subst. repeat split; auto.
  - inversion H; subst. repeat split; auto.
Qed.

(** X1.  A [from_series] call changes, of the builder, nothing but
    [series_list] and [param]; it emits no warning; and when it raises,
    [series_list] is what it was. *)
Theorem from_series_changes_only_series_list_and_param (target : pyobj)
    (st : state G) :
  let run := from_series target st in
  method (self (snd run)) = method (self st)
  /\ number (self (snd run)) = number (self st)
  /\ seed (self (snd run)) = seed (self st)
  /\ sg_label (self (snd run)) = sg_label (self st)
  /\ warnlog (snd run) = warnlog st
  /\ (is_ok (fst run) = false ->
        series_list (self (snd run)) = series_list (self st)).
Proof.
  cbv zeta. destruct (from_series target st) as [r st'] eqn:H.
  apply from_series_keeps in H as (Hm & Hn & Hsd & Hl & Hw & Hsl).
  simpl. repeat split; auto.
  destruct r as [[]|e]; [discriminate|]. intros _. eapply Hsl; reflexivity.
Qed.

(** X2.  Phase randomization of a target that is not evenly spaced is
    refused before anything is sampled: the call raises [ValueError] and
    the whole state -- generator, warnings, builder -- is untouched. *)
Theorem from_series_phaseran_uneven (target_series : Series)
    (st : state G) :
  method (self st) = Some "phaseran" ->
  is_evenly_spaced target_series = false ->
  from_series (PySeries target_series) st
  = (Raise (ValueError
       "Phase-randomization presently requires evenly-spaced series."), st).
Proof.
  intros Hm Hev.
  unfold from_series, apply_method_to_target, bind, get_self, ret, raise.
  simpl. rewrite Hm, Hev. simpl.
  destruct (seed (self st)); reflexivity.
Qed.

(** X3.  A builder whose method is none of the three supported names --
    the constructor lets one through when it is given a label -- fails
    on any target with [UnboundLocalError], not with a configuration
    error; the state is untouched. *)
Theorem from_series_unsupported_method (target_series : Series)
    (st : state G) :
  str_in_method (method (self st)) supported_surrogates = false ->
  from_series (PySeries target_series) st
  = (Raise (UnboundLocalError
       "cannot access local variable 'y_surr' where it is not associated with a value"),
     st).
Proof.
  intros H. rewrite <- SurrogateInitFacts.method_is_supported in H.
  apply orb_false_elim in H as [H H3]. apply orb_false_elim in H as [H1 H2].
  unfold from_series, apply_method_to_target, collect_surrogates,
    read_local, bind, get_self, ret, raise.
  simpl. rewrite H1, H2, H3.
  destruct (seed (self st)); destruct (1 <? number (self st))%nat;
    reflexivity.
Qed.

(** X4.  With method ['uar1'], once the fit has returned [(tau, sigma_2)]
    the builder's [param] is [[tau, sigma_2]] when the call ends --
    also when the simulation that follows raises, in which case
    [series_list] is still the old one. *)
Theorem from_series_uar1_stores_fit (target_series : Series)
    (st : state G) (tau sigma_2 : Q) (g1 : G) :
  method (self st) = Some "uar1" ->
  uar1_fit (value target_series) (time target_series) (rng st)
  = (Ok (tau, sigma_2), g1) ->
  param (self (snd (from_series (PySeries target_series) st)))
  = Some [tau; sigma_2].
Proof.
  intros Hm Hfit. destruct st as [g w o]. simpl in Hm, Hfit.
  unfold from_series, apply_method_to_target, collect_surrogates,
    read_local, assign_param, assign_series_list, bind, get_self, call,
    lift, ret, raise.
  simpl. rewrite Hm. simpl.
  destruct (seed o); simpl; rewrite Hfit; simpl;
    (destruct (uar1_sim _ _ _ g1) as [[y|e] g2]; simpl; [|reflexivity]);
    (destruct (1 <? number o)%nat; simpl; [|reflexivity]);
    destruct (iter (ndT y)); reflexivity.
Qed.

(** X5.  Every surrogate that a [from_series] call produces is the
    target with another value array and label: it has the target's
    time axis and provenance flag, and it has a label. *)
Theorem from_series_keeps_time_axis (target_series : Series)
    (st st' : state G) :
  from_series (PySeries target_series) st = (Ok tt, st') ->
  Forall (fun s => time s = time target_series
                   /\ auto_time_params s = auto_time_params target_series
                   /\ label s <> None)
         (series_list (self st')).
Proof.
  intros Hrun. unfold from_series in Hrun.
  apply bind_inv_Ok in Hrun as (ts & st0 & Hts & Hrun).
  inversion Hts; subst ts st0; clear Hts.
  apply bind_inv_Ok in Hrun as (o & st0 & Ho & Hrun).
  inversion Ho; subst o st0; clear Ho.
  apply bind_inv_Ok in Hrun as ([] & st0 & _ & Hrun).
  apply bind_inv_Ok in Hrun as (y_surr & st1 & _ & Hrun).
  apply bind_inv_Ok in Hrun as (s_list & st2 & Hs & Hassign).
  assert (Hlist : series_list (self st') = s_list)
    by (inversion Hassign; reflexivity).
  rewrite Hlist. clear Hassign Hlist.
  unfold collect_surrogates, read_local, bind, lift, ret in Hs.
  destruct y_surr as [y|].
  2:{ destruct (1 <? number (self st))%nat; discriminate. }
  destruct (1 <? number (self st))%nat.
  - destruct (iter (ndT y)) as [cols|e]; [|discriminate].
    inversion Hs; subst. apply Forall_forall. intros s Hin.
    apply in_map_iff in Hin as (iy & <- & _).
    repeat split; discriminate.
  - inversion Hs; subst. constructor; [|constructor].
    repeat split; discriminate.
Qed.

(** X6.  When [number] is not greater than 1 -- 0 included -- a
    successful [from_series] stores exactly one surrogate; its value
    is the whole array the sampler returned and its label carries no
    index. *)
Theorem from_series_number_at_most_one (target_series : Series)
    (st st' : state G) :
  (number (self st) <= 1)%nat ->
  from_series (PySeries target_series) st = (Ok tt, st') ->
  exists y st1,
    apply_method_to_target (self st) target_series st = (Ok (Some y), st1)
    /\ series_list (self st')
       = [ {| time := time target_series; value := y;
              label := Some (str_or_empty (label target_series) ++ " surr");
              auto_time_params := auto_time_params target_series |} ].
Proof.
  intros HN Hrun. unfold from_series in Hrun.
  apply bind_inv_Ok in Hrun as (ts & st0 & Hts & Hrun).
  inversion Hts; subst ts st0; clear Hts.
  apply bind_inv_Ok in Hrun as (o & st0 & Ho & Hrun).
  inversion Ho; subst o st0; clear Ho.
  apply bind_inv_Ok in Hrun as ([] & st0 & Hseed & Hrun).
  assert (st0 = st)
    by (destruct (seed (self st)); inversion Hseed; reflexivity).
  subst st0; clear Hseed.
  apply bind_inv_Ok in Hrun as (y_surr & st1 & Hy & Hrun).
  apply bind_inv_Ok in Hrun as (s_list & st2 & Hs & Hassign).
  assert (Hlist : series_list (self st') = s_list)
    by (inversion Hassign; reflexivity).
  rewrite Hlist. clear Hassign Hlist.
  unfold collect_surrogates in Hs.
  assert (Hlt : (1 <? number (self st))%nat = false)
    by (apply Nat.ltb_ge; exact HN).
  rewrite Hlt in Hs.
  destruct y_surr as [y|]; [|discriminate].
  inversion Hs; subst. exists y, st2. split; [exact Hy|reflexivity].
Qed.

End WithLib.

Import Lcg LcgFacts Builders.

Lemma from_series_phaseran_uneven_witness :
  let st := start (builder "phaseran" 2 (Some 42%nat)) in
  method (self st) = Some "phaseran"
  /\ is_evenly_spaced uneven = false
  /\ from_series (PySeries uneven) st
     = (Raise (ValueError
          "Phase-randomization presently requires evenly-spaced series."),
        st).
Proof.
  split; [reflexivity|]. split; [vm_compute; reflexivity|].
  apply (from_series_phaseran_uneven uneven
           (start (builder "phaseran" 2 (Some 42%nat))));
    [reflexivity|vm_compute; reflexivity].
Defined.

Lemma from_series_unsupported_method_witness :
  let st := start (builder "bootstrap" 2 None) in
  str_in_method (method (self st)) supported_surrogates = false
  /\ from_series (PySeries soi) st
     = (Raise (UnboundLocalError
          "cannot access local variable 'y_surr' where it is not associated with a value"),
        st).
Proof.
  split; [vm_compute; reflexivity|].
  apply (from_series_unsupported_method soi
           (start (builder "bootstrap" 2 None))).
  vm_compute. reflexivity.
Defined.

Lemma from_series_uar1_stores_fit_witness :
  let st := start (builder "uar1" 2 None) in
  method (self st) = Some "uar1"
  /\ uar1_fit (value soi) (time soi) (rng st) = (Ok (5, 1 # 2), 2024%Z)
  /\ param (self st) = None
  /\ param (self (snd (from_series (PySeries soi) st))) = Some [5; 1 # 2].
Proof.
  split; [reflexivity|]. split; [reflexivity|]. split; [reflexivity|].
  apply (from_series_uar1_stores_fit soi (start (builder "uar1" 2 None))
           5 (1 # 2) 2024%Z); reflexivity.
Defined.

Lemma from_series_keeps_time_axis_witness :
  exists st',
    from_series (PySeries soi) (start (builder "ar1sim" 3 None))
    = (Ok tt, st')
    /\ List.length (series_list (self st')) = 3%nat
    /\ Forall (fun s => time s = time soi
                        /\ auto_time_params s = auto_time_params soi
                        /\ label s <> None)
              (series_list (self st')).
Proof.
  set (run := from_series (PySeries soi) (start (builder "ar1sim" 3 None))).
  assert (Hrun : run = (Ok tt, snd run)) by (vm_compute; reflexivity).
  exists (snd run). split; [exact Hrun|].
  split; [vm_compute; reflexivity|].
  exact (from_series_keeps_time_axis soi
           (start (builder "ar1sim" 3 None)) (snd run) Hrun).
Defined.

Lemma from_series_number_at_most_one_witness :
  exists st',
    (number (self (start (builder "ar1sim" 0 None))) <= 1)%nat
    /\ from_series (PySeries soi) (start (builder "ar1sim" 0 None))
       = (Ok tt, st')
    /\ exists y st1,
         apply_method_to_target (self (start (builder "ar1sim" 0 None))) soi
           (start (builder "ar1sim" 0 None)) = (Ok (Some y), st1)
         /\ series_list (self st')
            = [ {| time := time soi; value := y;
                   label := Some (str_or_empty (label soi) ++ " surr");
                   auto_time_params := auto_time_params soi |} ].
Proof.
  set (run := from_series (PySeries soi) (start (builder "ar1sim" 0 None))).
  assert (Hrun : run = (Ok tt, snd run)) by reflexivity.
  assert (Hn : (number (self (start (builder "ar1sim" 0 None))) <= 1)%nat)
    by (vm_compute; lia).
  exists (snd run). split; [exact Hn|]. split; [exact Hrun|].
  exact (from_series_number_at_most_one soi
           (start (builder "ar1sim" 0 None)) (snd run) Hn Hrun).
Defined.

End FromSeriesEdges.

(* ================================================================== *)
(** * Edge cases and invariants of [from_param] *)

Module FromParamEdges.
Import Surrogate MonadFacts NpFacts FromParamSteps FromParamFacts Builders.

Section WithLib.
Context {G : Type} {lib : TsLib G}.

(** The sampling step depends on the builder through its method only,
    and adds at most warnings to the state besides moving the
    generator. *)
Lemma apply_method_frame (m : option string) (param : list Q)
    (times : matrix) (g : G) :
  exists r g' wx, forall w o,
    method o = m ->
    apply_method param times (mkState g w o)
    = (r, mkState g' (w ++ wx)%list o).
Proof.
  unfold apply_method, bind, get_self, warn, call, ret, raise. simpl.
  destruct (str_in_method m ["uar1"; "ar1sim"]) eqn:Har.
  - destruct (List.length param <? 2)%nat eqn:Hn.
    + destruct (uar1_sim (Arr2 times) 5 (1 # 2) g) as [r g'] eqn:E.
      exists r, g', [ar_warning (List.length param)]. intros w o <-.
      rewrite Har. simpl. rewrite E. reflexivity.
    + destruct (uar1_sim (Arr2 times) (nth 0 param 0) (nth 1 param 0) g)
        as [r g'] eqn:E.
      exists r, g', []. intros w o <-.
      rewrite Har. simpl. rewrite E, app_nil_r. reflexivity.
  - destruct (method_is m "phaseran") eqn:Hph.
    + eexists _, g, []. intros w o <-.
      rewrite Har, Hph, app_nil_r. reflexivity.
    + eexists _, g, []. intros w o <-.
      rewrite Har, Hph, app_nil_r. reflexivity.
Qed.

(** The last step depends on the builder through its label only; it
    replaces [series_list] when it returns and changes nothing when it
    raises. *)
Lemma create_series_list_outcome (lo : option string) (times : matrix)
    (y_surr : ndarray) :
  exists r new, forall (g : G) w o,
    sg_label o = lo ->
    create_series_list times y_surr (mkState g w o)
    = (r, mkState g w (if is_ok r then with_series_list new o else o)).
Proof.
  destruct lo as [lbl|].
  - destruct (iter (ndT y_surr)) as [cols|e] eqn:Hi.
    + exists (Ok tt),
        (map (labelled lbl) (enumerate (zip (rows (transpose times)) cols))).
      intros g w o Hl.
      rewrite (create_series_list_labelled _ _ _ _ _ lbl Hl), Hi.
      reflexivity.
    + exists (Raise e), []. intros g w o Hl.
      rewrite (create_series_list_labelled _ _ _ _ _ lbl Hl), Hi.
      reflexivity.
  - unfold create_series_list, bind, lift.
    destruct (iter (ndT y_surr)) as [cols|e].
    + destruct (enumerate (zip (rows (transpose times)) cols)) as [|x l] eqn:El.
      * exists (Ok tt), []. intros g w o Hl.
        rewrite for_each_new_surrogate_unlabelled by exact Hl.
        reflexivity.
      * eexists (Raise _), []. intros g w o Hl.
        rewrite for_each_new_surrogate_unlabelled by exact Hl.
        reflexivity.
    + exists (Raise e), []. intros g w o Hl. reflexivity.
Qed.

(** What a [from_param] call does, seen from outside: its outcome, the
    generator it leaves, the warnings it adds and the list it stores
    depend on the generator it finds and on the builder's method,
    number, seed and label -- not on the warnings already emitted, nor
    on the old [series_list], nor on [self.param]. *)
Lemma from_param_outcome (m : option string) (n : nat) (sd : option nat)
    (lo : option string) (param : option (list Q)) (L : nat)
    (time_pattern : string) (settings : option Settings) (g : G) :
  exists r g' wx new, forall w sl pr,
    from_param param L time_pattern settings
      (mkState g w (mkSurrogateSeries sl m pr n sd lo))
    = (r, mkState g' (w ++ wx)%list
            (mkSurrogateSeries (if is_ok r then new else sl) m pr n sd lo)).
Proof.
  unfold from_param.
  destruct (seed_and_time_axes_frame n sd L time_pattern
              (coerce_settings settings) g) as (r1 & g1 & H1).
  destruct r1 as [times|e].
  2:{ exists (Raise e), g1, [], []. intros w sl pr.
      rewrite (bind_Raise _ _ _ _ _ (H1 w (mkSurrogateSeries sl m pr n sd lo) eq_refl eq_refl)), app_nil_r.
      reflexivity. }
  destruct (apply_method_frame m (coerce_param param) times g1)
    as (r2 & g2 & wx & H2).
  destruct r2 as [y|e].
  2:{ exists (Raise e), g2, wx, []. intros w sl pr.
      rewrite (bind_Ok _ _ _ _ _ (H1 w (mkSurrogateSeries sl m pr n sd lo) eq_refl eq_refl)).
      rewrite (bind_Raise _ _ _ _ _ (H2 w (mkSurrogateSeries sl m pr n sd lo) eq_refl)). reflexivity. }
  destruct (create_series_list_outcome lo times y) as (r3 & new & H3).
  exists r3, g2, wx, new. intros w sl pr.
  rewrite (bind_Ok _ _ _ _ _ (H1 w (mkSurrogateSeries sl m pr n sd lo) eq_refl eq_refl)).
  rewrite (bind_Ok _ _ _ _ _ (H2 w (mkSurrogateSeries sl m pr n sd lo) eq_refl)).
  rewrite (H3 g2 (w ++ wx)%list (mkSurrogateSeries sl m pr n sd lo) eq_refl).
  destruct (is_ok r3); reflexivity.
Qed.

(** X7.  A [from_param] call changes, of the builder, nothing but
    [series_list], and that only when it returns; it only ever adds to
    the warnings. *)
Theorem from_param_changes_only_series_list (param : option (list Q))
    (L : nat) (time_pattern : string) (settings : option Settings)
    (st : state G) :
  let run := from_param param L time_pattern settings st in
  method (self (snd run)) = method (self st)
  /\ Surrogate.param (self (snd run)) = Surrogate.param (self st)
  /\ number (self (snd run)) = number (self st)
  /\ seed (self (snd run)) = seed (self st)
  /\ sg_label (self (snd run)) = sg_label (self st)
  /\ (exists wx, warnlog (snd run) = (warnlog st ++ wx)%list)
  /\ (is_ok (fst run) = false ->
        series_list (self (snd run)) = series_list (self st)).
Proof.
  cbv zeta. destruct st as [g w [sl m pr n sd lo]].
  destruct (from_param_outcome m n sd lo param L time_pattern settings g)
    as (r & g' & wx & new & H).
  rewrite H. simpl. repeat split; try reflexivity.
  - exists wx. reflexivity.
  - intros Hr. rewrite Hr. reflexivity.
Qed.

(** X8.  A seeded builder repeats itself: of two [from_param] calls in
    a row with the same arguments, the second has the outcome of the
    first, leaves the generator where the first left it, and stores
    the same series. *)
Theorem from_param_seeded_twice_agrees (param : option (list Q))
    (L : nat) (time_pattern : string) (settings : option Settings)
    (st : state G) (s : nat) :
  seed (self st) = Some s ->
  let first := from_param param L time_pattern settings st in
  let second := from_param param L time_pattern settings (snd first) in
  fst second = fst first
  /\ rng (snd second) = rng (snd first)
  /\ series_list (self (snd second)) = series_list (self (snd first)).
Proof.
  intros Hs. cbv zeta. destruct st as [g w [sl m pr n sd lo]].
  simpl in Hs. subst sd.
  destruct (from_param_outcome m n (Some s) lo param L time_pattern
              settings g) as (r & g' & wx & new & H).
  rewrite H. simpl.
  rewrite (from_param_restarts_generator param L time_pattern settings
             (mkSurrogateSeries (if is_ok r then new else sl) m pr n
                (Some s) lo)
             s g' g (w ++ wx)%list eq_refl).
  rewrite H. simpl. repeat split; try reflexivity.
  destruct (is_ok r); reflexivity.
Qed.

(** X9.  The time pattern is checked after the seeding: a pattern that
    is none of ['even'], ['random'], ['specified'], and the
    ['specified'] pattern without a ['time'] entry, raise [ValueError]
    whatever the method is, and leave the builder and the warnings as
    they were -- but the process-wide generator has already been
    restarted from the seed. *)
Theorem from_param_time_pattern_errors (param : option (list Q))
    (L : nat) (time_pattern : string) (settings : option Settings)
    (st : state G) :
  (String.eqb time_pattern "even" = false ->
   String.eqb time_pattern "random" = false ->
   String.eqb time_pattern "specified" = false ->
   from_param param L time_pattern settings st
   = (Raise (ValueError ("Unknown time pattern: " ++ time_pattern)),
      reseeded st))
  /\
  (settings_time (coerce_settings settings) = None ->
   from_param param L "specified" settings st
   = (Raise (ValueError "'time' not found in settings"), reseeded st)).
Proof.
  split.
  - intros H1 H2 H3.
    unfold from_param, seed_and_time_axes, time_axes, reseeded, bind,
      get_self, seed_global, ret, raise. simpl.
    rewrite H1, H2, H3.
    destruct st as [g w o]; simpl; destruct (seed o); reflexivity.
  - intros Ht.
    unfold from_param, seed_and_time_axes, time_axes, reseeded, bind,
      get_self, seed_global, ret, raise. simpl.
    rewrite Ht.
    destruct st as [g w o]; simpl; destruct (seed o); reflexivity.
Qed.

Lemma seed_and_time_axes_specified (L : nat) (settings : Settings)
    (t : list Q) (st : state G) :
  settings_time settings = Some t ->
  seed_and_time_axes L "specified" settings st
  = (Ok (transpose (tile t (number (self st)))), reseeded st).
Proof.
  intros Ht.
  unfold seed_and_time_axes, time_axes, reseeded, bind, get_self,
    seed_global, ret. simpl. rewrite Ht.
  destruct st as [g w o]; simpl; destruct (seed o); reflexivity.
Qed.

(** X10.  With the ['specified'] pattern the [length] argument plays no
    part: every series that the call produces has the time vector of
    [settings['time']], whatever [length] is. *)
Theorem from_param_specified_time_axis (param : option (list Q))
    (L : nat) (settings : Settings) (t : list Q) (st st' : state G) :
  settings_time settings = Some t ->
  from_param param L "specified" (Some settings) st = (Ok tt, st') ->
  Forall (fun s => time s = t) (series_list (self st')).
Proof.
  intros Ht Hrun. unfold from_param in Hrun.
  apply bind_inv_Ok in Hrun as (times & st1 & Htimes & Hrun).
  simpl coerce_settings in Htimes.
  rewrite (seed_and_time_axes_specified L settings t st Ht) in Htimes.
  inversion Htimes; subst times st1; clear Htimes.
  apply bind_inv_Ok in Hrun as (y_surr & st2 & _ & Hrun).
  unfold create_series_list in Hrun.
  apply bind_inv_Ok in Hrun as (cols & st3 & _ & Hrun).
  apply bind_inv_Ok in Hrun as (s_list & st4 & Hloop & Hassign).
  assert (Hlist : series_list (self st') = s_list)
    by (inversion Hassign; reflexivity).
  rewrite Hlist.
  apply for_each_new_surrogate_columns in Hloop as [Htime _].
  rewrite rows_of_tiled in Htime.
  apply Forall_forall. intros s Hs.
  apply (in_map time) in Hs. rewrite Htime in Hs.
  apply in_map_iff in Hs as ([i [t' y]] & Heq & Hin). simpl in Heq.
  rewrite <- Heq.
  unfold enumerate in Hin. apply in_combine_r in Hin.
  unfold zip in Hin. apply in_combine_l in Hin.
  apply repeat_spec in Hin. exact Hin.
Qed.

Lemma map_enumerate {A B} (f : A -> B) (l : list A) :
  map (fun ix => f (snd ix)) (enumerate l) = map f l.
Proof.
  unfold enumerate. generalize 0%nat.
  induction l as [|x l IH]; intros s; simpl; [reflexivity|].
  rewrite IH. reflexivity.
Qed.

Lemma map_fst_zip {A B} (l1 : list A) (l2 : list B) :
  List.length l1 = List.length l2 -> map fst (zip l1 l2) = l1.
Proof.
  revert l2. induction l1 as [|x l1 IH]; intros [|y l2] H; simpl in *;
    try discriminate; [reflexivity|].
  f_equal. apply IH. lia.
Qed.

Lemma map_snd_zip {A B} (l1 : list A) (l2 : list B) :
  List.length l1 = List.length l2 -> map snd (zip l1 l2) = l2.
Proof.
  revert l2. induction l1 as [|x l1 IH]; intros [|y l2] H; simpl in *;
    try discriminate; [reflexivity|].
  f_equal. apply IH. lia.
Qed.

Lemma labels_of_labelled (lbl : string)
    (l : list (list Q * ndarray)) :
  map label (map (labelled lbl) (enumerate l))
  = map (fun k => Some (lbl ++ " surr #" ++ str_nat k))
        (seq 1 (List.length l)).
Proof.
  rewrite map_map.
  rewrite <- (FromSeriesFacts.map_seq_succ
                (fun k => Some (lbl ++ " surr #" ++ str_nat k))).
  rewrite <- (FromSeriesFacts.map_fst_enumerate
                (fun i => Some (lbl ++ " surr #" ++ str_nat (i + 1)))).
  apply map_ext. intros ity. reflexivity.
Qed.

Lemma from_param_labelled_list (param : option (list Q)) (L : nat)
    (time_pattern : string) (settings : option Settings)
    (st st' : state G) (lbl : string) :
  sg_label (self st) = Some lbl ->
  from_param param L time_pattern settings st = (Ok tt, st') ->
  exists l : list (list Q * ndarray),
    series_list (self st') = map (labelled lbl) (enumerate l).
Proof.
  intros Hl Hrun. unfold from_param in Hrun.
  apply bind_inv_Ok in Hrun as (times & st1 & Htimes & Hrun).
  apply bind_inv_Ok in Hrun as (y & st2 & Hy & Hrun).
  assert (Hl2 : sg_label (self st2) = Some lbl).
  { destruct st as [g w [sl m pr n sd lo]]. simpl in Hl. subst lo.
    destruct (seed_and_time_axes_frame n sd L time_pattern
                (coerce_settings settings) g) as (r1 & g1 & H1).
    rewrite (H1 w (mkSurrogateSeries sl m pr n sd (Some lbl))
               eq_refl eq_refl) in Htimes.
    inversion Htimes; subst r1 st1; clear Htimes.
    destruct (apply_method_frame m (coerce_param param) times g1)
      as (r2 & g2 & wx & H2).
    rewrite (H2 w (mkSurrogateSeries sl m pr n sd (Some lbl)) eq_refl) in Hy.
    inversion Hy; subst. reflexivity. }
  destruct st2 as [g2 w2 o2]. simpl in Hl2.
  rewrite (create_series_list_labelled _ _ _ _ _ lbl Hl2) in Hrun.
  destruct (iter (ndT y)) as [cols|e]; [|discriminate].
  inversion Hrun; subst. simpl. eexists. reflexivity.
Qed.

(** X11.  The series that [from_param] produces are numbered from 1 in
    the order of the columns, also when there is only one: their
    labels are the builder's label followed by [" surr #1"],
    [" surr #2"], ...; each is flagged as having an auto-derived time
    axis. *)
Theorem from_param_labels_and_flag (param : option (list Q)) (L : nat)
    (time_pattern : string) (settings : option Settings)
    (st st' : state G) (lbl : string) :
  sg_label (self st) = Some lbl ->
  from_param param L time_pattern settings st = (Ok tt, st') ->
  map label (series_list (self st'))
  = map (fun k => Some (lbl ++ " surr #" ++ str_nat k))
        (seq 1 (List.length (series_list (self st'))))
  /\ Forall (fun s => auto_time_params s = Some true)
            (series_list (self st')).
Proof.
  intros Hl Hrun.
  destruct (from_param_labelled_list _ _ _ _ _ _ _ Hl Hrun) as (l & ->).
  split.
  - rewrite labels_of_labelled, length_map. unfold enumerate.
    rewrite length_combine, length_seq, Nat.min_id. reflexivity.
  - apply Forall_forall. intros s Hin.
    apply in_map_iff in Hin as (ity & <- & _). reflexivity.
Qed.

(** X12.  A builder without a [label] attribute -- what the constructor
    returns when it is given a label -- cannot produce a series: where
    the same call on the builder with a label returns at least one
    series, the call raises [AttributeError] and [series_list] stays
    as it was. *)
Theorem from_param_needs_label_attribute (param : option (list Q))
    (L : nat) (time_pattern : string) (settings : option Settings)
    (g : G) (w : list string) (o : SurrogateSeries) (lbl : string)
    (st' : state G) :
  from_param param L time_pattern settings
    (mkState g w (with_label (Some lbl) o)) = (Ok tt, st') ->
  series_list (self st') <> [] ->
  exists st'',
    from_param param L time_pattern settings
      (mkState g w (with_label None o))
    = (Raise (AttributeError
         "'SurrogateSeries' object has no attribute 'label'"), st'')
    /\ series_list (self st'') = series_list o.
Proof.
  destruct o as [sl m pr n sd lo]. unfold with_label. simpl.
  unfold from_param. intros Hrun Hne.
  destruct (seed_and_time_axes_frame n sd L time_pattern
              (coerce_settings settings) g) as (r1 & g1 & H1).
  apply bind_inv_Ok in Hrun as (times & st1 & Htimes & Hrun).
  rewrite (H1 w (mkSurrogateSeries sl m pr n sd (Some lbl))
             eq_refl eq_refl) in Htimes.
  inversion Htimes; subst r1 st1; clear Htimes.
  rewrite (bind_Ok _ _ _ _ _
             (H1 w (mkSurrogateSeries sl m pr n sd None) eq_refl eq_refl)).
  destruct (apply_method_frame m (coerce_param param) times g1)
    as (r2 & g2 & wx & H2).
  apply bind_inv_Ok in Hrun as (y & st2 & Hy & Hrun).
  rewrite (H2 w (mkSurrogateSeries sl m pr n sd (Some lbl)) eq_refl) in Hy.
  inversion Hy; subst r2 st2; clear Hy.
  rewrite (bind_Ok _ _ _ _ _
             (H2 w (mkSurrogateSeries sl m pr n sd None) eq_refl)).
  rewrite (create_series_list_labelled _ _ _ _
             (mkSurrogateSeries sl m pr n sd (Some lbl)) lbl eq_refl) in Hrun.
  unfold create_series_list, bind, lift.
  destruct (iter (ndT y)) as [cols|e]; [|discriminate].
  inversion Hrun; subst st'; clear Hrun. simpl in Hne.
  rewrite for_each_new_surrogate_unlabelled by reflexivity.
  destruct (enumerate (zip (rows (transpose times)) cols)) as [|x l].
  - exfalso. apply Hne. reflexivity.
  - eexists. split; reflexivity.
Qed.

(** X13.  A builder whose method is neither an AR name nor ['phaseran']
    samples nothing: once the time axes are there, the call on a
    labelled builder returns, the generator is where the time axes left
    it, and the values of every series it stores are the uninitialised
    cells of [np.empty_like(times)]. *)
Theorem from_param_other_method_stores_uninitialised
    (param : option (list Q)) (L : nat) (time_pattern : string)
    (settings : option Settings) (st st1 : state G) (times : matrix)
    (lbl : string) :
  str_in_method (method (self st)) ["uar1"; "ar1sim"] = false ->
  method_is (method (self st)) "phaseran" = false ->
  sg_label (self st) = Some lbl ->
  seed_and_time_axes L time_pattern (coerce_settings settings) st
  = (Ok times, st1) ->
  exists st',
    from_param param L time_pattern settings st = (Ok tt, st')
    /\ rng st' = rng st1
    /\ map time (series_list (self st')) = rows (transpose times)
    /\ map value (series_list (self st'))
       = map (fun j => Arr1 (map (fun i => uninitialised i j)
                                 (seq 0 (nrows times))))
             (seq 0 (ncols times)).
Proof.
  intros Har Hph Hl Htimes.
  destruct st as [g w [sl m pr n sd lo]]. simpl in Har, Hph, Hl. subst lo.
  destruct (seed_and_time_axes_frame n sd L time_pattern
              (coerce_settings settings) g) as (r1 & g1 & H1).
  rewrite (H1 w (mkSurrogateSeries sl m pr n sd (Some lbl))
             eq_refl eq_refl) in Htimes.
  inversion Htimes; subst r1 st1; clear Htimes.
  unfold from_param.
  rewrite (bind_Ok _ _ _ _ _
             (H1 w (mkSurrogateSeries sl m pr n sd (Some lbl))
                eq_refl eq_refl)).
  unfold bind at 1. unfold apply_method, bind, get_self, ret. simpl.
  rewrite Har, Hph.
  rewrite (create_series_list_labelled _ _ _ _
             (mkSurrogateSeries sl m pr n sd (Some lbl)) lbl eq_refl).
  simpl iter.
  eexists. split; [reflexivity|]. simpl.
  split; [reflexivity|].
  assert (Hlen : List.length (rows (transpose times))
                 = List.length (map Arr1 (rows (transpose (empty_like times))))).
  { rewrite length_map, !length_rows. reflexivity. }
  split.
  - rewrite map_map.
    rewrite (map_enumerate (@fst (list Q) ndarray)).
    apply map_fst_zip. exact Hlen.
  - rewrite map_map.
    rewrite (map_enumerate (@snd (list Q) ndarray)).
    rewrite (map_snd_zip _ _ Hlen).
    unfold rows, row. simpl. rewrite map_map. reflexivity.
Qed.

(** X14.  An AR builder whose call returns holds exactly [number]
    series, and they are labelled with the builder's label and their
    rank, from 1 to [number]. *)
Theorem from_param_ar_count_and_labels (param : option (list Q)) (L : nat)
    (time_pattern : string) (settings : option Settings)
    (st st' : state G) (lbl : string) :
  uar1_sim_shaped lib ->
  str_in_method (method (self st)) ["uar1"; "ar1sim"] = true ->
  sg_label (self st) = Some lbl ->
  from_param param L time_pattern settings st = (Ok tt, st') ->
  List.length (series_list (self st')) = number (self st)
  /\ map label (series_list (self st'))
     = map (fun k => Some (lbl ++ " surr #" ++ str_nat k))
           (seq 1 (number (self st))).
Proof.
  intros Hshape Hm Hl Hrun.
  pose proof (FromParamCount.from_param_ar_produces_number
                param L time_pattern settings st st' Hshape Hm Hrun) as Hn.
  split; [exact Hn|]. rewrite <- Hn.
  destruct (from_param_labelled_list _ _ _ _ _ _ _ Hl Hrun) as (l & ->).
  rewrite labels_of_labelled, length_map. unfold enumerate.
  rewrite length_combine, length_seq, Nat.min_id. reflexivity.
Qed.

End WithLib.

Import Lcg LcgFacts.

Lemma from_param_seeded_twice_agrees_witness :
  let st := start (builder "ar1sim" 2 (Some 42%nat)) in
  let first := from_param None 5 "even" None st in
  let second := from_param None 5 "even" None (snd first) in
  seed (self st) = Some 42%nat
  /\ fst first = Ok tt
  /\ List.length (series_list (self (snd first))) = 2%nat
  /\ fst second = fst first
  /\ rng (snd second) = rng (snd first)
  /\ series_list (self (snd second)) = series_list (self (snd first)).
Proof.
  split; [reflexivity|]. split; [vm_compute; reflexivity|].
  split; [vm_compute; reflexivity|].
  exact (from_param_seeded_twice_agrees None 5 "even" None
           (start (builder "ar1sim" 2 (Some 42%nat))) 42 eq_refl).
Defined.

Lemma from_param_time_pattern_errors_witness :
  let st := start (builder "ar1sim" 2 (Some 42%nat)) in
  from_param None 5 "uneven" None st
  = (Raise (ValueError "Unknown time pattern: uneven"),
     mkState 42%Z [] (builder "ar1sim" 2 (Some 42%nat)))
  /\ settings_time (coerce_settings None) = None
  /\ from_param None 5 "specified" None st
     = (Raise (ValueError "'time' not found in settings"),
        mkState 42%Z [] (builder "ar1sim" 2 (Some 42%nat))).
Proof.
  split; [|split; [reflexivity|]].
  - exact (proj1 (from_param_time_pattern_errors None 5 "uneven" None
                    (start (builder "ar1sim" 2 (Some 42%nat))))
             eq_refl eq_refl eq_refl).
  - exact (proj2 (from_param_time_pattern_errors None 5 "uneven" None
                    (start (builder "ar1sim" 2 (Some 42%nat))))
             eq_refl).
Defined.

Lemma from_param_specified_time_axis_witness :
  let settings :=
    {| delta_t := None; delta_t_dist := None; dist_param := None;
       settings_time := Some [1; 3; 4] |} in
  exists st',
    settings_time settings = Some [1; 3; 4]
    /\ from_param None 99 "specified" (Some settings)
         (start (builder "ar1sim" 2 None)) = (Ok tt, st')
    /\ List.length (series_list (self st')) = 2%nat
    /\ Forall (fun s => time s = [1; 3; 4]) (series_list (self st')).
Proof.
  set (settings := {| delta_t := None; delta_t_dist := None;
                      dist_param := None; settings_time := Some [1; 3; 4] |}).
  set (run := from_param None 99 "specified" (Some settings)
                (start (builder "ar1sim" 2 None))).
  assert (Hrun : run = (Ok tt, snd run)) by (vm_compute; reflexivity).
  exists (snd run). split; [reflexivity|]. split; [exact Hrun|].
  split; [vm_compute; reflexivity|].
  exact (from_param_specified_time_axis None 99 settings [1; 3; 4]
           (start (builder "ar1sim" 2 None)) (snd run) eq_refl Hrun).
Defined.

Lemma from_param_labels_and_flag_witness :
  exists st',
    sg_label (self (start (builder "ar1sim" 3 None)))
    = Some "AR(1) surrogates (MoM)"
    /\ from_param None 5 "even" None (start (builder "ar1sim" 3 None))
       = (Ok tt, st')
    /\ map label (series_list (self st'))
       = [Some "AR(1) surrogates (MoM) surr #1";
          Some "AR(1) surrogates (MoM) surr #2";
          Some "AR(1) surrogates (MoM) surr #3"]
    /\ Forall (fun s => auto_time_params s = Some true)
              (series_list (self st')).
Proof.
  set (run := from_param None 5 "even" None
                (start (builder "ar1sim" 3 None))).
  assert (Hrun : run = (Ok tt, snd run)) by (vm_compute; reflexivity).
  exists (snd run). split; [reflexivity|]. split; [exact Hrun|].
  split; [vm_compute; reflexivity|].
  exact (proj2 (from_param_labels_and_flag None 5 "even" None
                  (start (builder "ar1sim" 3 None)) (snd run)
                  "AR(1) surrogates (MoM)" eq_refl Hrun)).
Defined.

Lemma from_param_needs_label_attribute_witness :
  let o := builder "ar1sim" 2 None in
  exists st' st'',
    from_param None 5 "even" None
      (mkState 2024%Z [] (with_label (Some "AR(1)") o)) = (Ok tt, st')
    /\ series_list (self st') <> []
    /\ from_param None 5 "even" None (mkState 2024%Z [] (with_label None o))
       = (Raise (AttributeError
            "'SurrogateSeries' object has no attribute 'label'"), st'')
    /\ series_list (self st'') = series_list o.
Proof.
  set (o := builder "ar1sim" 2 None).
  set (run := from_param None 5 "even" None
                (mkState 2024%Z [] (with_label (Some "AR(1)") o))).
  assert (Hrun : run = (Ok tt, snd run)) by (vm_compute; reflexivity).
  assert (Hne : series_list (self (snd run)) <> [])
    by (vm_compute; discriminate).
  destruct (from_param_needs_label_attribute None 5 "even" None 2024%Z []
              o "AR(1)" (snd run) Hrun Hne) as (st'' & Hraise & Hlist).
  exists (snd run), st''.
  split; [exact Hrun|]. split; [exact Hne|].
  split; [exact Hraise|exact Hlist].
Defined.

Lemma from_param_other_method_stores_uninitialised_witness :
  let st := start (builder "bootstrap" 2 (Some 7%nat)) in
  exists times st1 st',
    str_in_method (method (self st)) ["uar1"; "ar1sim"] = false
    /\ method_is (method (self st)) "phaseran" = false
    /\ seed_and_time_axes 3 "even" (coerce_settings None) st
       = (Ok times, st1)
    /\ from_param None 3 "even" None st = (Ok tt, st')
    /\ rng st' = rng st1
    /\ map time (series_list (self st')) = [[1; 2; 3]; [1; 2; 3]]
    /\ map value (series_list (self st'))
       = [Arr1 [0; 0; 0]; Arr1 [0; 0; 0]].
Proof.
  set (st := start (builder "bootstrap" 2 (Some 7%nat))).
  set (axes := seed_and_time_axes 3 "even" (coerce_settings None) st).
  assert (Haxes :
    axes = (Ok (match fst axes with Ok t => t | Raise _ => empty_like (tile [] 0) end),
            snd axes)) by reflexivity.
  destruct (from_param_other_method_stores_uninitialised None 3 "even" None
              st (snd axes) _ "AR(1) surrogates (MoM)"
              eq_refl eq_refl eq_refl Haxes)
    as (st' & Hrun & Hrng & Htime & Hvalue).
  eexists _, (snd axes), st'.
  split; [reflexivity|]. split; [reflexivity|].
  split; [exact Haxes|]. split; [exact Hrun|]. split; [exact Hrng|].
  split; [rewrite Htime; reflexivity|rewrite Hvalue; reflexivity].
Defined.

Lemma from_param_ar_count_and_labels_witness :
  exists st',
    str_in_method (method (self (start (builder "uar1" 2 None))))
      ["uar1"; "ar1sim"] = true
    /\ from_param (Some [5; 1 # 2]) 4 "random" None
         (start (builder "uar1" 2 None)) = (Ok tt, st')
    /\ List.length (series_list (self st')) = 2%nat
    /\ map label (series_list (self st'))
       = [Some "AR(1) surrogates (MoM) surr #1";
          Some "AR(1) surrogates (MoM) surr #2"].
Proof.
  set (run := from_param (Some [5; 1 # 2]) 4 "random" None
                (start (builder "uar1" 2 None))).
  assert (Hrun : run = (Ok tt, snd run)) by (vm_compute; reflexivity).
  exists (snd run). split; [reflexivity|]. split; [exact Hrun|].
  exact (from_param_ar_count_and_labels (Some [5; 1 # 2]) 4 "random" None
           (start (builder "uar1" 2 None)) (snd run)
           "AR(1) surrogates (MoM)" lcg_uar1_sim_shaped eq_refl eq_refl
           Hrun).
Defined.

End FromParamEdges.

(* ================================================================== *)
(** * What [SurrogateSeries.__init__] establishes *)

Module SurrogateInitInvariant.
Import Surrogate.

(** X15.  What every constructed [SurrogateSeries] satisfies: it stores
    the arguments as given; if parameters were given, the method is a
    string, an ['ar1'] method has exactly two of them and ['fBm'] or
    ['CN'] at most one; built without a label it has a supported method
    and a [label] attribute, built with a label it has no [label]
    attribute; the only warning a construction emits is the one of
    ['phaseran'] with parameters. *)
Theorem surrogate_init_postcondition (sl : list Series) (n : nat)
    (m : option string) (lbl : option string) (p : option (list Q))
    (sd : option nat) (log log' : list string) (o : SurrogateSeries) :
  init sl n m lbl p sd log = (Ok o, log') ->
  (series_list o = sl /\ method o = m /\ param o = p
   /\ number o = n /\ seed o = sd)
  /\ (forall pl, p = Some pl ->
        exists s, m = Some s
          /\ (str_contains "ar1" s = true -> List.length pl = 2%nat)
          /\ (str_in s ["fBm"; "CN"] = true -> (List.length pl <= 1)%nat))
  /\ (lbl = None ->
        str_in_method m supported_surrogates = true
        /\ exists l, sg_label o = Some l)
  /\ (lbl <> None -> sg_label o = None)
  /\ (log' = log
      \/ (log' = (log ++ ["Phase-randomization is a non parametric method; the provided parameters will be ignored"])%list
          /\ m = Some "phaseran" /\ p <> None)).
Proof.
  unfold init. intros H.
  apply MonadFacts.bind_inv_Ok in H as ([] & log1 & Hcheck & Hlabel).
  assert (Hstore :
    (series_list o = sl /\ method o = m /\ param o = p
     /\ number o = n /\ seed o = sd)
    /\ log' = log1
    /\ (lbl = None ->
          str_in_method m supported_surrogates = true
          /\ exists l, sg_label o = Some l)
    /\ (lbl <> None -> sg_label o = None)).
  { destruct lbl as [l|].
    - inversion Hlabel; subst. simpl.
      split; [repeat split|]. split; [reflexivity|].
      split; [discriminate|reflexivity].
    - rewrite <- SurrogateInitFacts.method_is_supported.
      assert (Hset : forall l : string,
        (Ok {| series_list := sl; method := m; param := p; number := n;
               seed := sd; sg_label := Some l |}, log1) = (Ok o, log') ->
        (series_list o = sl /\ method o = m /\ param o = p
         /\ number o = n /\ seed o = sd)
        /\ log' = log1 /\ exists l0, sg_label o = Some l0).
      { intros l E. inversion E; subst. simpl.
        split; [repeat split|]. split; [reflexivity|]. eexists; reflexivity. }
      destruct (method_is m "ar1sim").
      { apply Hset in Hlabel as (Hs & Hw & Hl).
        split; [exact Hs|]. split; [exact Hw|].
        split; [intros _; split; [reflexivity|exact Hl]
               |intros Hn; exfalso; apply Hn; reflexivity]. }
      destruct (method_is m "phaseran").
      { apply Hset in Hlabel as (Hs & Hw & Hl).
        split; [exact Hs|]. split; [exact Hw|].
        split; [intros _; split; [reflexivity|exact Hl]
               |intros Hn; exfalso; apply Hn; reflexivity]. }
      destruct (method_is m "uar1").
      { apply Hset in Hlabel as (Hs & Hw & Hl).
        split; [exact Hs|]. split; [exact Hw|].
        split; [intros _; split; [reflexivity|exact Hl]
               |intros Hn; exfalso; apply Hn; reflexivity]. }
      discriminate. }
  destruct Hstore as (Hs & -> & Hl1 & Hl2).
  split; [exact Hs|]. clear Hlabel.
  destruct p as [pl|].
  2:{ inversion Hcheck; subst log1.
      split; [intros pl E; discriminate|].
      split; [exact Hl1|]. split; [exact Hl2|]. left; reflexivity. }
  destruct m as [s|]; [|discriminate].
  destruct (str_contains "ar1" s && negb (List.length pl =? 2)%nat) eqn:Har;
    [discriminate|].
  assert (Hp : forall pl0, Some pl = Some pl0 ->
            str_contains "ar1" s = true -> List.length pl0 = 2%nat).
  { intros pl0 E Hc. inversion E; subst pl0. rewrite Hc in Har. simpl in Har.
    apply negb_false_iff, Nat.eqb_eq in Har. exact Har. }
  destruct (String.eqb_spec s "phaseran") as [->|Hne].
  - inversion Hcheck; subst log1. split.
    + intros pl0 E. exists "phaseran". split; [reflexivity|].
      split; [apply Hp; exact E|]. simpl. discriminate.
    + split; [exact Hl1|]. split; [exact Hl2|].
      right. repeat split. discriminate.
  - destruct (str_in s ["fBm"; "CN"] && (1 <? List.length pl)%nat) eqn:Hfb;
      [discriminate|].
    inversion Hcheck; subst log1. split.
    + intros pl0 E. exists s. split; [reflexivity|].
      split; [apply Hp; exact E|].
      intros Hin. inversion E; subst pl0. rewrite Hin in Hfb. simpl in Hfb.
      apply Nat.ltb_ge in Hfb. exact Hfb.
    + split; [exact Hl1|]. split; [exact Hl2|]. left. reflexivity.
Qed.


Lemma surrogate_init_postcondition_witness :
  exists o log',
    init [] 3 (Some "phaseran") None (Some [1 # 2]) (Some 42%nat) []
    = (Ok o, log')
    /\ number o = 3%nat
    /\ (exists l, sg_label o = Some l)
    /\ log' = ["Phase-randomization is a non parametric method; the provided parameters will be ignored"].
Proof.
  set (run := init [] 3 (Some "phaseran") None (Some [1 # 2])
                (Some 42%nat) []).
  assert (Hrun : run = (Ok (match fst run with
                            | Ok o => o
                            | Raise _ => Lcg.builder "" 0 None
                            end), snd run))
    by (vm_compute; reflexivity).
  destruct (surrogate_init_postcondition [] 3 (Some "phaseran") None (Some [1 # 2])
              (Some 42%nat) [] _ _ Hrun)
    as ((_ & _ & _ & Hn & _) & _ & Hlabel & _ & _).
  eexists _, (snd run). split; [exact Hrun|].
  split; [exact Hn|]. split; [exact (proj2 (Hlabel eq_refl))|].
  vm_compute. reflexivity.
Defined.

End SurrogateInitInvariant.

(* ================================================================== *)
(** * What [EnsembleGeoSeries.__init__] establishes *)

Module EnsembleGeoInvariant.
Import EnsembleGeo.

Section Construction.
Variables (elev : option Q) (archive : option string) (control : bool)
          (sensor observation : option string)
          (dep : option (list Q)) (dep_name dep_unit : option string).

Local Abbreviation construct sl la lo :=
  (init sl la lo elev archive control sensor observation
        dep dep_name dep_unit).

Lemma first_member_ok (sl : list member) :
  all (map isinstance_GeoSeries sl) = true ->
  sl <> [] ->
  exists g, first_member sl = Ok g.
Proof.
  destruct sl as [|[g|ty] rest]; simpl; intros Hall Hne.
  - contradiction.
  - exists g. reflexivity.
  - discriminate.
Qed.

(** X16.  With a coordinate omitted, the constructor returns exactly when
    [series_list] is a non-empty list of [GeoSeries]: a member of
    another type is a [ValueError], an empty list an [IndexError]. *)
Theorem geo_init_with_omitted_coordinate_succeeds_iff
    (sl : list member) (la lo : option Q) :
  la = None \/ lo = None ->
  (is_ok (construct sl la lo) = true
   <-> (sl <> [] /\ all (map isinstance_GeoSeries sl) = true))
  /\ (all (map isinstance_GeoSeries sl) = false ->
      exists msg, construct sl la lo = Raise (ValueError msg))
  /\ (sl = [] ->
      construct sl la lo = Raise (IndexError "list index out of range")).
Proof.
  intros Hom.
  assert (Hcases :
    construct sl la lo
    = if negb (all (map isinstance_GeoSeries sl)) then
        Raise (ValueError
          (match la with
           | None => "If lat is not passed, all components must be GeoSeries objects"
           | Some _ => "If lon is not passed, all components must be GeoSeries objects"
           end))
      else match first_member sl with
           | Raise e => Raise e
           | Ok g => construct sl la lo
           end).
  { unfold init. destruct la as [x|].
    - destruct lo as [y|]; [destruct Hom; discriminate|].
      destruct (negb (all (map isinstance_GeoSeries sl))); [reflexivity|].
      destruct (first_member sl); reflexivity.
    - destruct (negb (all (map isinstance_GeoSeries sl))); [reflexivity|].
      destruct (first_member sl); reflexivity. }
  split; [|split].
  - split.
    + intros Hok. rewrite Hcases in Hok.
      destruct (all (map isinstance_GeoSeries sl)) eqn:Hall;
        [|discriminate].
      split; [|reflexivity]. intros ->. discriminate.
    + intros [Hne Hall].
      destruct (first_member_ok sl Hall Hne) as (g & Hg).
      unfold init. rewrite Hall, Hg. simpl.
      destruct la as [x|]; [|reflexivity].
      destruct lo as [y|]; [destruct Hom; discriminate|reflexivity].
  - intros Hall. rewrite Hcases, Hall. simpl. eexists. reflexivity.
  - intros ->. rewrite Hcases. reflexivity.
Qed.

(** X17.  An object that has both [lat] and [lon] got them from the
    arguments, and both passed their range test: a coordinate taken
    from the members never comes with the other one, and no
    out-of-range argument is stored. *)
Theorem geo_init_both_coordinates_only_from_arguments
    (sl : list member) (la lo : option Q) (o : EnsembleGeoSeries)
    (x y : Q) :
  construct sl la lo = Ok o ->
  lat o = Some x -> lon o = Some y ->
  la = Some x /\ lo = Some y
  /\ lat_in_range x = true /\ lon_in_range y = true.
Proof.
  unfold init. intros H Hx Hy.
  destruct la as [a|].
  - destruct lo as [b|].
    + inversion H; subst o; clear H. simpl in Hx, Hy.
      destruct (lat_in_range a) eqn:Ha; destruct (lon_in_range b) eqn:Hb;
        simpl in Hx, Hy; try discriminate.
      inversion Hx; inversion Hy; subst. auto.
    + destruct (negb (all (map isinstance_GeoSeries sl))); [discriminate|].
      destruct (first_member sl); inversion H; subst o.
      simpl in Hx. discriminate.
  - destruct (negb (all (map isinstance_GeoSeries sl))); [discriminate|].
    destruct (first_member sl); inversion H; subst o.
    simpl in Hy. discriminate.
Qed.

(** Every constructed object stores the list and the eight
    descriptors exactly as passed. *)
Lemma geo_init_stores_descriptors (sl : list member) (la lo : option Q)
    (o : EnsembleGeoSeries) :
  construct sl la lo = Ok o ->
  series_list o = sl /\ elevation o = elev /\ archiveType o = archive
  /\ control_archiveType o = control /\ sensorType o = sensor
  /\ observationType o = observation /\ depth o = dep
  /\ depth_name o = dep_name /\ depth_unit o = dep_unit.
Proof.
  unfold init. intros H.
  destruct la as [a|]; [destruct lo as [b|]|].
  - inversion H; subst o; clear H.
    destruct (lat_in_range a), (lon_in_range b); simpl; repeat split.
  - destruct (negb (all (map isinstance_GeoSeries sl))); [discriminate|].
    destruct (first_member sl); inversion H; subst o. simpl. repeat split.
  - destruct (negb (all (map isinstance_GeoSeries sl))); [discriminate|].
    destruct (first_member sl); inversion H; subst o. simpl. repeat split.
Qed.

End Construction.

Import Sites.

Lemma geo_init_with_omitted_coordinate_succeeds_iff_witness :
  let sl := [IsGeoSeries palmyra; IsGeoSeries kiritimati] in
  (@None Q = None \/ Some (-160) = None)
  /\ sl <> []
  /\ all (map isinstance_GeoSeries sl) = true
  /\ is_ok (init sl None (Some (-160)) None (Some "Coral") false None None
              None None None) = true.
Proof.
  assert (Hne : [IsGeoSeries palmyra; IsGeoSeries kiritimati] <> [])
    by discriminate.
  split; [left; reflexivity|]. split; [exact Hne|].
  split; [reflexivity|].
  exact (proj2 (proj1 (geo_init_with_omitted_coordinate_succeeds_iff
                         None (Some "Coral") false None None None None None
                         [IsGeoSeries palmyra; IsGeoSeries kiritimati]
                         None (Some (-160)) (or_introl eq_refl)))
           (conj Hne eq_refl)).
Defined.

Lemma geo_init_both_coordinates_only_from_arguments_witness :
  exists o,
    init [IsGeoSeries palmyra] (Some 5) (Some (-162)) None (Some "Coral")
      false None None None None None = Ok o
    /\ lat o = Some 5 /\ lon o = Some (-162)
    /\ lat_in_range 5 = true /\ lon_in_range (-162) = true.
Proof.
  set (run := init [IsGeoSeries palmyra] (Some 5) (Some (-162)) None
                (Some "Coral") false None None None None None).
  assert (Hrun : run = Ok (match run with
                           | Ok o => o
                           | Raise _ => super_init []
                           end))
    by (vm_compute; reflexivity).
  eexists. split; [exact Hrun|].
  split; [vm_compute; reflexivity|]. split; [vm_compute; reflexivity|].
  exact (proj2 (proj2 (geo_init_both_coordinates_only_from_arguments
                         None (Some "Coral") false None None None None None
                         [IsGeoSeries palmyra] (Some 5) (Some (-162)) _
                         5 (-162) Hrun eq_refl eq_refl))).
Defined.

End EnsembleGeoInvariant.

(* ================================================================== *)
(** * Properties of [EnsembleGeoSeries.make_labels] *)

Module LabelsFacts.
Import Labels.

Lemma prefix_append (a b : string) : String.prefix a (a ++ b) = true.
Proof.
  induction a as [|c a IH]; simpl.
  - destruct b; reflexivity.
  - destruct (ascii_dec c c) as [_|Hc]; [exact IH|contradiction].
Qed.

Lemma prefix_refl (a : string) : String.prefix a a = true.
Proof.
  induction a as [|c a IH]; simpl; [reflexivity|].
  destruct (ascii_dec c c) as [_|Hc]; [exact IH|contradiction].
Qed.

Lemma length_append (a b : string) :
  String.length (a ++ b) = (String.length a + String.length b)%nat.
Proof. induction a as [|c a IH]; simpl; [reflexivity|]. rewrite IH. reflexivity. Qed.

(** X18.  [make_labels] reads the first member only: it raises
    [IndexError] on an empty ensemble and returns on any other.  Each
    header starts with the name of its axis -- the member's own, or
    ['time'] and ['value'] when it has none -- and is longer than the
    name exactly when the member has a unit for that axis, which is then
    appended in square brackets. *)
Theorem make_labels_headers :
  make_labels [] = Raise (IndexError "list index out of range")
  /\ forall (first : names) (rest : list names),
       let tn :=
         match time_name first with Some n => n | None => "time" end in
       let vn :=
         match value_name first with Some n => n | None => "value" end in
       exists time_header value_header,
         make_labels (first :: rest) = Ok (time_header, value_header)
         /\ String.prefix tn time_header = true
         /\ String.prefix vn value_header = true
         /\ (time_header = tn <-> time_unit first = None)
         /\ (value_header = vn <-> value_unit first = None)
         /\ (forall u, time_unit first = Some u ->
               time_header = tn ++ " [" ++ u ++ "]")
         /\ (forall u, value_unit first = Some u ->
               value_header = vn ++ " [" ++ u ++ "]").
Proof.
  split; [reflexivity|]. intros first rest. cbv zeta.
  unfold make_labels, with_unit. eexists _, _. split; [reflexivity|].
  assert (Hneq : forall n u : string, n ++ " [" ++ u ++ "]" <> n).
  { intros n u E. apply (f_equal String.length) in E.
    rewrite length_append in E. simpl in E. lia. }
  destruct (time_unit first) as [tu|]; destruct (value_unit first) as [vu|];
    repeat split;
    try apply prefix_append; try apply prefix_refl;
    try discriminate; try reflexivity;
    try (intros E; exfalso; eapply Hneq; exact E);
    try (intros u E; inversion E; reflexivity).
Qed.

End LabelsFacts.

(* ================================================================== *)
(** * Properties of [MultipleGeoSeries.__init__] *)

Module MultipleGeoFacts.
Import EnsembleGeo MultipleGeo.

Section Init.
Variable convert_time_unit : GeoSeries -> string -> result GeoSeries.

Lemma convert_all_spec (u : string) (l new : list member) :
  convert_all convert_time_unit u l = Ok new ->
  Forall2 (fun ts new_ts => convert_member convert_time_unit u ts = Ok new_ts)
          l new.
Proof.
  revert new. induction l as [|ts rest IH]; intros new H; simpl in H.
  - inversion H. constructor.
  - destruct (convert_member convert_time_unit u ts) as [new_ts|e] eqn:E;
      [|discriminate].
    destruct (convert_all convert_time_unit u rest) as [new_rest|e] eqn:Er;
      [|discriminate].
    inversion H; subst. constructor; [exact E|]. apply IH. reflexivity.
Qed.

Lemma convert_all_first_failure (u : string) (l : list member) (e : exn) :
  convert_all convert_time_unit u l = Raise e ->
  exists before ts after,
    l = (before ++ ts :: after)%list
    /\ convert_member convert_time_unit u ts = Raise e
    /\ Forall (fun b => is_ok (convert_member convert_time_unit u b) = true)
              before.
Proof.
  induction l as [|ts rest IH]; intros H; simpl in H; [discriminate|].
  destruct (convert_member convert_time_unit u ts) as [new_ts|e1] eqn:E.
  - destruct (convert_all convert_time_unit u rest) as [new_rest|e2] eqn:Er;
      [discriminate|].
    inversion H; subst e2.
    destruct (IH eq_refl) as (before & t & after & -> & Ht & Hb).
    exists (ts :: before), t, after. split; [reflexivity|].
    split; [exact Ht|]. constructor; [rewrite E; reflexivity|exact Hb].
  - inversion H; subst e1. exists [], ts, rest.
    split; [reflexivity|]. split; [exact E|constructor].
Qed.

(** Without a target time unit the constructor returns exactly when
    every member is a [GeoSeries] -- an empty list included -- and then
    stores the list, unit and label as passed; a member of another type
    is a [ValueError]. *)
Lemma multiple_init_without_time_unit (series_list : list member)
    (label : option string) :
  init convert_time_unit series_list None label
  = if all (map isinstance_GeoSeries series_list) then
      Ok {| mg_series_list := series_list; mg_time_unit := None;
            mg_label := label |}
    else Raise (ValueError "All components must be GeoSeries objects").
Proof.
  unfold init. simpl.
  destruct (all (map isinstance_GeoSeries series_list)); reflexivity.
Qed.

(** X19.  With a target time unit, a constructed collection holds the
    conversions of the members, one for one and in order; a
    construction that raises for another reason than a member's type
    raises what the first failing conversion raised. *)
Theorem multiple_init_converts_every_member (series_list : list member)
    (u : string) (label : option string) :
  (forall o,
     init convert_time_unit series_list (Some u) label = Ok o ->
     mg_time_unit o = Some u /\ mg_label o = label
     /\ List.length (mg_series_list o) = List.length series_list
     /\ Forall2 (fun ts new_ts =>
                   exists g g', ts = IsGeoSeries g
                                /\ new_ts = IsGeoSeries g'
                                /\ convert_time_unit g u = Ok g')
                series_list (mg_series_list o))
  /\
  (forall e,
     init convert_time_unit series_list (Some u) label = Raise e ->
     all (map isinstance_GeoSeries series_list) = true ->
     exists before g after,
       series_list = (before ++ IsGeoSeries g :: after)%list
       /\ convert_time_unit g u = Raise e
       /\ Forall (fun b => is_ok (convert_member convert_time_unit u b) = true)
                 before).
Proof.
  unfold init. simpl. split.
  - intros o H.
    destruct (all (map isinstance_GeoSeries series_list)); [|discriminate].
    simpl in H.
    destruct (convert_all convert_time_unit u series_list) as [new|e] eqn:E;
      [|discriminate].
    inversion H; subst o; clear H. simpl.
    apply convert_all_spec in E.
    split; [reflexivity|]. split; [reflexivity|].
    split; [symmetry; eapply Forall2_length; exact E|].
    eapply Forall2_impl; [|exact E].
    intros ts new_ts Hc. unfold convert_member in Hc.
    destruct ts as [g|ty]; [|discriminate].
    destruct (convert_time_unit g u) as [g'|e] eqn:Eg; [|discriminate].
    inversion Hc; subst. exists g, g'. auto.
  - intros e H Hall. rewrite Hall in H. simpl in H.
    destruct (convert_all convert_time_unit u series_list) as [new|e1] eqn:E;
      [discriminate|].
    inversion H; subst e1.
    apply convert_all_first_failure in E
      as (before & ts & after & Hl & Hts & Hb).
    assert (Hgeo : isinstance_GeoSeries ts = true).
    { subst series_list. unfold all in Hall.
      rewrite forallb_forall in Hall. apply Hall.
      apply in_map. apply in_or_app. right. left. reflexivity. }
    destruct ts as [g|ty]; [|discriminate].
    exists before, g, after. split; [exact Hl|]. split; [|exact Hb].
    unfold convert_member in Hts.
    destruct (convert_time_unit g u); [discriminate|].
    inversion Hts; reflexivity.
Qed.

End Init.

Import Sites.

Lemma multiple_init_converts_every_member_witness :
  let members := [IsGeoSeries palmyra; IsGeoSeries kiritimati] in
  (exists o,
     init toy_convert members (Some "kyr BP") (Some "Line Islands") = Ok o
     /\ List.length (mg_series_list o) = 2%nat
     /\ mg_time_unit o = Some "kyr BP")
  /\ (exists before g after,
        init toy_convert members (Some "fortnights") None
        = Raise (ValueError "Unknown time unit: fortnights")
        /\ members = (before ++ IsGeoSeries g :: after)%list
        /\ toy_convert g "fortnights"
           = Raise (ValueError "Unknown time unit: fortnights")).
Proof.
  split.
  - eexists. split; [vm_compute; reflexivity|].
    destruct (proj1 (multiple_init_converts_every_member toy_convert
                       [IsGeoSeries palmyra; IsGeoSeries kiritimati]
                       "kyr BP" (Some "Line Islands")) _ eq_refl)
      as (Hu & _ & Hlen & _).
    split; [exact Hlen|exact Hu].
  - destruct (proj2 (multiple_init_converts_every_member toy_convert
                       [IsGeoSeries palmyra; IsGeoSeries kiritimati]
                       "fortnights" None)
                (ValueError "Unknown time unit: fortnights")
                eq_refl eq_refl)
      as (before & g & after & Hl & Hg & _).
    exists before, g, after. split; [reflexivity|].
    split; [exact Hl|exact Hg].
Defined.

End MultipleGeoFacts.

(* ================================================================== *)
(** * Keyword dictionaries *)

Module PyDictFacts.
Import PyDict.

Lemma lookup_setitem_same (k : string) (v : pyval) (d : dict) :
  lookup k (setitem k v d) = Some v.
Proof.
  induction d as [|[k' v'] d IH]; simpl.
  - rewrite String.eqb_refl. reflexivity.
  - destruct (String.eqb k k') eqn:E; simpl; rewrite E; [reflexivity|exact IH].
Qed.

Lemma lookup_setitem_other (k k' : string) (v : pyval) (d : dict) :
  k <> k' -> lookup k (setitem k' v d) = lookup k d.
Proof.
  intros Hne. induction d as [|[k2 v2] d IH]; simpl.
  - apply String.eqb_neq in Hne. rewrite Hne. reflexivity.
  - destruct (String.eqb k' k2) eqn:E; simpl.
    + apply String.eqb_eq in E. subst k2.
      apply String.eqb_neq in Hne. rewrite Hne. reflexivity.
    + destruct (String.eqb k k2); [reflexivity|exact IH].
Qed.

Lemma lookup_remove_other (k k' : string) (d : dict) :
  k <> k' -> lookup k (remove k' d) = lookup k d.
Proof.
  intros Hne. induction d as [|[k2 v2] d IH]; simpl; [reflexivity|].
  destruct (String.eqb k' k2) eqn:E; simpl.
  - apply String.eqb_eq in E. subst k2.
    apply String.eqb_neq in Hne. rewrite Hne. exact IH.
  - destruct (String.eqb k k2); [reflexivity|exact IH].
Qed.

Lemma has_key_lookup (k : string) (d : dict) :
  has_key k d = match lookup k d with Some _ => true | None => false end.
Proof. reflexivity. Qed.

End PyDictFacts.

(* ================================================================== *)
(** * Rules for the calls of a method body *)

Module TripleRules.
Import PyDict Dashboard.

Section Rules.
Variable respond : list call -> call -> outcome pyval.
Variable Q : call -> Prop.

Lemma triple_unit {A} (a : A) (P : A -> Prop) :
  P a -> triple Q (unit_T a) P.
Proof.
  intros HP made r made' H. inversion H; subst. split.
  - exists []. rewrite app_nil_r. split; [reflexivity|constructor].
  - intros a0 E. inversion E; subst. exact HP.
Qed.

Lemma triple_raise {A} (e : pyexn) (P : A -> Prop) :
  triple Q (raise_T e) P.
Proof.
  intros made r made' H. inversion H; subst. split.
  - exists []. rewrite app_nil_r. split; [reflexivity|constructor].
  - intros a E. discriminate.
Qed.

Lemma triple_lift {A} (r : outcome A) (P : A -> Prop) :
  (forall a, r = Returned a -> P a) -> triple Q (lift_T r) P.
Proof.
  intros HP made r0 made' H. inversion H; subst. split.
  - exists []. rewrite app_nil_r. split; [reflexivity|constructor].
  - exact HP.
Qed.

Lemma triple_ext (name : string) (positional : list pyval) (keywords : dict)
    (P : pyval -> Prop) :
  Q (mkCall name positional keywords) ->
  (forall v, P v) ->
  triple Q (ext respond name positional keywords) P.
Proof.
  intros HQ HP made r made' H. unfold ext in H. inversion H; subst. split.
  - eexists. split; [reflexivity|]. constructor; [exact HQ|constructor].
  - intros a _. apply HP.
Qed.

Lemma triple_bind {A B} (m : T A) (k : A -> T B) (P : A -> Prop)
    (R : B -> Prop) :
  triple Q m P ->
  (forall a, P a -> triple Q (k a) R) ->
  triple Q (bind_T m k) R.
Proof.
  intros Hm Hk made r made' H. unfold bind_T in H.
  destruct (m made) as [[a|e] made1] eqn:E.
  - destruct (Hm _ _ _ E) as [(added1 & -> & HQ1) HP].
    destruct (Hk a (HP a eq_refl) _ _ _ H) as [(added2 & -> & HQ2) HR].
    split; [|exact HR].
    exists (added1 ++ added2)%list. rewrite app_assoc.
    split; [reflexivity|]. apply Forall_app. split; assumption.
  - destruct (Hm _ _ _ E) as [(added1 & -> & HQ1) _].
    inversion H; subst. split.
    + exists added1. split; [reflexivity|exact HQ1].
    + intros b Eb. discriminate.
Qed.

Lemma triple_weaken {A} (m : T A) (P P' : A -> Prop) :
  (forall a, P a -> P' a) -> triple Q m P -> triple Q m P'.
Proof.
  intros HPP Hm made r made' H. destruct (Hm _ _ _ H) as [Hc HP].
  split; [exact Hc|]. intros a E. apply HPP, HP, E.
Qed.

End Rules.
End TripleRules.

(* ================================================================== *)
(** * The call sites of [EnsembleGeoSeries.dashboard] *)

Module DashboardCalls.
Import PyDict Dashboard PyDictFacts TripleRules.

Section Sites.
Variable respond : list call -> call -> outcome pyval.
Variable LipdToOntology : string -> string.
Variable PLOT_DEFAULT : list (string * (pyval * pyval)).
Variable Q : call -> Prop.
Variable self_archiveType : option string.
Variable o : options.

Local Abbreviation archive := (plot_archiveType LipdToOntology PLOT_DEFAULT self_archiveType).
Local Abbreviation tinted := (coloured PLOT_DEFAULT).
Local Abbreviation given_map := (copy_or_empty (map_kwargs o)).

Lemma triple_ext_any (name : string) (positional : list pyval)
    (keywords : dict) :
  Q (mkCall name positional keywords) ->
  triple Q (ext respond name positional keywords) (fun _ => True).
Proof. intros HQ. apply triple_ext; [exact HQ|intros; exact I]. Qed.

Lemma triple_lift_value {A} (r : outcome A) :
  triple Q (lift_T r) (fun a => r = Returned a).
Proof. apply triple_lift. intros a E. exact E. Qed.

Lemma triple_default_colour_unless (key target archiveType : string)
    (d : dict) :
  triple Q (default_colour_unless PLOT_DEFAULT key target archiveType d)
         (tinted key target archiveType d).
Proof.
  unfold default_colour_unless, coloured.
  destruct (has_key key d) eqn:E; simpl.
  - apply triple_unit. left. split; reflexivity.
  - eapply triple_bind; [apply triple_lift_value|].
    intros colour Hc. apply triple_unit. right. split; [reflexivity|].
    exists colour. split; [exact Hc|reflexivity].
Qed.

(** The call sites of [dashboard], in the order of the source. *)
Hypothesis site_positional :
  forall name positional,
    In name positional_callees -> Q (mkCall name positional []).
Hypothesis site_figure :
  Q (mkCall "plt.figure" [] [("figsize", figsize o)]).
Hypothesis site_gridspec :
  forall height_ratios width_ratios nrows ncols,
    gs o = None ->
    lookup "height_ratios" (gridspec_settings o) = Some height_ratios ->
    py_len height_ratios = Ok nrows ->
    lookup "width_ratios" (gridspec_settings o) = Some width_ratios ->
    py_len width_ratios = Ok ncols ->
    Q (mkCall "gridspec.GridSpec"
         [PNum (inject_Z (Z.of_nat nrows)); PNum (inject_Z (Z.of_nat ncols))]
         (gridspec_settings o)).
Hypothesis site_timeseries :
  forall common ax d1 d2,
    tinted "curve_clr" "curve_clr" archive
           (setitem "ax" ax (copy_or_empty (plt_kwargs o))) d1 ->
    tinted "shade_clr" "shade_clr" archive d1 d2 ->
    Q (mkCall "self.common_time().plot_envelope" [common] d2).
Hypothesis site_histogram :
  forall ax d,
    tinted "color" "color" archive
      (setitem "vertical" (PBool true)
         (setitem "ylabel" (PStr "Counts")
            (setitem "ax" ax (copy_or_empty (histplt_kwargs o))))) d ->
    Q (mkCall "self.histplot" [PObj "self"] d).
Hypothesis site_map :
  forall keywords,
    map fst keywords = scatter_map_keywords ->
    Forall (fun kd => lookup (fst kd) keywords
                      = Some (fst (pop (fst kd) (snd kd) given_map)))
           map_defaults ->
    (forall edgecolor,
       lookup "edgecolor" given_map = Some edgecolor ->
       exists d, scatter_kwargs o = Some d
                 /\ lookup "scatter_kwargs" keywords
                    = Some (PDict (setitem "edgecolor" edgecolor d))) ->
    (lookup "edgecolor" given_map = None ->
       lookup "scatter_kwargs" keywords
       = Some (of_option_dict (scatter_kwargs o))) ->
    (eq_False (fst (pop "legend" (PBool false) given_map)) = true ->
       exists d,
         fst (pop "gridspec_kwargs" (PDict []) given_map) = PDict d
         /\ lookup "gridspec_kwargs" keywords
            = Some (PDict (setitem "width_ratios"
                             (PList [PNum (1 # 2); PNum 16; PNum 1]) d))) ->
    (eq_False (fst (pop "legend" (PBool false) given_map)) = false ->
       lookup "gridspec_kwargs" keywords
       = Some (fst (pop "gridspec_kwargs" (PDict []) given_map))) ->
    Q (mkCall "mapping.scatter_map" [PObj "self"] keywords).
Hypothesis site_spectral :
  forall ts_preprocess,
    (map_passed o) ->
    Q (mkCall "ts_preprocess.spectral" [ts_preprocess]
         (default_unless_given "freq" (PStr "lomb_scargle")
            (default_unless_given "method" (PStr "lomb_scargle")
               (copy_or_empty (spectral_kwargs o))))).
Hypothesis site_spectrum :
  forall psds ax d1 d2,
    (map_passed o) ->
    tinted "curve_clr" "curve_clr" archive
           (setitem "ax" ax (copy_or_empty (spectralfig_kwargs o))) d1 ->
    tinted "shade)clr" "shade_clr" archive d1 d2 ->
    Q (mkCall "psds.plot_envelope" [psds] d2).
Hypothesis site_savefig :
  forall fig,
    (map_passed o) ->
    has_key "path" (copy_or_empty (savefig_settings o)) = true ->
    Q (mkCall "plotting.savefig" [fig]
         [("settings", PDict (copy_or_empty (savefig_settings o)))]).

Ltac positional :=
  apply triple_ext_any; apply site_positional; simpl; tauto.

Ltac chain :=
  repeat first
    [ eapply triple_bind; [positional|intros ? _]
    | eapply triple_bind; [apply triple_lift_value|intros ? ?] ].

Lemma getitem_Returned (k : string) (d : dict) (v : pyval) :
  getitem k d = Returned v -> lookup k d = Some v.
Proof.
  unfold getitem. destruct (lookup k d); intros H; inversion H; reflexivity.
Qed.

Lemma of_result_Returned {A} (r : result A) (a : A) :
  of_result r = Returned a -> r = Ok a.
Proof. destruct r; intros H; inversion H; reflexivity. Qed.

Lemma triple_make_gs :
  triple Q (make_gs respond o) (fun _ => True).
Proof.
  unfold make_gs. destruct (gs o) as [g|] eqn:Hgs.
  - apply triple_unit. exact I.
  - cbv zeta.
    eapply triple_bind; [apply triple_lift_value|intros h Hh].
    eapply triple_bind; [apply triple_lift_value|intros n Hn].
    eapply triple_bind; [apply triple_lift_value|intros w Hw].
    eapply triple_bind; [apply triple_lift_value|intros m Hm].
    apply triple_ext_any.
    apply (site_gridspec h w n m eq_refl (getitem_Returned _ _ _ Hh)
             (of_result_Returned _ _ Hn) (getitem_Returned _ _ _ Hw)
             (of_result_Returned _ _ Hm)).
Qed.

Lemma triple_plot_timeseries (fig gs : pyval) :
  triple Q (plot_timeseries respond LipdToOntology PLOT_DEFAULT
              self_archiveType o fig gs)
         (fun ts => snd (fst ts) = archive).
Proof.
  unfold plot_timeseries, gs_slot.
  eapply triple_bind; [positional|intros slot _].
  eapply triple_bind; [positional|intros ax _].
  eapply triple_bind; [apply triple_default_colour_unless|intros d1 H1].
  eapply triple_bind; [apply triple_default_colour_unless|intros d2 H2].
  eapply triple_bind; [positional|intros common _].
  eapply triple_bind;
    [apply triple_ext_any; eapply site_timeseries; eassumption|intros ax' _].
  chain. apply triple_unit. reflexivity.
Qed.

Lemma triple_plot_histogram (fig gs ymin ymax : pyval) :
  triple Q (plot_histogram respond PLOT_DEFAULT o fig gs archive ymin ymax)
         (fun _ => True).
Proof.
  unfold plot_histogram, gs_slot.
  eapply triple_bind; [positional|intros slot _].
  eapply triple_bind; [positional|intros ax _].
  eapply triple_bind; [apply triple_default_colour_unless|intros d H].
  eapply triple_bind;
    [apply triple_ext_any; eapply site_histogram; eassumption|intros ax' _].
  chain. apply triple_unit. exact I.
Qed.

Lemma triple_plot_spectrum (fig gs : pyval) :
  (map_passed o) ->
  triple Q (plot_spectrum respond PLOT_DEFAULT o fig gs archive)
         (fun _ => True).
Proof.
  intros Hmap. unfold plot_spectrum, gs_slot.
  eapply triple_bind; [positional|intros slot _].
  eapply triple_bind; [positional|intros ax _].
  eapply triple_bind; [positional|intros detrended _].
  eapply triple_bind; [positional|intros standardized _].
  eapply triple_bind; [positional|intros ts_preprocess _].
  eapply triple_bind;
    [apply triple_ext_any; apply site_spectral; exact Hmap|intros psds _].
  eapply triple_bind; [positional|intros ? _].
  eapply triple_bind; [apply triple_default_colour_unless|intros d1 H1].
  eapply triple_bind; [apply triple_default_colour_unless|intros d2 H2].
  apply triple_ext_any. eapply site_spectrum; eassumption.
Qed.

Lemma triple_plot_map (fig gs : pyval) :
  triple Q (plot_map respond o fig gs) (fun _ => (map_passed o)).
Proof.
  unfold plot_map, pop, gs_slot. cbv beta iota zeta.
  rewrite !lookup_remove_other by discriminate.
  eapply triple_bind with
    (P := fun sk =>
       (forall edgecolor,
          lookup "edgecolor" given_map = Some edgecolor ->
          exists d, scatter_kwargs o = Some d
                    /\ sk = Some (setitem "edgecolor" edgecolor d))
       /\ (lookup "edgecolor" given_map = None -> sk = scatter_kwargs o)).
  { destruct (lookup "edgecolor" given_map) as [edgecolor|].
    - destruct (scatter_kwargs o) as [d|].
      + apply triple_unit. split; [|discriminate].
        intros e He. inversion He; subst. exists d. split; reflexivity.
      + apply triple_raise.
    - apply triple_unit. split; [discriminate|reflexivity]. }
  intros sk [Hedge Hnone].
  eapply triple_bind with
    (P := fun mg =>
       (eq_False (fst (pop "legend" (PBool false) given_map)) = true ->
        exists d,
          fst (pop "gridspec_kwargs" (PDict []) given_map) = PDict d
          /\ mg = PDict (setitem "width_ratios"
                           (PList [PNum (1 # 2); PNum 16; PNum 1]) d))
       /\ (eq_False (fst (pop "legend" (PBool false) given_map)) = false ->
           mg = fst (pop "gridspec_kwargs" (PDict []) given_map))).
  { unfold pop; simpl fst.
    destruct (eq_False _) eqn:Hlegend.
    - apply triple_lift. intros mg Hmg. split; [|discriminate].
      intros _. apply of_result_Returned in Hmg. unfold setitem_val in Hmg.
      destruct (match lookup "gridspec_kwargs" given_map with
                | Some v => v
                | None => PDict []
                end) as [| | | | |d|]; inversion Hmg.
      exists d. split; reflexivity.
    - apply triple_unit. split; [discriminate|reflexivity]. }
  intros mg [Hforced Hkept].
  eapply triple_bind; [positional|intros slot _].
  eapply triple_bind.
  { apply triple_ext_any. apply site_map.
    - reflexivity.
    - unfold map_defaults, pop.
      repeat constructor; reflexivity.
    - intros e He. destruct (Hedge e He) as (d & Hd & ->).
      exists d. split; [exact Hd|reflexivity].
    - intros He. rewrite (Hnone He). reflexivity.
    - intros Hl. destruct (Hforced Hl) as (d & Hd & ->).
      exists d. split; [exact Hd|reflexivity].
    - intros Hl. rewrite (Hkept Hl). reflexivity. }
  intros answer _.
  eapply triple_bind; [apply triple_lift_value|intros pair _].
  apply triple_unit.
  intros e He. destruct (Hedge e He) as (d & Hd & _). exists d. exact Hd.
Qed.

(** Every call that [dashboard] makes is made at one of the sites, and
    when it returns the map panel was drawn. *)
Lemma triple_dashboard :
  triple Q (dashboard respond LipdToOntology PLOT_DEFAULT self_archiveType o)
         (fun _ => (map_passed o)).
Proof.
  unfold dashboard. cbv zeta.
  eapply triple_bind; [apply triple_ext_any; exact site_figure|intros fig _].
  eapply triple_bind; [apply triple_make_gs|intros gs0 _].
  eapply triple_bind; [apply triple_plot_timeseries|intros ts Hts].
  rewrite Hts.
  eapply triple_bind; [apply triple_plot_histogram|intros ax_dts _].
  eapply triple_bind; [apply triple_plot_map|intros ax_map Hmap].
  eapply triple_bind; [apply triple_plot_spectrum; exact Hmap|intros ax_spec _].
  eapply triple_bind with (P := fun _ => True).
  { destruct (has_key "path" (copy_or_empty (savefig_settings o))) eqn:Hp.
    - eapply triple_bind;
        [apply triple_ext_any; apply site_savefig; first [assumption|reflexivity]|intros ? _].
      apply triple_unit. exact I.
    - apply triple_unit. exact I. }
  intros _ _. apply triple_unit. exact Hmap.
Qed.

End Sites.
End DashboardCalls.

(* ================================================================== *)
(** * Properties of [EnsembleGeoSeries.dashboard] *)

Module DashboardFacts.
Import PyDict Dashboard PyDictFacts TripleRules DashboardCalls.

Lemma coloured_lookup_other (PLOT_DEFAULT : list (string * (pyval * pyval)))
    (key target archiveType k : string) (d d' : dict) :
  coloured PLOT_DEFAULT key target archiveType d d' ->
  k <> target -> lookup k d' = lookup k d.
Proof.
  intros [[_ ->]|[_ (colour & _ & ->)]] Hne; [reflexivity|].
  apply lookup_setitem_other, Hne.
Qed.

Lemma coloured_given_or_default
    (PLOT_DEFAULT : list (string * (pyval * pyval)))
    (key archiveType : string) (d d' : dict) :
  coloured PLOT_DEFAULT key key archiveType d d' ->
  given_or_default PLOT_DEFAULT archiveType d d' key.
Proof.
  unfold coloured, given_or_default, has_key.
  intros [[Hk ->]|[Hk (colour & Hc & ->)]];
    destruct (lookup key d) as [v|]; try discriminate; [reflexivity|].
  exists colour. split; [exact Hc|apply lookup_setitem_same].
Qed.

Lemma given_or_default_ext (PLOT_DEFAULT : list (string * (pyval * pyval)))
    (key archiveType : string) (given given' passed passed' : dict) :
  lookup key given' = lookup key given ->
  lookup key passed' = lookup key passed ->
  given_or_default PLOT_DEFAULT archiveType given passed key ->
  given_or_default PLOT_DEFAULT archiveType given' passed' key.
Proof.
  unfold given_or_default. intros -> ->. exact (fun H => H).
Qed.

Lemma lookup_default_unless_given (k key : string) (v : pyval) (d : dict) :
  lookup k (default_unless_given key v d)
  = match lookup k d with
    | Some x => Some x
    | None => if String.eqb k key then Some v else None
    end.
Proof.
  unfold default_unless_given, has_key.
  destruct (String.eqb k key) eqn:E.
  - apply String.eqb_eq in E. subst k.
    destruct (lookup key d) as [x|] eqn:Hl; [rewrite Hl; reflexivity|].
    apply lookup_setitem_same.
  - apply String.eqb_neq in E.
    destruct (lookup key d) as [x|] eqn:Hl.
    + destruct (lookup k d); reflexivity.
    + rewrite (lookup_setitem_other _ _ _ _ E).
      destruct (lookup k d); reflexivity.
Qed.

Ltac elsewhere :=
  intros; hnf; simpl callee;
  let Hc := fresh "Hc" in
  intros Hc;
  first [ discriminate Hc
        | subst; simpl in *; intuition discriminate ].

Section Calls.
Variable respond : list call -> call -> outcome pyval.
Variable LipdToOntology : string -> string.
Variable PLOT_DEFAULT : list (string * (pyval * pyval)).
Variable self_archiveType : option string.
Variable o : options.

Local Abbreviation archive :=
  (plot_archiveType LipdToOntology PLOT_DEFAULT self_archiveType).
Local Abbreviation run :=
  (dashboard respond LipdToOntology PLOT_DEFAULT self_archiveType o).

(** X20.  The time series panel: [plot_envelope] gets the caller's
    [curve_clr] and [shade_clr] where given and the archive type's
    default colour where not, and the caller's other entries as they
    are. *)
Theorem dashboard_timeseries_colours (made made' : list call)
    (r : outcome (pyval * dict)) :
  run made = (r, made') ->
  exists added,
    made' = (made ++ added)%list
    /\ Forall (timeseries_call PLOT_DEFAULT archive o) added.
Proof.
  intros Hrun.
  refine (proj1 (triple_dashboard respond LipdToOntology PLOT_DEFAULT _
                   self_archiveType o _ _ _ _ _ _ _ _ _ made r made' Hrun));
    try elsewhere.
  intros common ax d1 d2 H1 H2 _. cbv zeta. simpl kwargs.
  split; [|split].
  - apply coloured_given_or_default in H1.
    refine (given_or_default_ext _ _ _ _ _ _ _ _ _ H1).
    + symmetry. apply lookup_setitem_other. discriminate.
    + apply (coloured_lookup_other _ _ _ _ _ _ _ H2). discriminate.
  - apply coloured_given_or_default in H2.
    refine (given_or_default_ext _ _ _ _ _ _ _ _ _ H2); [|reflexivity].
    rewrite <- (lookup_setitem_other "shade_clr" "ax" ax) by discriminate.
    symmetry. apply (coloured_lookup_other _ _ _ _ _ _ _ H1). discriminate.
  - intros k Hk. simpl in Hk.
    rewrite (coloured_lookup_other _ _ _ _ _ _ _ H2) by (intros ->; tauto).
    rewrite (coloured_lookup_other _ _ _ _ _ _ _ H1) by (intros ->; tauto).
    apply lookup_setitem_other. intros ->. tauto.
Qed.

(** X21.  The histogram panel: [histplot] is drawn vertically with the
    y label 'Counts' whatever the caller gave for them, in the caller's
    [color] if given and the archive type's default colour if not. *)
Theorem dashboard_histogram_settings (made made' : list call)
    (r : outcome (pyval * dict)) :
  run made = (r, made') ->
  exists added,
    made' = (made ++ added)%list
    /\ Forall (histogram_call PLOT_DEFAULT archive o) added.
Proof.
  intros Hrun.
  refine (proj1 (triple_dashboard respond LipdToOntology PLOT_DEFAULT _
                   self_archiveType o _ _ _ _ _ _ _ _ _ made r made' Hrun));
    try elsewhere.
  intros ax d H _. cbv zeta. simpl kwargs.
  split; [|split; [|split]].
  - rewrite (coloured_lookup_other _ _ _ _ _ _ _ H) by discriminate.
    rewrite lookup_setitem_other by discriminate.
    apply lookup_setitem_same.
  - rewrite (coloured_lookup_other _ _ _ _ _ _ _ H) by discriminate.
    apply lookup_setitem_same.
  - apply coloured_given_or_default in H.
    refine (given_or_default_ext _ _ _ _ _ _ _ _ _ H); [|reflexivity].
    rewrite !lookup_setitem_other by discriminate. reflexivity.
  - intros k Hk. simpl in Hk.
    rewrite (coloured_lookup_other _ _ _ _ _ _ _ H) by (intros ->; tauto).
    rewrite !lookup_setitem_other by (intros ->; tauto). reflexivity.
Qed.

(** X22.  The spectral panel: the envelope of the spectra gets the default
    colour of the archive type as [shade_clr] unless the caller's
    [spectralfig_kwargs] has the key 'shade)clr', so a [shade_clr] of
    the caller is replaced; [curve_clr] is the caller's if given. *)
Theorem dashboard_spectrum_shade_colour (made made' : list call)
    (r : outcome (pyval * dict)) :
  run made = (r, made') ->
  exists added,
    made' = (made ++ added)%list
    /\ Forall (spectrum_call PLOT_DEFAULT archive o) added.
Proof.
  intros Hrun.
  refine (proj1 (triple_dashboard respond LipdToOntology PLOT_DEFAULT _
                   self_archiveType o _ _ _ _ _ _ _ _ _ made r made' Hrun));
    try elsewhere.
  intros psds ax d1 d2 _ H1 H2 _. cbv zeta. simpl kwargs.
  assert (Hkey : has_key "shade)clr" d1
                 = has_key "shade)clr" (copy_or_empty (spectralfig_kwargs o))).
  { unfold has_key.
    rewrite (coloured_lookup_other _ _ _ _ _ _ _ H1) by discriminate.
    rewrite lookup_setitem_other by discriminate. reflexivity. }
  assert (Hshade : lookup "shade_clr" d1
                   = lookup "shade_clr"
                       (copy_or_empty (spectralfig_kwargs o))).
  { rewrite (coloured_lookup_other _ _ _ _ _ _ _ H1) by discriminate.
    apply lookup_setitem_other. discriminate. }
  split; [|split; [|split]].
  - apply coloured_given_or_default in H1.
    refine (given_or_default_ext _ _ _ _ _ _ _ _ _ H1).
    + symmetry. apply lookup_setitem_other. discriminate.
    + apply (coloured_lookup_other _ _ _ _ _ _ _ H2). discriminate.
  - intros Hno. rewrite <- Hkey in Hno.
    destruct H2 as [[Hk _]|[_ (colour & Hc & ->)]]; [congruence|].
    exists colour. split; [exact Hc|apply lookup_setitem_same].
  - intros Hyes. rewrite <- Hkey in Hyes.
    destruct H2 as [[_ ->]|[Hk _]]; [exact Hshade|congruence].
  - intros k Hk. simpl in Hk.
    rewrite (coloured_lookup_other _ _ _ _ _ _ _ H2) by (intros ->; tauto).
    rewrite (coloured_lookup_other _ _ _ _ _ _ _ H1) by (intros ->; tauto).
    apply lookup_setitem_other. intros ->. tauto.
Qed.

(** X23.  The spectral analysis is called with the caller's
    [spectral_kwargs]; 'method' and 'freq' are 'lomb_scargle', both,
    where the caller gave none, and nothing else is added. *)
Theorem dashboard_spectral_defaults (made made' : list call)
    (r : outcome (pyval * dict)) :
  run made = (r, made') ->
  exists added,
    made' = (made ++ added)%list /\ Forall (spectral_call o) added.
Proof.
  intros Hrun.
  refine (proj1 (triple_dashboard respond LipdToOntology PLOT_DEFAULT _
                   self_archiveType o _ _ _ _ _ _ _ _ _ made r made' Hrun));
    try elsewhere.
  intros ts_preprocess _ _ k. simpl kwargs.
  rewrite !lookup_default_unless_given.
  destruct (lookup k (copy_or_empty (spectral_kwargs o))); [reflexivity|].
  destruct (String.eqb k "method"); [reflexivity|].
  destruct (String.eqb k "freq"); reflexivity.
Qed.

(** X24.  The map is drawn with exactly the keywords of the source, so an
    entry of [map_kwargs] under another key is dropped; what [dashboard]
    pops from [map_kwargs] is passed on, with the default of the [pop]
    where the caller gave nothing: 'legend' and 'colorbar' are [False]
    then. *)
Theorem dashboard_map_keywords (made made' : list call)
    (r : outcome (pyval * dict)) :
  run made = (r, made') ->
  exists added,
    made' = (made ++ added)%list /\ Forall (map_keywords_call o) added.
Proof.
  intros Hrun.
  refine (proj1 (triple_dashboard respond LipdToOntology PLOT_DEFAULT _
                   self_archiveType o _ _ _ _ _ _ _ _ _ made r made' Hrun));
    try elsewhere.
  intros keywords Hnames Hpops _ _ _ _ _. cbv zeta. simpl kwargs.
  split; [exact Hnames|].
  intros key default Hin.
  exact (proj1 (Forall_forall _ _) Hpops (key, default) Hin).
Qed.

(** X25.  The layout of the map: with a 'legend' of [map_kwargs] equal to
    [False], or none, the 'gridspec_kwargs' passed on have the
    'width_ratios' [.5, 16, 1] in place of the caller's and are the
    caller's otherwise; with another 'legend' they are the caller's. *)
Theorem dashboard_map_layout (made made' : list call)
    (r : outcome (pyval * dict)) :
  run made = (r, made') ->
  exists added,
    made' = (made ++ added)%list /\ Forall (map_layout_call o) added.
Proof.
  intros Hrun.
  refine (proj1 (triple_dashboard respond LipdToOntology PLOT_DEFAULT _
                   self_archiveType o _ _ _ _ _ _ _ _ _ made r made' Hrun));
    try elsewhere.
  intros keywords _ _ _ _ Hforced Hkept _. cbv zeta. simpl kwargs.
  unfold pop in Hforced, Hkept. simpl fst in Hforced, Hkept.
  split; [|exact Hkept].
  intros Hlegend. destruct (Hforced Hlegend) as (d & Hd & Hpassed).
  exists d, (setitem "width_ratios"
               (PList [PNum (1 # 2); PNum 16; PNum 1]) d).
  split; [exact Hd|]. split; [exact Hpassed|].
  split; [apply lookup_setitem_same|].
  intros k Hk. apply lookup_setitem_other, Hk.
Qed.

(** X26.  The 'edgecolor' of [map_kwargs] reaches the map inside
    [scatter_kwargs]; without one, [scatter_kwargs] is passed on as it
    came, [None] included. *)
Theorem dashboard_map_edgecolor (made made' : list call)
    (r : outcome (pyval * dict)) :
  run made = (r, made') ->
  exists added,
    made' = (made ++ added)%list /\ Forall (map_scatter_call o) added.
Proof.
  intros Hrun.
  refine (proj1 (triple_dashboard respond LipdToOntology PLOT_DEFAULT _
                   self_archiveType o _ _ _ _ _ _ _ _ _ made r made' Hrun));
    try elsewhere.
  intros keywords _ _ Hedge Hnone _ _ _. simpl kwargs.
  destruct (lookup "edgecolor" (copy_or_empty (map_kwargs o))) as [e|].
  - exact (Hedge e eq_refl).
  - exact (Hnone eq_refl).
Qed.

(** X27.  With an 'edgecolor' in [map_kwargs] and no [scatter_kwargs],
    [dashboard] does not return: the map is not drawn, no spectrum is
    computed or plotted and no figure is saved. *)
Theorem dashboard_edgecolor_without_scatter_kwargs (edgecolor : pyval)
    (made made' : list call) (r : outcome (pyval * dict)) :
  lookup "edgecolor" (copy_or_empty (map_kwargs o)) = Some edgecolor ->
  scatter_kwargs o = None ->
  run made = (r, made') ->
  returned r = false
  /\ exists added,
       made' = (made ++ added)%list
       /\ Forall (fun c => ~ In (callee c)
                             ["mapping.scatter_map"; "ts_preprocess.spectral";
                              "psds.plot_envelope"; "plotting.savefig"])
                 added.
Proof.
  intros Hedge Hnone Hrun.
  assert (Hnot : ~ map_passed o).
  { intros Hmap. destruct (Hmap edgecolor Hedge) as (d & Hd). congruence. }
  assert (H : triple (fun c => ~ In (callee c)
                         ["mapping.scatter_map"; "ts_preprocess.spectral";
                          "psds.plot_envelope"; "plotting.savefig"])
                run (fun _ => map_passed o)).
  { apply triple_dashboard.
    - intros name positional Hin Hc. simpl in Hin, Hc.
      repeat (destruct Hin as [<-|Hin]; [intuition discriminate|]).
      exact Hin.
    - intros Hc. simpl in Hc. intuition discriminate.
    - intros; intros Hc; simpl in Hc; intuition discriminate.
    - intros; intros Hc; simpl in Hc; intuition discriminate.
    - intros; intros Hc; simpl in Hc; intuition discriminate.
    - intros keywords _ _ Hsome _ _ _ _.
      destruct (Hsome edgecolor Hedge) as (d & Hd & _). congruence.
    - intros ts_preprocess Hmap. contradiction.
    - intros psds ax d1 d2 Hmap. contradiction.
    - intros fig Hmap. contradiction. }
  destruct (H made r made' Hrun) as [Hcalls Hret].
  split; [|exact Hcalls].
  destruct r as [v|e]; [|reflexivity].
  exfalso. exact (Hnot (Hret v eq_refl)).
Qed.

(** X28.  [GridSpec] is called only when no [gs] is given, with the
    defaults updated by [gridspec_kwargs] as keywords and as many rows
    and columns as these have height and width ratios. *)
Theorem dashboard_gridspec (made made' : list call)
    (r : outcome (pyval * dict)) :
  run made = (r, made') ->
  exists added,
    made' = (made ++ added)%list /\ Forall (gridspec_call o) added.
Proof.
  intros Hrun.
  refine (proj1 (triple_dashboard respond LipdToOntology PLOT_DEFAULT _
                   self_archiveType o _ _ _ _ _ _ _ _ _ made r made' Hrun));
    try elsewhere.
  intros h w n m Hgs Hh Hn Hw Hm _. simpl kwargs. simpl args.
  split; [exact Hgs|]. split; [reflexivity|].
  exists h, w, n, m. repeat split; assumption.
Qed.

(** X29.  The figure is saved only if [savefig_settings] has a 'path',
    and then with the caller's settings. *)
Theorem dashboard_savefig (made made' : list call)
    (r : outcome (pyval * dict)) :
  run made = (r, made') ->
  exists added,
    made' = (made ++ added)%list /\ Forall (savefig_call o) added.
Proof.
  intros Hrun.
  refine (proj1 (triple_dashboard respond LipdToOntology PLOT_DEFAULT _
                   self_archiveType o _ _ _ _ _ _ _ _ _ made r made' Hrun));
    elsewhere.
Qed.

End Calls.
Lemma dashboard_timeseries_colours_witness :
  let run :=
    dashboard obliging lower_case_free plot_defaults (Some "ice core")
      styled_options [] in
  returned (fst run) = true
  /\ called_with "self.common_time().plot_envelope" "shade_clr" "red"
       (snd run) = true
  /\ exists added,
       snd run = ([] ++ added)%list
       /\ Forall (timeseries_call plot_defaults
                 (plot_archiveType lower_case_free plot_defaults
                    (Some "ice core"))
                 styled_options)
                 added.
Proof.
  split; [vm_compute; reflexivity|].
  split; [vm_compute; reflexivity|].
  exact (dashboard_timeseries_colours obliging lower_case_free plot_defaults
           (Some "ice core") styled_options [] _ _
           (surjective_pairing _)).
Defined.

Lemma dashboard_histogram_settings_witness :
  let run :=
    dashboard obliging lower_case_free plot_defaults (Some "ice core")
      styled_options [] in
  returned (fst run) = true
  /\ called_with "self.histplot" "ylabel" "Counts" (snd run) = true
  /\ exists added,
       snd run = ([] ++ added)%list
       /\ Forall (histogram_call plot_defaults
                 (plot_archiveType lower_case_free plot_defaults
                    (Some "ice core"))
                 styled_options)
                 added.
Proof.
  split; [vm_compute; reflexivity|].
  split; [vm_compute; reflexivity|].
  exact (dashboard_histogram_settings obliging lower_case_free plot_defaults
           (Some "ice core") styled_options [] _ _
           (surjective_pairing _)).
Defined.

Lemma dashboard_spectrum_shade_colour_witness :
  let run :=
    dashboard obliging lower_case_free plot_defaults (Some "ice core")
      styled_options [] in
  returned (fst run) = true
  /\ called_with "psds.plot_envelope" "shade_clr" "#86CDFA" (snd run) = true
  /\ exists added,
       snd run = ([] ++ added)%list
       /\ Forall (spectrum_call plot_defaults
                 (plot_archiveType lower_case_free plot_defaults
                    (Some "ice core"))
                 styled_options)
                 added.
Proof.
  split; [vm_compute; reflexivity|].
  split; [vm_compute; reflexivity|].
  exact (dashboard_spectrum_shade_colour obliging lower_case_free plot_defaults
           (Some "ice core") styled_options [] _ _
           (surjective_pairing _)).
Defined.

Lemma dashboard_spectral_defaults_witness :
  let run :=
    dashboard obliging lower_case_free plot_defaults (Some "ice core")
      styled_options [] in
  returned (fst run) = true
  /\ called_with "ts_preprocess.spectral" "freq" "lomb_scargle" (snd run) = true
  /\ exists added,
       snd run = ([] ++ added)%list
       /\ Forall (spectral_call styled_options)
                 added.
Proof.
  split; [vm_compute; reflexivity|].
  split; [vm_compute; reflexivity|].
  exact (dashboard_spectral_defaults obliging lower_case_free plot_defaults
           (Some "ice core") styled_options [] _ _
           (surjective_pairing _)).
Defined.

Lemma dashboard_map_keywords_witness :
  let run :=
    dashboard obliging lower_case_free plot_defaults (Some "ice core")
      styled_options [] in
  returned (fst run) = true
  /\ called_with "mapping.scatter_map" "projection" "Robinson" (snd run) = true
  /\ exists added,
       snd run = ([] ++ added)%list
       /\ Forall (map_keywords_call styled_options)
                 added.
Proof.
  split; [vm_compute; reflexivity|].
  split; [vm_compute; reflexivity|].
  exact (dashboard_map_keywords obliging lower_case_free plot_defaults
           (Some "ice core") styled_options [] _ _
           (surjective_pairing _)).
Defined.

Lemma dashboard_map_layout_witness :
  let run :=
    dashboard obliging lower_case_free plot_defaults (Some "ice core")
      styled_options [] in
  returned (fst run) = true
  /\ called "mapping.scatter_map" (snd run) = true
  /\ exists added,
       snd run = ([] ++ added)%list
       /\ Forall (map_layout_call styled_options)
                 added.
Proof.
  split; [vm_compute; reflexivity|].
  split; [vm_compute; reflexivity|].
  exact (dashboard_map_layout obliging lower_case_free plot_defaults
           (Some "ice core") styled_options [] _ _
           (surjective_pairing _)).
Defined.

Lemma dashboard_map_edgecolor_witness :
  let run :=
    dashboard obliging lower_case_free plot_defaults (Some "ice core")
      styled_options [] in
  returned (fst run) = true
  /\ called "mapping.scatter_map" (snd run) = true
  /\ exists added,
       snd run = ([] ++ added)%list
       /\ Forall (map_scatter_call styled_options)
                 added.
Proof.
  split; [vm_compute; reflexivity|].
  split; [vm_compute; reflexivity|].
  exact (dashboard_map_edgecolor obliging lower_case_free plot_defaults
           (Some "ice core") styled_options [] _ _
           (surjective_pairing _)).
Defined.

Lemma dashboard_gridspec_witness :
  let run :=
    dashboard obliging lower_case_free plot_defaults (Some "ice core")
      styled_options [] in
  returned (fst run) = true
  /\ called "gridspec.GridSpec" (snd run) = true
  /\ exists added,
       snd run = ([] ++ added)%list
       /\ Forall (gridspec_call styled_options)
                 added.
Proof.
  split; [vm_compute; reflexivity|].
  split; [vm_compute; reflexivity|].
  exact (dashboard_gridspec obliging lower_case_free plot_defaults
           (Some "ice core") styled_options [] _ _
           (surjective_pairing _)).
Defined.

Lemma dashboard_savefig_witness :
  let run :=
    dashboard obliging lower_case_free plot_defaults (Some "ice core")
      styled_options [] in
  returned (fst run) = true
  /\ called "plotting.savefig" (snd run) = true
  /\ exists added,
       snd run = ([] ++ added)%list
       /\ Forall (savefig_call styled_options)
                 added.
Proof.
  split; [vm_compute; reflexivity|].
  split; [vm_compute; reflexivity|].
  exact (dashboard_savefig obliging lower_case_free plot_defaults
           (Some "ice core") styled_options [] _ _
           (surjective_pairing _)).
Defined.

Lemma dashboard_edgecolor_without_scatter_kwargs_witness :
  let run :=
    dashboard obliging lower_case_free plot_defaults (Some "ice core")
      unscattered_options [] in
  lookup "edgecolor" (copy_or_empty (map_kwargs unscattered_options))
  = Some (PStr "k")
  /\ scatter_kwargs unscattered_options = None
  /\ called "self.histplot" (snd run) = true
  /\ returned (fst run) = false
  /\ exists added,
       snd run = ([] ++ added)%list
       /\ Forall (fun c => ~ In (callee c)
                             ["mapping.scatter_map"; "ts_preprocess.spectral";
                              "psds.plot_envelope"; "plotting.savefig"])
                 added.
Proof.
  split; [reflexivity|]. split; [reflexivity|].
  split; [vm_compute; reflexivity|].
  exact (dashboard_edgecolor_without_scatter_kwargs obliging lower_case_free
           plot_defaults (Some "ice core") unscattered_options (PStr "k")
           [] _ _ eq_refl eq_refl (surjective_pairing _)).
Defined.

End DashboardFacts.
